(** * Millpoint QC: the quality workflow engine of [app.py]

    A shallow embedding of the helpers and request handlers of [app.py]
    that carry the workflow logic: the part registry
    ([get_or_create_part]), the tolerance evaluator
    ([calculate_pass_fail]), the exit-control sampler
    ([calculate_exit_control_samples]), the job stage handler
    ([job_update_stage]), the exit-control handlers
    ([exit_control_record_sample], [exit_control_complete]), the supplier
    error-report handlers ([material_error_report],
    [external_error_report]) and the error-report update handler
    ([error_report_update]).

    - Python [float] is IEEE 754 binary64 and is modelled by Rocq's
      primitive [float]; [int] is unbounded and is [Z]; [str] is [string];
      a value that may be [None] is an [option].
    - The SQLite database is a record of tables.  A table is the list of
      its rows in rowid order together with its [AUTOINCREMENT] counter; a
      row is a record with one field per column of [init_db].  [SELECT]
      filters, [UPDATE] maps over the rows that match, [INSERT] appends.
      A statement that names a column its table does not have raises
      [OperationalError], as SQLite does.
    - A handler is a function from the database to an answer or an
      exception, and the database it leaves.  [execute_db] commits every
      statement, so what ran before an exception stays written.
    - [CURRENT_TIMESTAMP] is the [now] argument of a handler, the logged-in
      user its [current_user] argument, the submitted form a record of
      optional strings. *)

From Stdlib Require Import ZArith List Bool Lia Sorted.
From Stdlib Require Import Strings.String Strings.Ascii DecimalString.
From Stdlib Require Import Floats.
From Equations Require Import Equations.
Import ListNotations.

Local Open Scope string_scope.
Local Open Scope list_scope.
Local Open Scope Z_scope.

(** ** Python values *)

(** Truthiness of [request.form.get(k)]: [None] and the empty string are
    false, every other string is true. *)
Definition truthy (v : option string) : bool :=
  match v with
  | None => false
  | Some s => negb (s =? "")%string
  end.

(** [a or b] on an optional string that falls back to a string. *)
Definition or_else (v : option string) (d : string) : string :=
  if truthy v then match v with Some s => s | None => d end else d.

(** [v == s] where [v] may be [None] and [s] is a string literal. *)
Definition py_eq (v : option string) (s : string) : bool :=
  match v with
  | None => false
  | Some x => (x =? s)%string
  end.

(** [range(lo, hi)] *)
Definition range (lo hi : Z) : list Z :=
  map (fun i => lo + Z.of_nat i) (seq 0 (Z.to_nat (hi - lo))).

(** ** Tolerance evaluator *)

(** A row of [job_dimensions], as [calculate_pass_fail] reads it.
    [nominal_value] is [REAL NOT NULL]; the tolerances and the unit are
    nullable columns. *)
Record job_dimension := {
  d_id : Z;
  d_job_id : Z;
  d_dimension_number : Z;
  d_dimension_name : string;
  d_nominal_value : float;
  d_tolerance_plus : option float;
  d_tolerance_minus : option float;
  d_unit : option string;
  d_drawing_reference : option string;
  d_critical : option Z;
  d_created_at : option string
}.

Definition calculate_pass_fail (dimension : job_dimension) (actual_value : float)
  : string :=
  let nominal := d_nominal_value dimension in
  let tol_plus := d_tolerance_plus dimension in
  let tol_minus := d_tolerance_minus dimension in
  if py_eq (d_unit dimension) "go/nogo" then
    if PrimFloat.eqb actual_value 1%float then "pass" else "fail"
  else
    match tol_plus, tol_minus with
    | Some tp, Some tm =>
        let upper_limit := PrimFloat.add nominal tp in
        let lower_limit := PrimFloat.add nominal tm in
        if PrimFloat.leb lower_limit actual_value
           && PrimFloat.leb actual_value upper_limit
        then "pass" else "fail"
    | _, _ => "pass"
    end.

(** The tolerance window of a dimension with both tolerances, in the
    arithmetic of the code (binary64 addition). *)
Definition upper_limit (d : job_dimension) (tp : float) : float :=
  PrimFloat.add (d_nominal_value d) tp.
Definition lower_limit (d : job_dimension) (tm : float) : float :=
  PrimFloat.add (d_nominal_value d) tm.

(** [lo <= a <= hi] as Python evaluates the chained comparison. *)
Definition within (lo a hi : float) : bool :=
  PrimFloat.leb lo a && PrimFloat.leb a hi.

(** ** Exit-control sampler *)

(** [for x in xs: samples.append(x)] *)
Definition append_each (samples xs : list Z) : list Z :=
  fold_left (fun acc x => acc ++ [x]) xs samples.

(** The [while part <= lot_quantity] loop: each turn appends [part] and
    advances it by 10.  The distance [lot_quantity - part] shrinks on each
    turn, so the loop terminates. *)
Equations? every_tenth_loop (lot_quantity : Z) (samples : list Z) (part : Z)
  : list Z by wf (Z.to_nat (lot_quantity - part + 1)) lt :=
  every_tenth_loop lot_quantity samples part
    with Z_le_gt_dec part lot_quantity => {
    | left _ := every_tenth_loop lot_quantity (samples ++ [part]) (part + 10);
    | right _ := samples }.
Proof. lia. Qed.

(** Number of turns of the loop entered with [part]. *)
Definition turns (lot_quantity part : Z) : nat :=
  Z.to_nat ((lot_quantity - part + 10) / 10).

Definition calculate_exit_control_samples (lot_quantity : Z) : list Z :=
  let samples := [] in
  let samples := append_each samples (range 1 (Z.min 6 (lot_quantity + 1))) in
  if (5 <? lot_quantity)%Z then every_tenth_loop lot_quantity samples 15
  else samples.

(** The sampling plan in the words of the specification: positions
    [1..min(5, lotQuantity)], then, for a lot of more than five, every
    tenth position from 15 up to and including [lotQuantity]. *)
Definition first_positions (lotQuantity : Z) : list Z :=
  map Z.of_nat (seq 1 (Z.to_nat (Z.min 5 lotQuantity))).

Definition every_tenth_from_15 (lotQuantity : Z) : list Z :=
  map (fun k => 15 + 10 * Z.of_nat k) (seq 0 (Z.to_nat ((lotQuantity - 5) / 10))).

Definition computeSamplePositions (lotQuantity : Z) : list Z :=
  first_positions lotQuantity ++
  (if (5 <? lotQuantity)%Z then every_tenth_from_15 lotQuantity else []).

(** Membership in the plan, position by position. *)
Definition in_sample_plan (lotQuantity p : Z) : Prop :=
  1 <= p <= Z.min 5 lotQuantity \/
  (5 < lotQuantity /\ 15 <= p <= lotQuantity /\ (p - 15) mod 10 = 0).

(** ** SQLite tables *)

(** [str(n)] of an integer, as an f-string formats it. *)
Definition str_of_Z (z : Z) : string := NilZero.string_of_int (Z.to_int z).

(** [str(v)] of a form value that may be [None]. *)
Definition str_of_opt (v : option string) : string :=
  match v with
  | Some s => s
  | None => "None"
  end.

(** [CURRENT_TIMESTAMP] is a text value. *)
Definition timestamp := string.

(** A value bound to a column without a fixed Python type. *)
Inductive sqlval :=
| SInt (z : Z)
| SText (s : string).

(** Exceptions that leave a handler. *)
Inductive exn :=
| OperationalError (msg : string)   (* sqlite3: no such column *)
| IntegrityError (msg : string)     (* sqlite3: constraint failed *)
| TypeError (msg : string)          (* subscript of None *)
| BadRequestKeyError (key : string). (* request.form[key], key missing *)

(** A table: its rows in rowid order and the largest rowid handed out so
    far ([sqlite_sequence], every table is [AUTOINCREMENT]). *)
Record table (R : Type) := {
  rows : list R;
  seq_no : Z
}.
Arguments rows {R} _.
Arguments seq_no {R} _.

Definition sql_select {R} (where_ : R -> bool) (t : table R) : list R :=
  filter where_ (rows t).

(** [query_db(..., one=True)]: [rv[0] if rv else None]. *)
Definition query_one {R} (where_ : R -> bool) (t : table R) : option R :=
  hd_error (sql_select where_ t).

Definition sql_update {R} (where_ : R -> bool) (set : R -> R) (t : table R)
  : table R :=
  {| rows := map (fun r => if where_ r then set r else r) (rows t);
     seq_no := seq_no t |}.

Definition next_rowid {R} (id_of : R -> Z) (t : table R) : Z :=
  Z.max (seq_no t) (fold_right Z.max 0 (map id_of (rows t))) + 1.

Definition sql_insert {R} (id_of : R -> Z) (mk : Z -> R) (t : table R)
  : Z * table R :=
  let rowid := next_rowid id_of t in
  (rowid, {| rows := rows t ++ [mk rowid]; seq_no := rowid |}).

(** A statement names columns; SQLite refuses it when the table lacks one. *)
Definition has_columns (schema cols : list string) : bool :=
  forallb (fun c => existsb (String.eqb c) schema) cols.

Definition no_such_column : exn := OperationalError "no such column".

(** The columns of the tables, from the [CREATE TABLE] statements and the
    [ALTER TABLE] migrations of [init_db]. *)
Definition parts_columns : list string :=
  ["id"; "part_number"; "part_revision"; "part_description"; "created_at";
   "updated_at"].

Definition jobs_columns : list string :=
  ["id"; "po_number"; "internal_job_number"; "customer_id"; "part_id";
   "part_number"; "part_revision"; "part_description"; "quantity"; "due_date";
   "workflow_stage"; "drawing_number"; "revision_verified";
   "revision_verified_by"; "revision_verified_at"; "special_requirements";
   "created_at"; "updated_at"; "completed_at"].

Definition material_controls_columns : list string :=
  ["id"; "job_id"; "inspector_id"; "inspection_date"; "material_type";
   "supplier_id"; "batch_number"; "quantity_received"; "certificate_matches";
   "visual_ok"; "dimensions_ok"; "status"; "notes"; "created_at"].

Definition external_processes_columns : list string :=
  ["id"; "job_id"; "inspector_id"; "process_type"; "process_description";
   "supplier_id"; "sent_date"; "received_date"; "inspection_date"; "visual_ok";
   "thickness_ok"; "color_ok"; "adhesion_ok"; "status"; "notes"; "created_at";
   "updated_at"].

Definition exit_controls_columns : list string :=
  ["id"; "job_id"; "inspector_id"; "inspection_date"; "lot_quantity";
   "overall_status"; "notes"; "created_at"].

Definition exit_control_samples_columns : list string :=
  ["id"; "exit_control_id"; "part_number"; "dimensions_ok"; "visual_ok";
   "surface_ok"; "overall_pass"; "notes"; "inspected_at"].

Definition error_reports_columns : list string :=
  ["id"; "job_id"; "reported_by"; "workflow_stage"; "found_date"; "severity";
   "description"; "affected_quantity"; "disposition"; "root_cause";
   "corrective_action"; "status"; "assigned_to"; "resolved_date";
   "closed_date"; "error_type"; "supplier_id"; "material_control_id";
   "external_process_id"; "created_at"; "updated_at"].

Definition notifications_columns : list string :=
  ["id"; "user_id"; "notification_type"; "title"; "message"; "entity_type";
   "entity_id"; "read"; "created_at"].

Definition audit_logs_columns : list string :=
  ["id"; "user_id"; "action"; "entity_type"; "entity_id"; "description";
   "changes"; "timestamp"].

(** ** Rows

    One record per table, one field per column.  A nullable column is an
    [option]; an [INTEGER PRIMARY KEY] is a [Z]. *)

Record user_row := {
  u_id : Z;
  u_username : string;
  u_email : option string;
  u_password_hash : string;
  u_role : string;
  u_active : option Z;
  u_created_at : option timestamp
}.

Record part_row := {
  p_id : Z;
  p_part_number : string;
  p_part_revision : string;
  p_part_description : option string;
  p_created_at : option timestamp;
  p_updated_at : option timestamp
}.

Record job_row := {
  j_id : Z;
  j_po_number : string;
  j_internal_job_number : option string;
  j_customer_id : option Z;
  j_part_id : option Z;
  j_part_number : string;
  j_part_revision : option string;
  j_part_description : option string;
  j_quantity : Z;
  j_due_date : option string;
  j_workflow_stage : string;
  j_drawing_number : option string;
  j_revision_verified : option Z;
  j_revision_verified_by : option Z;
  j_revision_verified_at : option timestamp;
  j_special_requirements : option string;
  j_created_at : option timestamp;
  j_updated_at : option timestamp;
  j_completed_at : option timestamp
}.

Record material_control_row := {
  mcr_id : Z;
  mcr_job_id : Z;
  mcr_inspector_id : option Z;
  mcr_inspection_date : option timestamp;
  mcr_material_type : string;
  mcr_supplier_id : option Z;
  mcr_batch_number : option string;
  mcr_quantity_received : option string;
  mcr_certificate_matches : option Z;
  mcr_visual_ok : option Z;
  mcr_dimensions_ok : option Z;
  mcr_status : string;
  mcr_notes : option string;
  mcr_created_at : option timestamp
}.

Record external_process_row := {
  epr_id : Z;
  epr_job_id : Z;
  epr_inspector_id : option Z;
  epr_process_type : string;
  epr_process_description : option string;
  epr_supplier_id : option Z;
  epr_sent_date : option string;
  epr_received_date : option string;
  epr_inspection_date : option timestamp;
  epr_visual_ok : option Z;
  epr_thickness_ok : option Z;
  epr_color_ok : option Z;
  epr_adhesion_ok : option Z;
  epr_status : string;
  epr_notes : option string;
  epr_created_at : option timestamp;
  epr_updated_at : option timestamp
}.

Record exit_control_row := {
  ecr_id : Z;
  ecr_job_id : Z;
  ecr_inspector_id : option Z;
  ecr_inspection_date : option timestamp;
  ecr_lot_quantity : Z;
  ecr_overall_status : string;
  ecr_notes : option string;
  ecr_created_at : option timestamp
}.

Record exit_control_sample_row := {
  s_id : Z;
  s_exit_control_id : Z;
  s_part_number : Z;
  s_dimensions_ok : option Z;
  s_visual_ok : option Z;
  s_surface_ok : option Z;
  s_overall_pass : option Z;
  s_notes : option string;
  s_inspected_at : option timestamp
}.

Record error_report_row := {
  er_id : Z;
  er_job_id : Z;
  er_reported_by : option Z;
  er_workflow_stage : string;
  er_found_date : option timestamp;
  er_severity : string;
  er_description : string;
  er_affected_quantity : option sqlval;
  er_disposition : option string;
  er_root_cause : option string;
  er_corrective_action : option string;
  er_status : string;
  er_assigned_to : option sqlval;
  er_resolved_date : option timestamp;
  er_closed_date : option timestamp;
  er_error_type : option string;
  er_supplier_id : option Z;
  er_material_control_id : option Z;
  er_external_process_id : option Z;
  er_created_at : option timestamp;
  er_updated_at : option timestamp
}.

Record notification_row := {
  n_id : Z;
  n_user_id : Z;
  n_notification_type : string;
  n_title : string;
  n_message : option string;
  n_entity_type : option string;
  n_entity_id : option Z;
  n_read : option Z;
  n_created_at : option timestamp
}.

(** [action] is bound to a string by some callers and to the user id by
    others, so it is kept as the value bound. *)
Record audit_log_row := {
  a_id : Z;
  a_user_id : option Z;
  a_action : sqlval;
  a_entity_type : string;
  a_entity_id : Z;
  a_description : option string;
  a_changes : option string;
  a_timestamp : option timestamp
}.

(** The database. *)
Record db := {
  users : table user_row;
  parts : table part_row;
  jobs : table job_row;
  material_controls : table material_control_row;
  external_processes : table external_process_row;
  exit_controls : table exit_control_row;
  exit_control_samples : table exit_control_sample_row;
  error_reports : table error_report_row;
  notifications : table notification_row;
  audit_logs : table audit_log_row
}.

(** ** Writing a table of the database and a column of a row *)

Definition with_users (d : db) (t : table user_row) : db :=
  {| users := t; parts := parts d; jobs := jobs d;
     material_controls := material_controls d;
     external_processes := external_processes d;
     exit_controls := exit_controls d;
     exit_control_samples := exit_control_samples d;
     error_reports := error_reports d; notifications := notifications d;
     audit_logs := audit_logs d |}.

Definition with_parts (d : db) (t : table part_row) : db :=
  {| users := users d; parts := t; jobs := jobs d;
     material_controls := material_controls d;
     external_processes := external_processes d;
     exit_controls := exit_controls d;
     exit_control_samples := exit_control_samples d;
     error_reports := error_reports d; notifications := notifications d;
     audit_logs := audit_logs d |}.

Definition with_jobs (d : db) (t : table job_row) : db :=
  {| users := users d; parts := parts d; jobs := t;
     material_controls := material_controls d;
     external_processes := external_processes d;
     exit_controls := exit_controls d;
     exit_control_samples := exit_control_samples d;
     error_reports := error_reports d; notifications := notifications d;
     audit_logs := audit_logs d |}.

Definition with_material_controls (d : db) (t : table material_control_row) : db :=
  {| users := users d; parts := parts d; jobs := jobs d;
     material_controls := t; external_processes := external_processes d;
     exit_controls := exit_controls d;
     exit_control_samples := exit_control_samples d;
     error_reports := error_reports d; notifications := notifications d;
     audit_logs := audit_logs d |}.

Definition with_external_processes (d : db) (t : table external_process_row) : db :=
  {| users := users d; parts := parts d; jobs := jobs d;
     material_controls := material_controls d; external_processes := t;
     exit_controls := exit_controls d;
     exit_control_samples := exit_control_samples d;
     error_reports := error_reports d; notifications := notifications d;
     audit_logs := audit_logs d |}.

Definition with_exit_controls (d : db) (t : table exit_control_row) : db :=
  {| users := users d; parts := parts d; jobs := jobs d;
     material_controls := material_controls d;
     external_processes := external_processes d; exit_controls := t;
     exit_control_samples := exit_control_samples d;
     error_reports := error_reports d; notifications := notifications d;
     audit_logs := audit_logs d |}.

Definition with_exit_control_samples (d : db) (t : table exit_control_sample_row) : db :=
  {| users := users d; parts := parts d; jobs := jobs d;
     material_controls := material_controls d;
     external_processes := external_processes d;
     exit_controls := exit_controls d; exit_control_samples := t;
     error_reports := error_reports d; notifications := notifications d;
     audit_logs := audit_logs d |}.

Definition with_error_reports (d : db) (t : table error_report_row) : db :=
  {| users := users d; parts := parts d; jobs := jobs d;
     material_controls := material_controls d;
     external_processes := external_processes d;
     exit_controls := exit_controls d;
     exit_control_samples := exit_control_samples d; error_reports := t;
     notifications := notifications d; audit_logs := audit_logs d |}.

Definition with_notifications (d : db) (t : table notification_row) : db :=
  {| users := users d; parts := parts d; jobs := jobs d;
     material_controls := material_controls d;
     external_processes := external_processes d;
     exit_controls := exit_controls d;
     exit_control_samples := exit_control_samples d;
     error_reports := error_reports d; notifications := t;
     audit_logs := audit_logs d |}.

Definition with_audit_logs (d : db) (t : table audit_log_row) : db :=
  {| users := users d; parts := parts d; jobs := jobs d;
     material_controls := material_controls d;
     external_processes := external_processes d;
     exit_controls := exit_controls d;
     exit_control_samples := exit_control_samples d;
     error_reports := error_reports d; notifications := notifications d;
     audit_logs := t |}.

Definition set_p_part_description (v : option string) (r : part_row)
  : part_row :=
  {| p_id := p_id r; p_part_number := p_part_number r;
     p_part_revision := p_part_revision r; p_part_description := v;
     p_created_at := p_created_at r; p_updated_at := p_updated_at r |}.

Definition set_p_updated_at (v : option timestamp) (r : part_row)
  : part_row :=
  {| p_id := p_id r; p_part_number := p_part_number r;
     p_part_revision := p_part_revision r;
     p_part_description := p_part_description r;
     p_created_at := p_created_at r; p_updated_at := v |}.

Definition set_j_workflow_stage (v : string) (r : job_row)
  : job_row :=
  {| j_id := j_id r; j_po_number := j_po_number r;
     j_internal_job_number := j_internal_job_number r;
     j_customer_id := j_customer_id r; j_part_id := j_part_id r;
     j_part_number := j_part_number r; j_part_revision := j_part_revision r;
     j_part_description := j_part_description r; j_quantity := j_quantity r;
     j_due_date := j_due_date r; j_workflow_stage := v;
     j_drawing_number := j_drawing_number r;
     j_revision_verified := j_revision_verified r;
     j_revision_verified_by := j_revision_verified_by r;
     j_revision_verified_at := j_revision_verified_at r;
     j_special_requirements := j_special_requirements r;
     j_created_at := j_created_at r; j_updated_at := j_updated_at r;
     j_completed_at := j_completed_at r |}.

Definition set_j_updated_at (v : option timestamp) (r : job_row)
  : job_row :=
  {| j_id := j_id r; j_po_number := j_po_number r;
     j_internal_job_number := j_internal_job_number r;
     j_customer_id := j_customer_id r; j_part_id := j_part_id r;
     j_part_number := j_part_number r; j_part_revision := j_part_revision r;
     j_part_description := j_part_description r; j_quantity := j_quantity r;
     j_due_date := j_due_date r; j_workflow_stage := j_workflow_stage r;
     j_drawing_number := j_drawing_number r;
     j_revision_verified := j_revision_verified r;
     j_revision_verified_by := j_revision_verified_by r;
     j_revision_verified_at := j_revision_verified_at r;
     j_special_requirements := j_special_requirements r;
     j_created_at := j_created_at r; j_updated_at := v;
     j_completed_at := j_completed_at r |}.

Definition set_j_completed_at (v : option timestamp) (r : job_row)
  : job_row :=
  {| j_id := j_id r; j_po_number := j_po_number r;
     j_internal_job_number := j_internal_job_number r;
     j_customer_id := j_customer_id r; j_part_id := j_part_id r;
     j_part_number := j_part_number r; j_part_revision := j_part_revision r;
     j_part_description := j_part_description r; j_quantity := j_quantity r;
     j_due_date := j_due_date r; j_workflow_stage := j_workflow_stage r;
     j_drawing_number := j_drawing_number r;
     j_revision_verified := j_revision_verified r;
     j_revision_verified_by := j_revision_verified_by r;
     j_revision_verified_at := j_revision_verified_at r;
     j_special_requirements := j_special_requirements r;
     j_created_at := j_created_at r; j_updated_at := j_updated_at r;
     j_completed_at := v |}.

Definition set_mcr_status (v : string) (r : material_control_row)
  : material_control_row :=
  {| mcr_id := mcr_id r; mcr_job_id := mcr_job_id r;
     mcr_inspector_id := mcr_inspector_id r;
     mcr_inspection_date := mcr_inspection_date r;
     mcr_material_type := mcr_material_type r;
     mcr_supplier_id := mcr_supplier_id r;
     mcr_batch_number := mcr_batch_number r;
     mcr_quantity_received := mcr_quantity_received r;
     mcr_certificate_matches := mcr_certificate_matches r;
     mcr_visual_ok := mcr_visual_ok r; mcr_dimensions_ok := mcr_dimensions_ok r;
     mcr_status := v; mcr_notes := mcr_notes r; mcr_created_at := mcr_created_at r |}.

Definition set_epr_status (v : string) (r : external_process_row)
  : external_process_row :=
  {| epr_id := epr_id r; epr_job_id := epr_job_id r;
     epr_inspector_id := epr_inspector_id r;
     epr_process_type := epr_process_type r;
     epr_process_description := epr_process_description r;
     epr_supplier_id := epr_supplier_id r; epr_sent_date := epr_sent_date r;
     epr_received_date := epr_received_date r;
     epr_inspection_date := epr_inspection_date r;
     epr_visual_ok := epr_visual_ok r; epr_thickness_ok := epr_thickness_ok r;
     epr_color_ok := epr_color_ok r; epr_adhesion_ok := epr_adhesion_ok r;
     epr_status := v; epr_notes := epr_notes r;
     epr_created_at := epr_created_at r; epr_updated_at := epr_updated_at r |}.

Definition set_epr_updated_at (v : option timestamp) (r : external_process_row)
  : external_process_row :=
  {| epr_id := epr_id r; epr_job_id := epr_job_id r;
     epr_inspector_id := epr_inspector_id r;
     epr_process_type := epr_process_type r;
     epr_process_description := epr_process_description r;
     epr_supplier_id := epr_supplier_id r; epr_sent_date := epr_sent_date r;
     epr_received_date := epr_received_date r;
     epr_inspection_date := epr_inspection_date r;
     epr_visual_ok := epr_visual_ok r; epr_thickness_ok := epr_thickness_ok r;
     epr_color_ok := epr_color_ok r; epr_adhesion_ok := epr_adhesion_ok r;
     epr_status := epr_status r; epr_notes := epr_notes r;
     epr_created_at := epr_created_at r; epr_updated_at := v |}.

Definition set_ecr_overall_status (v : string) (r : exit_control_row)
  : exit_control_row :=
  {| ecr_id := ecr_id r; ecr_job_id := ecr_job_id r;
     ecr_inspector_id := ecr_inspector_id r;
     ecr_inspection_date := ecr_inspection_date r;
     ecr_lot_quantity := ecr_lot_quantity r; ecr_overall_status := v;
     ecr_notes := ecr_notes r; ecr_created_at := ecr_created_at r |}.

Definition set_s_dimensions_ok (v : option Z) (r : exit_control_sample_row)
  : exit_control_sample_row :=
  {| s_id := s_id r; s_exit_control_id := s_exit_control_id r;
     s_part_number := s_part_number r; s_dimensions_ok := v;
     s_visual_ok := s_visual_ok r; s_surface_ok := s_surface_ok r;
     s_overall_pass := s_overall_pass r; s_notes := s_notes r;
     s_inspected_at := s_inspected_at r |}.

Definition set_s_visual_ok (v : option Z) (r : exit_control_sample_row)
  : exit_control_sample_row :=
  {| s_id := s_id r; s_exit_control_id := s_exit_control_id r;
     s_part_number := s_part_number r; s_dimensions_ok := s_dimensions_ok r;
     s_visual_ok := v; s_surface_ok := s_surface_ok r;
     s_overall_pass := s_overall_pass r; s_notes := s_notes r;
     s_inspected_at := s_inspected_at r |}.

Definition set_s_surface_ok (v : option Z) (r : exit_control_sample_row)
  : exit_control_sample_row :=
  {| s_id := s_id r; s_exit_control_id := s_exit_control_id r;
     s_part_number := s_part_number r; s_dimensions_ok := s_dimensions_ok r;
     s_visual_ok := s_visual_ok r; s_surface_ok := v;
     s_overall_pass := s_overall_pass r; s_notes := s_notes r;
     s_inspected_at := s_inspected_at r |}.

Definition set_s_overall_pass (v : option Z) (r : exit_control_sample_row)
  : exit_control_sample_row :=
  {| s_id := s_id r; s_exit_control_id := s_exit_control_id r;
     s_part_number := s_part_number r; s_dimensions_ok := s_dimensions_ok r;
     s_visual_ok := s_visual_ok r; s_surface_ok := s_surface_ok r;
     s_overall_pass := v; s_notes := s_notes r;
     s_inspected_at := s_inspected_at r |}.

Definition set_s_notes (v : option string) (r : exit_control_sample_row)
  : exit_control_sample_row :=
  {| s_id := s_id r; s_exit_control_id := s_exit_control_id r;
     s_part_number := s_part_number r; s_dimensions_ok := s_dimensions_ok r;
     s_visual_ok := s_visual_ok r; s_surface_ok := s_surface_ok r;
     s_overall_pass := s_overall_pass r; s_notes := v;
     s_inspected_at := s_inspected_at r |}.

Definition set_s_inspected_at (v : option timestamp) (r : exit_control_sample_row)
  : exit_control_sample_row :=
  {| s_id := s_id r; s_exit_control_id := s_exit_control_id r;
     s_part_number := s_part_number r; s_dimensions_ok := s_dimensions_ok r;
     s_visual_ok := s_visual_ok r; s_surface_ok := s_surface_ok r;
     s_overall_pass := s_overall_pass r; s_notes := s_notes r;
     s_inspected_at := v |}.

Definition set_er_disposition (v : option string) (r : error_report_row)
  : error_report_row :=
  {| er_id := er_id r; er_job_id := er_job_id r;
     er_reported_by := er_reported_by r;
     er_workflow_stage := er_workflow_stage r;
     er_found_date := er_found_date r; er_severity := er_severity r;
     er_description := er_description r;
     er_affected_quantity := er_affected_quantity r; er_disposition := v;
     er_root_cause := er_root_cause r;
     er_corrective_action := er_corrective_action r;
     er_status := er_status r; er_assigned_to := er_assigned_to r;
     er_resolved_date := er_resolved_date r;
     er_closed_date := er_closed_date r; er_error_type := er_error_type r;
     er_supplier_id := er_supplier_id r;
     er_material_control_id := er_material_control_id r;
     er_external_process_id := er_external_process_id r;
     er_created_at := er_created_at r; er_updated_at := er_updated_at r |}.

Definition set_er_root_cause (v : option string) (r : error_report_row)
  : error_report_row :=
  {| er_id := er_id r; er_job_id := er_job_id r;
     er_reported_by := er_reported_by r;
     er_workflow_stage := er_workflow_stage r;
     er_found_date := er_found_date r; er_severity := er_severity r;
     er_description := er_description r;
     er_affected_quantity := er_affected_quantity r;
     er_disposition := er_disposition r; er_root_cause := v;
     er_corrective_action := er_corrective_action r;
     er_status := er_status r; er_assigned_to := er_assigned_to r;
     er_resolved_date := er_resolved_date r;
     er_closed_date := er_closed_date r; er_error_type := er_error_type r;
     er_supplier_id := er_supplier_id r;
     er_material_control_id := er_material_control_id r;
     er_external_process_id := er_external_process_id r;
     er_created_at := er_created_at r; er_updated_at := er_updated_at r |}.

Definition set_er_corrective_action (v : option string) (r : error_report_row)
  : error_report_row :=
  {| er_id := er_id r; er_job_id := er_job_id r;
     er_reported_by := er_reported_by r;
     er_workflow_stage := er_workflow_stage r;
     er_found_date := er_found_date r; er_severity := er_severity r;
     er_description := er_description r;
     er_affected_quantity := er_affected_quantity r;
     er_disposition := er_disposition r; er_root_cause := er_root_cause r;
     er_corrective_action := v; er_status := er_status r;
     er_assigned_to := er_assigned_to r;
     er_resolved_date := er_resolved_date r;
     er_closed_date := er_closed_date r; er_error_type := er_error_type r;
     er_supplier_id := er_supplier_id r;
     er_material_control_id := er_material_control_id r;
     er_external_process_id := er_external_process_id r;
     er_created_at := er_created_at r; er_updated_at := er_updated_at r |}.

Definition set_er_status (v : string) (r : error_report_row)
  : error_report_row :=
  {| er_id := er_id r; er_job_id := er_job_id r;
     er_reported_by := er_reported_by r;
     er_workflow_stage := er_workflow_stage r;
     er_found_date := er_found_date r; er_severity := er_severity r;
     er_description := er_description r;
     er_affected_quantity := er_affected_quantity r;
     er_disposition := er_disposition r; er_root_cause := er_root_cause r;
     er_corrective_action := er_corrective_action r; er_status := v;
     er_assigned_to := er_assigned_to r;
     er_resolved_date := er_resolved_date r;
     er_closed_date := er_closed_date r; er_error_type := er_error_type r;
     er_supplier_id := er_supplier_id r;
     er_material_control_id := er_material_control_id r;
     er_external_process_id := er_external_process_id r;
     er_created_at := er_created_at r; er_updated_at := er_updated_at r |}.

Definition set_er_assigned_to (v : option sqlval) (r : error_report_row)
  : error_report_row :=
  {| er_id := er_id r; er_job_id := er_job_id r;
     er_reported_by := er_reported_by r;
     er_workflow_stage := er_workflow_stage r;
     er_found_date := er_found_date r; er_severity := er_severity r;
     er_description := er_description r;
     er_affected_quantity := er_affected_quantity r;
     er_disposition := er_disposition r; er_root_cause := er_root_cause r;
     er_corrective_action := er_corrective_action r;
     er_status := er_status r; er_assigned_to := v;
     er_resolved_date := er_resolved_date r;
     er_closed_date := er_closed_date r; er_error_type := er_error_type r;
     er_supplier_id := er_supplier_id r;
     er_material_control_id := er_material_control_id r;
     er_external_process_id := er_external_process_id r;
     er_created_at := er_created_at r; er_updated_at := er_updated_at r |}.

Definition set_er_resolved_date (v : option timestamp) (r : error_report_row)
  : error_report_row :=
  {| er_id := er_id r; er_job_id := er_job_id r;
     er_reported_by := er_reported_by r;
     er_workflow_stage := er_workflow_stage r;
     er_found_date := er_found_date r; er_severity := er_severity r;
     er_description := er_description r;
     er_affected_quantity := er_affected_quantity r;
     er_disposition := er_disposition r; er_root_cause := er_root_cause r;
     er_corrective_action := er_corrective_action r;
     er_status := er_status r; er_assigned_to := er_assigned_to r;
     er_resolved_date := v; er_closed_date := er_closed_date r;
     er_error_type := er_error_type r; er_supplier_id := er_supplier_id r;
     er_material_control_id := er_material_control_id r;
     er_external_process_id := er_external_process_id r;
     er_created_at := er_created_at r; er_updated_at := er_updated_at r |}.

Definition set_er_closed_date (v : option timestamp) (r : error_report_row)
  : error_report_row :=
  {| er_id := er_id r; er_job_id := er_job_id r;
     er_reported_by := er_reported_by r;
     er_workflow_stage := er_workflow_stage r;
     er_found_date := er_found_date r; er_severity := er_severity r;
     er_description := er_description r;
     er_affected_quantity := er_affected_quantity r;
     er_disposition := er_disposition r; er_root_cause := er_root_cause r;
     er_corrective_action := er_corrective_action r;
     er_status := er_status r; er_assigned_to := er_assigned_to r;
     er_resolved_date := er_resolved_date r; er_closed_date := v;
     er_error_type := er_error_type r; er_supplier_id := er_supplier_id r;
     er_material_control_id := er_material_control_id r;
     er_external_process_id := er_external_process_id r;
     er_created_at := er_created_at r; er_updated_at := er_updated_at r |}.

Definition set_er_updated_at (v : option timestamp) (r : error_report_row)
  : error_report_row :=
  {| er_id := er_id r; er_job_id := er_job_id r;
     er_reported_by := er_reported_by r;
     er_workflow_stage := er_workflow_stage r;
     er_found_date := er_found_date r; er_severity := er_severity r;
     er_description := er_description r;
     er_affected_quantity := er_affected_quantity r;
     er_disposition := er_disposition r; er_root_cause := er_root_cause r;
     er_corrective_action := er_corrective_action r;
     er_status := er_status r; er_assigned_to := er_assigned_to r;
     er_resolved_date := er_resolved_date r;
     er_closed_date := er_closed_date r; er_error_type := er_error_type r;
     er_supplier_id := er_supplier_id r;
     er_material_control_id := er_material_control_id r;
     er_external_process_id := er_external_process_id r;
     er_created_at := er_created_at r; er_updated_at := v |}.

(** ** Handlers as state transformers

    A handler runs against the database and either returns a value or is
    left by an exception.  [execute_db] commits after every statement, so
    the statements executed before an exception stay in the database. *)

Definition M (A : Type) : Type := db -> (exn + A) * db.

Definition ret {A} (a : A) : M A := fun d => (inr a, d).

Definition bind {A B} (m : M A) (k : A -> M B) : M B :=
  fun d =>
    match m d with
    | (inl e, d') => (inl e, d')
    | (inr a, d') => k a d'
    end.

Definition raise {A} (e : exn) : M A := fun d => (inl e, d).

(** [query_db]: read the database. *)
Definition query {A} (f : db -> A) : M A := fun d => (inr (f d), d).

(** [execute_db] of an [UPDATE]: the statement names [cols] of the table
    with columns [schema]. *)
Definition execute (schema cols : list string) (run : db -> db) : M unit :=
  fun d =>
    if has_columns schema cols then (inr tt, run d)
    else (inl no_such_column, d).

(** [execute_db] of an [INSERT]; returns [lastrowid]. *)
Definition execute_insert (schema cols : list string) (run : db -> Z * db)
  : M Z :=
  fun d =>
    if has_columns schema cols then
      let (rowid, d') := run d in (inr rowid, d')
    else (inl no_such_column, d).

Declare Scope handler_scope.
Delimit Scope handler_scope with handler.
Notation "x <- c ;; k" := (bind c (fun x => k))
  (at level 100, c at next level, right associativity) : handler_scope.
Notation "c ;;; k" := (bind c (fun _ => k))
  (at level 100, right associativity) : handler_scope.
Local Open Scope handler_scope.

(** [for x in xs: body(x)] *)
Fixpoint for_each {A} (xs : list A) (body : A -> M unit) : M unit :=
  match xs with
  | [] => ret tt
  | x :: rest => body x ;;; for_each rest body
  end.

(** [request.form[key]]: a missing key aborts the request. *)
Definition form_get_required (key : string) (v : option string) : M string :=
  match v with
  | Some s => ret s
  | None => raise (BadRequestKeyError key)
  end.

(** [request.form.get(key, '')] *)
Definition form_get_default (v : option string) : string :=
  match v with
  | Some s => s
  | None => ""
  end.

(** [request.form.get(key) or None] *)
Definition or_none (v : option string) : option string :=
  if truthy v then v else None.

(** [v in xs] for a form value. *)
Definition py_in (v : option string) (xs : list string) : bool :=
  match v with
  | None => false
  | Some s => existsb (String.eqb s) xs
  end.

(** What a handler answers.  The text of a flashed message is presentation
    and is left out; its category is kept. *)
Inductive response :=
| Redirect (endpoint : string) (arg : option Z)
| JsonError (message : string) (status : Z)
| RenderTemplate (template : string).

Record reply := {
  flashed : list string;
  answer : response
}.

Definition flash_redirect (category endpoint : string) (arg : option Z)
  : reply :=
  {| flashed := [category]; answer := Redirect endpoint arg |}.

(** [column = 1] in a [WHERE] clause and [row[column] == 1] in Python. *)
Definition is_one (v : option Z) : bool :=
  match v with
  | Some z => z =? 1
  | None => false
  end.

Definition is_not_none {A} (v : option A) : bool :=
  match v with
  | Some _ => true
  | None => false
  end.

(** *** Audit log and notifications *)

Definition log_audit (current_user : Z) (now : timestamp) (action : sqlval)
    (entity_type : string) (entity_id : Z) (description changes : option string)
  : M unit :=
  execute_insert audit_logs_columns
    ["user_id"; "action"; "entity_type"; "entity_id"; "description"; "changes"]
    (fun d =>
       let (rowid, t) :=
         sql_insert a_id
           (fun rowid =>
              {| a_id := rowid; a_user_id := Some current_user;
                 a_action := action; a_entity_type := entity_type;
                 a_entity_id := entity_id; a_description := description;
                 a_changes := changes; a_timestamp := Some now |})
           (audit_logs d) in
       (rowid, with_audit_logs d t)) ;;;
  ret tt.

Definition create_notification (now : timestamp) (user_id : Z)
    (notification_type title message : string)
    (entity_type : option string) (entity_id : option Z) : M unit :=
  execute_insert notifications_columns
    ["user_id"; "notification_type"; "title"; "message"; "entity_type";
     "entity_id"]
    (fun d =>
       let (rowid, t) :=
         sql_insert n_id
           (fun rowid =>
              {| n_id := rowid; n_user_id := user_id;
                 n_notification_type := notification_type; n_title := title;
                 n_message := Some message; n_entity_type := entity_type;
                 n_entity_id := entity_id; n_read := Some 0;
                 n_created_at := Some now |})
           (notifications d) in
       (rowid, with_notifications d t)) ;;;
  ret tt.

(** The loop of [get_quality_notification_users] that keeps the first row
    of each user id. *)
Fixpoint unseen_users (seen : list Z) (us : list user_row) : list user_row :=
  match us with
  | [] => []
  | u :: rest =>
      if existsb (Z.eqb (u_id u)) seen then unseen_users seen rest
      else u :: unseen_users (u_id u :: seen) rest
  end.

Definition get_quality_notification_users : M (list user_row) :=
  qm <- query (fun d =>
          sql_select (fun u => (u_role u =? "quality_manager")%string
                               && is_one (u_active u)) (users d)) ;;
  admin <- query (fun d =>
          sql_select (fun u => (u_role u =? "admin")%string
                               && is_one (u_active u)) (users d)) ;;
  ret (unseen_users [] (qm ++ admin)).

(** ** Part registry *)

(** The identity under which [get_or_create_part] looks a part up. *)
Definition same_identity (part_number part_revision : string) (p : part_row)
  : bool :=
  (p_part_number p =? part_number)%string
  && (p_part_revision p =? part_revision)%string.

Definition update_parts (where_ : part_row -> bool) (set : part_row -> part_row)
    (d : db) : db :=
  with_parts d (sql_update where_ set (parts d)).

(** [INSERT INTO parts]: [UNIQUE(part_number, part_revision)] refuses a
    second row of the same identity. *)
Definition insert_part (now : timestamp) (part_number part_revision : string)
    (part_description : option string) : M Z :=
  fun d =>
    if existsb (same_identity part_number part_revision) (rows (parts d))
    then (inl (IntegrityError "UNIQUE constraint failed"), d)
    else
      execute_insert parts_columns
        ["part_number"; "part_revision"; "part_description"]
        (fun d =>
           let (rowid, t) :=
             sql_insert p_id
               (fun rowid =>
                  {| p_id := rowid; p_part_number := part_number;
                     p_part_revision := part_revision;
                     p_part_description := part_description;
                     p_created_at := Some now; p_updated_at := Some now |})
               (parts d) in
           (rowid, with_parts d t)) d.

Definition get_or_create_part (now : timestamp) (part_number : string)
    (part_revision part_description : option string) : M (Z * bool) :=
  let part_revision := or_else part_revision "" in
  existing <- query (fun d =>
      query_one (same_identity part_number part_revision) (parts d)) ;;
  match existing with
  | Some existing =>
      (if truthy part_description then
         execute parts_columns ["part_description"; "updated_at"; "id"]
           (update_parts (fun p => p_id p =? p_id existing)
              (fun p => set_p_updated_at (Some now)
                          (set_p_part_description part_description p)))
       else ret tt) ;;;
      ret (p_id existing, false)
  | None =>
      part_id <- insert_part now part_number part_revision part_description ;;
      ret (part_id, true)
  end.

(** ** Job stage *)

Definition update_jobs (where_ : job_row -> bool) (set : job_row -> job_row)
    (d : db) : db :=
  with_jobs d (sql_update where_ set (jobs d)).

Definition valid_stages : list string :=
  ["po_receipt"; "revision_check"; "material_control"; "in_process";
   "external_process"; "exit_control"; "complete"; "on_hold"].

(** [POST /jobs/<job_id>/stage] with form field [stage]. *)
Definition job_update_stage (current_user : Z) (now : timestamp) (job_id : Z)
    (stage : option string) : M reply :=
  job <- query (fun d => query_one (fun j => j_id j =? job_id) (jobs d)) ;;
  match job with
  | None => ret {| flashed := []; answer := JsonError "Job not found" 404 |}
  | Some job =>
      let new_stage := stage in
      if negb (py_in new_stage valid_stages) then
        ret (flash_redirect "error" "job_detail" (Some job_id))
      else
        let new_stage := str_of_opt new_stage in
        let old_stage := j_workflow_stage job in
        (if (new_stage =? "complete")%string then
           execute jobs_columns
             ["workflow_stage"; "completed_at"; "updated_at"; "id"]
             (update_jobs (fun j => j_id j =? job_id)
                (fun j => set_j_updated_at (Some now)
                            (set_j_completed_at (Some now)
                               (set_j_workflow_stage new_stage j))))
         else
           execute jobs_columns ["workflow_stage"; "updated_at"; "id"]
             (update_jobs (fun j => j_id j =? job_id)
                (fun j => set_j_updated_at (Some now)
                            (set_j_workflow_stage new_stage j)))) ;;;
        log_audit current_user now (SText "status_change") "job" job_id
          (Some ("Changed stage from " ++ old_stage ++ " to " ++ new_stage)%string)
          None ;;;
        ret (flash_redirect "success" "job_detail" (Some job_id))
  end.

(** ** Exit control *)

Definition update_exit_controls (where_ : exit_control_row -> bool)
    (set : exit_control_row -> exit_control_row) (d : db) : db :=
  with_exit_controls d (sql_update where_ set (exit_controls d)).

Definition update_exit_control_samples (where_ : exit_control_sample_row -> bool)
    (set : exit_control_sample_row -> exit_control_sample_row) (d : db) : db :=
  with_exit_control_samples d (sql_update where_ set (exit_control_samples d)).

(** The form of [POST /exit-control/<ec_id>/sample/<sample_id>]. *)
Record sample_form := {
  f_dimensions_ok : option string;
  f_visual_ok : option string;
  f_surface_ok : option string;
  f_notes : option string
}.

(** [1 if request.form.get(k) else 0] *)
Definition checkbox (v : option string) : Z := if truthy v then 1 else 0.

(** [1 if (a and b and c) else 0] on integers. *)
Definition all_three (a b c : Z) : Z :=
  if negb (a =? 0) && negb (b =? 0) && negb (c =? 0) then 1 else 0.

(** [SELECT * FROM exit_control_samples WHERE exit_control_id = ?] *)
Definition samples_of (ec_id : Z) (d : db) : list exit_control_sample_row :=
  sql_select (fun s => s_exit_control_id s =? ec_id) (exit_control_samples d).

Definition exit_control_record_sample (now : timestamp) (ec_id sample_id : Z)
    (form : sample_form) : M reply :=
  sample <- query (fun d =>
      query_one (fun s => (s_id s =? sample_id) && (s_exit_control_id s =? ec_id))
                (exit_control_samples d)) ;;
  match sample with
  | None => ret (flash_redirect "error" "exit_control_detail" (Some ec_id))
  | Some sample =>
      let dimensions_ok := checkbox (f_dimensions_ok form) in
      let visual_ok := checkbox (f_visual_ok form) in
      let surface_ok := checkbox (f_surface_ok form) in
      let overall_pass := all_three dimensions_ok visual_ok surface_ok in
      execute exit_control_samples_columns
        ["dimensions_ok"; "visual_ok"; "surface_ok"; "overall_pass"; "notes";
         "inspected_at"; "id"]
        (update_exit_control_samples (fun s => s_id s =? sample_id)
           (fun s =>
              set_s_inspected_at (Some now)
                (set_s_notes (Some (form_get_default (f_notes form)))
                   (set_s_overall_pass (Some overall_pass)
                      (set_s_surface_ok (Some surface_ok)
                         (set_s_visual_ok (Some visual_ok)
                            (set_s_dimensions_ok (Some dimensions_ok) s))))))) ;;;
      samples <- query (samples_of ec_id) ;;
      let all_inspected :=
        forallb (fun s => is_not_none (s_overall_pass s)) samples in
      (if all_inspected then
         let all_passed := forallb (fun s => is_one (s_overall_pass s)) samples in
         let status := if all_passed then "passed" else "failed" in
         execute exit_controls_columns ["overall_status"; "id"]
           (update_exit_controls (fun e => ecr_id e =? ec_id)
              (set_ecr_overall_status status)) ;;;
         if all_passed then
           ec <- query (fun d =>
               query_one (fun e => ecr_id e =? ec_id)
                         (exit_controls d)) ;;
           match ec with
           | None => raise (TypeError "'NoneType' object is not subscriptable")
           | Some ec =>
               execute jobs_columns ["workflow_stage"; "completed_at"; "id"]
                 (update_jobs
                    (fun j => (j_id j =? ecr_job_id ec)
                              && (j_workflow_stage j =? "exit_control")%string)
                    (fun j => set_j_completed_at (Some now)
                                (set_j_workflow_stage "complete" j)))
           end
         else ret tt
       else ret tt) ;;;
      ret (flash_redirect (if negb (overall_pass =? 0) then "success" else "warning")
             "exit_control_detail" (Some ec_id))
  end.

(** [POST /exit-control/<ec_id>/complete] *)
Definition exit_control_complete (current_user : Z) (now : timestamp)
    (ec_id : Z) : M reply :=
  ec <- query (fun d => query_one (fun e => ecr_id e =? ec_id) (exit_controls d)) ;;
  match ec with
  | None => ret (flash_redirect "error" "jobs_list" None)
  | Some ec =>
      samples <- query (samples_of ec_id) ;;
      let uninspected :=
        filter (fun s => negb (is_not_none (s_overall_pass s))) samples in
      match uninspected with
      | _ :: _ => ret (flash_redirect "error" "exit_control_detail" (Some ec_id))
      | [] =>
          let all_passed := forallb (fun s => is_one (s_overall_pass s)) samples in
          let status := if all_passed then "passed" else "failed" in
          execute exit_controls_columns ["overall_status"; "id"]
            (update_exit_controls (fun e => ecr_id e =? ec_id)
               (set_ecr_overall_status status)) ;;;
          category <-
            (if all_passed then
               execute jobs_columns ["workflow_stage"; "completed_at"; "id"]
                 (update_jobs (fun j => j_id j =? ecr_job_id ec)
                    (fun j => set_j_completed_at (Some now)
                                (set_j_workflow_stage "complete" j))) ;;;
               ret "success"
             else ret "warning") ;;
          log_audit current_user now (SInt current_user) "exit_control" ec_id
            (Some "completed") (Some ("Status: " ++ status)%string) ;;;
          ret (flash_redirect category "exit_control_detail" (Some ec_id))
      end
  end.

(** ** Supplier error reports *)

Definition update_material_controls (where_ : material_control_row -> bool)
    (set : material_control_row -> material_control_row) (d : db) : db :=
  with_material_controls d (sql_update where_ set (material_controls d)).

Definition update_external_processes (where_ : external_process_row -> bool)
    (set : external_process_row -> external_process_row) (d : db) : db :=
  with_external_processes d (sql_update where_ set (external_processes d)).

(** The form of the two report-error pages. *)
Record error_form := {
  f_severity : option string;
  f_description : option string;
  f_affected_quantity : option string
}.

(** [INSERT INTO error_reports] of a supplier report; the columns not named
    take their defaults. *)
Definition insert_supplier_error_report (now : timestamp) (origin_column : string)
    (job_id reported_by : Z) (workflow_stage severity description : string)
    (affected_quantity : option string) (error_type : string)
    (supplier_id material_control_id external_process_id : option Z) : M Z :=
  execute_insert error_reports_columns
    ["job_id"; "reported_by"; "workflow_stage"; "severity"; "description";
     "affected_quantity"; "error_type"; "supplier_id"; origin_column; "status"]
    (fun d =>
       let (rowid, t) :=
         sql_insert er_id
           (fun rowid =>
              {| er_id := rowid; er_job_id := job_id;
                 er_reported_by := Some reported_by;
                 er_workflow_stage := workflow_stage; er_found_date := Some now;
                 er_severity := severity; er_description := description;
                 er_affected_quantity := option_map SText affected_quantity;
                 er_disposition := None; er_root_cause := None;
                 er_corrective_action := None; er_status := "open";
                 er_assigned_to := None; er_resolved_date := None;
                 er_closed_date := None; er_error_type := Some error_type;
                 er_supplier_id := supplier_id;
                 er_material_control_id := material_control_id;
                 er_external_process_id := external_process_id;
                 er_created_at := Some now; er_updated_at := Some now |})
           (error_reports d) in
       (rowid, with_error_reports d t)).

(** The notification loop shared by the two handlers: [job] is the row
    read just before, subscripted inside the loop body. *)
Definition notify_quality_users (now : timestamp) (job : option job_row)
    (what severity : string) (error_id : Z) : M unit :=
  us <- get_quality_notification_users ;;
  for_each us (fun u =>
    match job with
    | None => raise (TypeError "'NoneType' object is not subscriptable")
    | Some job =>
        create_notification now (u_id u) "error_report"
          ("New Quality Issue: " ++ j_part_number job)%string
          (what ++ " issue reported for PO " ++ j_po_number job
                ++ ". Severity: " ++ severity)%string
          (Some "error_report") (Some error_id)
    end).

(** [/material-control/<mc_id>/report-error] *)
Definition material_error_report (current_user : Z) (now : timestamp)
    (method : string) (mc_id : Z) (form : error_form) : M reply :=
  mc <- query (fun d =>
      query_one (fun m => (mcr_id m =? mc_id)
                          && existsb (fun j => j_id j =? mcr_job_id m) (rows (jobs d)))
                (material_controls d)) ;;
  match mc with
  | None => ret (flash_redirect "error" "jobs_list" None)
  | Some mc =>
      if (method =? "POST")%string then
        severity <- form_get_required "severity" (f_severity form) ;;
        description <- form_get_required "description" (f_description form) ;;
        error_id <- insert_supplier_error_report now "material_control_id"
                      (mcr_job_id mc) current_user "material_control"
                      severity description (or_none (f_affected_quantity form))
                      "material_supplier" (mcr_supplier_id mc) (Some mc_id) None ;;
        job <- query (fun d => query_one (fun j => j_id j =? mcr_job_id mc) (jobs d)) ;;
        notify_quality_users now job "Material supplier" severity error_id ;;;
        (if negb (mcr_status mc =? "rejected")%string then
           execute material_controls_columns ["status"; "updated_at"; "id"]
             (update_material_controls (fun m => mcr_id m =? mc_id)
                (set_mcr_status "rejected"))
         else ret tt) ;;;
        log_audit current_user now (SInt current_user) "error_report" error_id
          (Some "created")
          (Some ("Material supplier error for MC#" ++ str_of_Z mc_id)%string) ;;;
        ret (flash_redirect "success" "error_report_detail" (Some error_id))
      else
        ret {| flashed := []; answer := RenderTemplate "supplier_error_form.html" |}
  end.

(** [/external-process/<ep_id>/report-error] *)
Definition external_error_report (current_user : Z) (now : timestamp)
    (method : string) (ep_id : Z) (form : error_form) : M reply :=
  ep <- query (fun d =>
      query_one (fun p => (epr_id p =? ep_id)
                          && existsb (fun j => j_id j =? epr_job_id p) (rows (jobs d)))
                (external_processes d)) ;;
  match ep with
  | None => ret (flash_redirect "error" "jobs_list" None)
  | Some ep =>
      if (method =? "POST")%string then
        severity <- form_get_required "severity" (f_severity form) ;;
        description <- form_get_required "description" (f_description form) ;;
        error_id <- insert_supplier_error_report now "external_process_id"
                      (epr_job_id ep) current_user "external_process"
                      severity description (or_none (f_affected_quantity form))
                      "external_supplier" (epr_supplier_id ep) None (Some ep_id) ;;
        job <- query (fun d => query_one (fun j => j_id j =? epr_job_id ep) (jobs d)) ;;
        notify_quality_users now job "External process supplier" severity error_id ;;;
        (if negb (epr_status ep =? "rejected")%string then
           execute external_processes_columns ["status"; "updated_at"; "id"]
             (update_external_processes (fun p => epr_id p =? ep_id)
                (fun p => set_epr_updated_at (Some now)
                            (set_epr_status "rejected" p)))
         else ret tt) ;;;
        log_audit current_user now (SInt current_user) "error_report" error_id
          (Some "created")
          (Some ("External supplier error for EP#" ++ str_of_Z ep_id)%string) ;;;
        ret (flash_redirect "success" "error_report_detail" (Some error_id))
      else
        ret {| flashed := []; answer := RenderTemplate "supplier_error_form.html" |}
  end.

(** ** Error report update *)

Definition update_error_reports (where_ : error_report_row -> bool)
    (set : error_report_row -> error_report_row) (d : db) : db :=
  with_error_reports d (sql_update where_ set (error_reports d)).

(** The form of [POST /error-report/<error_id>/update]. *)
Record update_form := {
  f_action : option string;
  f_disposition : option string;
  f_root_cause : option string;
  f_corrective_action : option string;
  f_assigned_to : option string
}.

Definition error_report_update (current_user : Z) (now : timestamp)
    (error_id : Z) (form : update_form) : M reply :=
  error <- query (fun d =>
      query_one (fun r => er_id r =? error_id) (error_reports d)) ;;
  match error with
  | None => ret (flash_redirect "error" "jobs_list" None)
  | Some error =>
      let action := f_action form in
      flashes <-
        (if py_eq action "update" then
           execute error_reports_columns
             ["disposition"; "root_cause"; "corrective_action"; "assigned_to";
              "updated_at"; "id"]
             (update_error_reports (fun r => er_id r =? error_id)
                (fun r =>
                   set_er_updated_at (Some now)
                     (set_er_assigned_to
                        (option_map SText (or_none (f_assigned_to form)))
                        (set_er_corrective_action (f_corrective_action form)
                           (set_er_root_cause (f_root_cause form)
                              (set_er_disposition (f_disposition form) r)))))) ;;;
           ret ["success"]
         else if py_eq action "resolve" then
           execute error_reports_columns
             ["status"; "resolved_date"; "updated_at"; "id"]
             (update_error_reports (fun r => er_id r =? error_id)
                (fun r =>
                   set_er_updated_at (Some now)
                     (set_er_resolved_date (Some now)
                        (set_er_status "resolved" r)))) ;;;
           ret ["success"]
         else if py_eq action "close" then
           execute error_reports_columns
             ["status"; "closed_date"; "updated_at"; "id"]
             (update_error_reports (fun r => er_id r =? error_id)
                (fun r =>
                   set_er_updated_at (Some now)
                     (set_er_closed_date (Some now)
                        (set_er_status "closed" r)))) ;;;
           ret ["success"]
         else if py_eq action "reopen" then
           execute error_reports_columns
             ["status"; "resolved_date"; "closed_date"; "updated_at"; "id"]
             (update_error_reports (fun r => er_id r =? error_id)
                (fun r =>
                   set_er_updated_at (Some now)
                     (set_er_closed_date None
                        (set_er_resolved_date None
                           (set_er_status "open" r))))) ;;;
           ret ["success"]
         else ret []) ;;
      log_audit current_user now (SInt current_user) "error_report" error_id
        action (Some ("Error report " ++ str_of_opt action)%string) ;;;
      ret {| flashed := flashes;
             answer := Redirect "error_report_detail" (Some error_id) |}
  end.

(** ** Reading a row back by its primary key *)

Definition job_by_id (d : db) (job_id : Z) : option job_row :=
  query_one (fun j => j_id j =? job_id) (jobs d).

Definition part_by_id (d : db) (part_id : Z) : option part_row :=
  query_one (fun p => p_id p =? part_id) (parts d).

Definition exit_control_by_id (d : db) (ec_id : Z) : option exit_control_row :=
  query_one (fun e => ecr_id e =? ec_id) (exit_controls d).

Definition sample_by_id (d : db) (sample_id : Z)
  : option exit_control_sample_row :=
  query_one (fun s => s_id s =? sample_id) (exit_control_samples d).

Definition material_control_by_id (d : db) (mc_id : Z)
  : option material_control_row :=
  query_one (fun m => mcr_id m =? mc_id) (material_controls d).

Definition external_process_by_id (d : db) (ep_id : Z)
  : option external_process_row :=
  query_one (fun p => epr_id p =? ep_id) (external_processes d).

Definition error_report_by_id (d : db) (error_id : Z) : option error_report_row :=
  query_one (fun r => er_id r =? error_id) (error_reports d).

(** ** Running a handler *)

(** The database after a handler ran, and what it answered. *)
Definition db_after {A} (m : M A) (d : db) : db := snd (m d).
Definition result_of {A} (m : M A) (d : db) : exn + A := fst (m d).

(** ** What the exit-control handlers write *)

(** The [SET] clause of [exit_control_record_sample]. *)
Definition recorded_sample (now : timestamp) (form : sample_form)
    (s : exit_control_sample_row) : exit_control_sample_row :=
  let dimensions_ok := checkbox (f_dimensions_ok form) in
  let visual_ok := checkbox (f_visual_ok form) in
  let surface_ok := checkbox (f_surface_ok form) in
  set_s_inspected_at (Some now)
    (set_s_notes (Some (form_get_default (f_notes form)))
       (set_s_overall_pass (Some (all_three dimensions_ok visual_ok surface_ok))
          (set_s_surface_ok (Some surface_ok)
             (set_s_visual_ok (Some visual_ok)
                (set_s_dimensions_ok (Some dimensions_ok) s))))).

(** Every sample of the lot has a verdict; every sample of the lot passed. *)
Definition all_inspected (ec_id : Z) (d : db) : bool :=
  forallb (fun s => is_not_none (s_overall_pass s)) (samples_of ec_id d).

Definition all_passed (ec_id : Z) (d : db) : bool :=
  forallb (fun s => is_one (s_overall_pass s)) (samples_of ec_id d).

(** The [SET] clause that completes a job. *)
Definition completed_job (now : timestamp) (j : job_row) : job_row :=
  set_j_completed_at (Some now) (set_j_workflow_stage "complete" j).

(** The database a successful sample recording leaves behind. *)
Definition after_record_sample (now : timestamp) (ec_id sample_id : Z)
    (form : sample_form) (job_id : Z) (d : db) : db :=
  let d1 := update_exit_control_samples (fun s => s_id s =? sample_id)
              (recorded_sample now form) d in
  if all_inspected ec_id d1 then
    let d2 := update_exit_controls (fun e => ecr_id e =? ec_id)
                (set_ecr_overall_status
                   (if all_passed ec_id d1 then "passed" else "failed")) d1 in
    if all_passed ec_id d1 then
      update_jobs (fun j => (j_id j =? job_id)
                            && (j_workflow_stage j =? "exit_control")%string)
        (completed_job now) d2
    else d2
  else d1.


(** ** Example data *)

Definition table_of {R} (id_of : R -> Z) (l : list R) : table R :=
  {| rows := l; seq_no := fold_right Z.max 0 (map id_of l) |}.

Definition empty_db : db :=
  {| users := table_of u_id []; parts := table_of p_id [];
     jobs := table_of j_id [];
     material_controls := table_of mcr_id [];
     external_processes := table_of epr_id [];
     exit_controls := table_of ecr_id [];
     exit_control_samples := table_of s_id [];
     error_reports := table_of er_id [];
     notifications := table_of n_id [];
     audit_logs := table_of a_id [] |}.

(** Job 7, an order of 25 brackets. *)
Definition bracket_job (stage : string) (completed_at : option timestamp)
  : job_row :=
  {| j_id := 7; j_po_number := "PO-2024-002";
     j_internal_job_number := Some "JOB00007"; j_customer_id := Some 2;
     j_part_id := Some 3; j_part_number := "BRACKET-200";
     j_part_revision := Some "A"; j_part_description := Some "Mounting Bracket";
     j_quantity := 25; j_due_date := Some "2024-06-01";
     j_workflow_stage := stage; j_drawing_number := Some "DWG-BRKT-200";
     j_revision_verified := Some 0; j_revision_verified_by := None;
     j_revision_verified_at := None; j_special_requirements := None;
     j_created_at := Some "2024-05-01 08:00:00";
     j_updated_at := Some "2024-05-01 08:00:00";
     j_completed_at := completed_at |}.

Definition db_with_job (j : job_row) : db :=
  with_jobs empty_db (table_of j_id [j]).

(** The job was completed on the 20th of May. *)
Definition db_completed_job : db :=
  db_with_job (bracket_job "complete" (Some "2024-05-20 14:30:00")).

(** Error report 4 against job 7, closed after it was resolved. *)
Definition closed_report : error_report_row :=
  {| er_id := 4; er_job_id := 7; er_reported_by := Some 2;
     er_workflow_stage := "material_control";
     er_found_date := Some "2024-05-02 10:00:00";
     er_severity := "major"; er_description := "Wrong alloy delivered";
     er_affected_quantity := Some (SText "25");
     er_disposition := Some "return to supplier";
     er_root_cause := Some "supplier mix-up";
     er_corrective_action := Some "incoming alloy check";
     er_status := "closed"; er_assigned_to := Some (SText "2");
     er_resolved_date := Some "2024-05-10 12:00:00";
     er_closed_date := Some "2024-05-12 09:00:00";
     er_error_type := Some "material_supplier"; er_supplier_id := Some 1;
     er_material_control_id := Some 3; er_external_process_id := None;
     er_created_at := Some "2024-05-02 10:00:00";
     er_updated_at := Some "2024-05-12 09:00:00" |}.

Definition db_closed_report : db :=
  with_error_reports (db_with_job (bracket_job "in_process" None))
    (table_of er_id [closed_report]).

Definition reopen_form : update_form :=
  {| f_action := Some "reopen"; f_disposition := None; f_root_cause := None;
     f_corrective_action := None; f_assigned_to := None |}.

(** A 25 mm shaft diameter with a symmetric half-millimetre window, and a
    thread checked with a go/no-go gauge. *)
Definition shaft_diameter : job_dimension :=
  {| d_id := 1; d_job_id := 1; d_dimension_number := 1;
     d_dimension_name := "D25 h7";
     d_nominal_value := 25%float;
     d_tolerance_plus := Some 0.5%float;
     d_tolerance_minus := Some (-0.5)%float;
     d_unit := Some "mm"; d_drawing_reference := Some "Dim #1";
     d_critical := Some 1; d_created_at := None |}.

Definition thread_gauge : job_dimension :=
  {| d_id := 5; d_job_id := 1; d_dimension_number := 5;
     d_dimension_name := "Thread M8x1.25";
     d_nominal_value := 0%float;
     d_tolerance_plus := Some 0%float;
     d_tolerance_minus := Some 0%float;
     d_unit := Some "go/nogo"; d_drawing_reference := Some "Dim #5";
     d_critical := Some 1; d_created_at := None |}.

(** A bore with an upper tolerance only. *)
Definition bore_plus_only : job_dimension :=
  {| d_id := 7; d_job_id := 1; d_dimension_number := 7;
     d_dimension_name := "Bore";
     d_nominal_value := 10%float;
     d_tolerance_plus := Some 0.25%float;
     d_tolerance_minus := None;
     d_unit := Some "mm"; d_drawing_reference := None;
     d_critical := Some 0; d_created_at := None |}.

(** A slot whose tolerances were entered with their signs swapped: the
    window runs from 11 down to 9. *)
Definition swapped_signs : job_dimension :=
  {| d_id := 8; d_job_id := 1; d_dimension_number := 8;
     d_dimension_name := "Slot width";
     d_nominal_value := 10%float;
     d_tolerance_plus := Some (-1)%float;
     d_tolerance_minus := Some 1%float;
     d_unit := Some "mm"; d_drawing_reference := None;
     d_critical := Some 0; d_created_at := None |}.

(** Part 1 is revision B of X-1, the only part of the table. *)
Definition part_revision_b : part_row :=
  {| p_id := 1; p_part_number := "X-1"; p_part_revision := "B";
     p_part_description := Some "Housing, revision B";
     p_created_at := Some "2024-05-01 08:00:00";
     p_updated_at := Some "2024-05-01 08:00:00" |}.

Definition db_revision_b : db :=
  with_parts empty_db (table_of p_id [part_revision_b]).

(** Exit control 5 of job 7 with two samples; the first sample passed. *)
Definition sample_row (id position : Z) (overall_pass : option Z)
  : exit_control_sample_row :=
  {| s_id := id; s_exit_control_id := 5; s_part_number := position;
     s_dimensions_ok := overall_pass; s_visual_ok := overall_pass;
     s_surface_ok := overall_pass; s_overall_pass := overall_pass;
     s_notes := None; s_inspected_at := None |}.

Definition exit_control_5 : exit_control_row :=
  {| ecr_id := 5; ecr_job_id := 7; ecr_inspector_id := Some 2;
     ecr_inspection_date := Some "2024-05-20 08:00:00"; ecr_lot_quantity := 2;
     ecr_overall_status := "in_progress"; ecr_notes := Some "";
     ecr_created_at := Some "2024-05-20 08:00:00" |}.

Definition db_exit_control (stage : string) (second : option Z) : db :=
  with_exit_control_samples
    (with_exit_controls (db_with_job (bracket_job stage None))
       (table_of ecr_id [exit_control_5]))
    (table_of s_id [sample_row 11 1 (Some 1); sample_row 12 2 second]).

Definition form_all_ok : sample_form :=
  {| f_dimensions_ok := Some "on"; f_visual_ok := Some "on";
     f_surface_ok := Some "on"; f_notes := Some "" |}.

Definition form_visual_fail : sample_form :=
  {| f_dimensions_ok := Some "on"; f_visual_ok := None;
     f_surface_ok := Some "on"; f_notes := Some "scratch" |}.

(** Users 1 (admin) and 2 (quality manager); material control 3 and
    external process 9 of job 7. *)
Definition user_of (id : Z) (name role : string) : user_row :=
  {| u_id := id; u_username := name; u_email := None;
     u_password_hash := "pbkdf2"; u_role := role; u_active := Some 1;
     u_created_at := Some "2024-01-01 00:00:00" |}.

Definition material_control_3 (status : string) : material_control_row :=
  {| mcr_id := 3; mcr_job_id := 7; mcr_inspector_id := Some 2;
     mcr_inspection_date := Some "2024-05-02 09:00:00";
     mcr_material_type := "6082-T6"; mcr_supplier_id := Some 1;
     mcr_batch_number := Some "B-17"; mcr_quantity_received := Some "30";
     mcr_certificate_matches := Some 1; mcr_visual_ok := Some 0;
     mcr_dimensions_ok := None; mcr_status := status; mcr_notes := None;
     mcr_created_at := Some "2024-05-02 09:00:00" |}.

Definition external_process_9 (status : string) : external_process_row :=
  {| epr_id := 9; epr_job_id := 7; epr_inspector_id := Some 2;
     epr_process_type := "anodize"; epr_process_description := None;
     epr_supplier_id := Some 4; epr_sent_date := Some "2024-05-10";
     epr_received_date := Some "2024-05-17"; epr_inspection_date := None;
     epr_visual_ok := Some 0; epr_thickness_ok := None; epr_color_ok := None;
     epr_adhesion_ok := None; epr_status := status; epr_notes := None;
     epr_created_at := Some "2024-05-10 08:00:00";
     epr_updated_at := Some "2024-05-17 08:00:00" |}.

Definition db_supplier (mc_status ep_status : string) : db :=
  with_users
    (with_external_processes
       (with_material_controls (db_with_job (bracket_job "material_control" None))
          (table_of mcr_id [material_control_3 mc_status]))
       (table_of epr_id [external_process_9 ep_status]))
    (table_of u_id [user_of 1 "admin" "admin"; user_of 2 "qm" "quality_manager"]).

Definition major_error_form : error_form :=
  {| f_severity := Some "major"; f_description := Some "Wrong alloy delivered";
     f_affected_quantity := Some "25" |}.

(** * More of [app.py]

    The handlers and helpers around the ones above: they reuse the tables,
    the rows and the handler monad. *)

(** ** More table operations and columns *)

(** [DELETE FROM t WHERE ...] *)
Definition sql_delete {R} (where_ : R -> bool) (t : table R) : table R :=
  {| rows := filter (fun r => negb (where_ r)) (rows t); seq_no := seq_no t |}.

(** [SELECT COUNT( * ) FROM t WHERE ...] *)
Definition sql_count {R} (where_ : R -> bool) (t : table R) : Z :=
  Z.of_nat (List.length (sql_select where_ t)).

Definition users_columns : list string :=
  ["id"; "username"; "email"; "password_hash"; "role"; "active"; "created_at"].

(** The integers [sqlite3] binds to a parameter of a statement are the
    signed 64-bit ones; for any other Python [int] it raises
    [OverflowError] before the statement runs.  The id in the path of a
    request and a number typed into a form are not bounded, and a handler
    binds them in its statements: what is said below of a request for a
    row that does not exist, or of a number submitted, is said of integers
    that can be bound. *)
Definition sqlite_int (n : Z) : bool :=
  (- 2 ^ 63 <=? n) && (n <? 2 ^ 63).

(** [column = 0] in a [WHERE] clause and [row[column] == 0] in Python. *)
Definition is_zero (v : option Z) : bool :=
  match v with
  | Some z => z =? 0
  | None => false
  end.

(** Truthiness of an integer column that may be [NULL]. *)
Definition truthy_int (v : option Z) : bool :=
  match v with
  | Some z => negb (z =? 0)
  | None => false
  end.

Definition set_j_revision_verified (v : option Z) (r : job_row)
  : job_row :=
  {| j_id := j_id r; j_po_number := j_po_number r;
     j_internal_job_number := j_internal_job_number r;
     j_customer_id := j_customer_id r; j_part_id := j_part_id r;
     j_part_number := j_part_number r; j_part_revision := j_part_revision r;
     j_part_description := j_part_description r; j_quantity := j_quantity r;
     j_due_date := j_due_date r; j_workflow_stage := j_workflow_stage r;
     j_drawing_number := j_drawing_number r; j_revision_verified := v;
     j_revision_verified_by := j_revision_verified_by r;
     j_revision_verified_at := j_revision_verified_at r;
     j_special_requirements := j_special_requirements r;
     j_created_at := j_created_at r; j_updated_at := j_updated_at r;
     j_completed_at := j_completed_at r |}.

Definition set_j_revision_verified_by (v : option Z) (r : job_row)
  : job_row :=
  {| j_id := j_id r; j_po_number := j_po_number r;
     j_internal_job_number := j_internal_job_number r;
     j_customer_id := j_customer_id r; j_part_id := j_part_id r;
     j_part_number := j_part_number r; j_part_revision := j_part_revision r;
     j_part_description := j_part_description r; j_quantity := j_quantity r;
     j_due_date := j_due_date r; j_workflow_stage := j_workflow_stage r;
     j_drawing_number := j_drawing_number r;
     j_revision_verified := j_revision_verified r;
     j_revision_verified_by := v;
     j_revision_verified_at := j_revision_verified_at r;
     j_special_requirements := j_special_requirements r;
     j_created_at := j_created_at r; j_updated_at := j_updated_at r;
     j_completed_at := j_completed_at r |}.

Definition set_j_revision_verified_at (v : option timestamp) (r : job_row)
  : job_row :=
  {| j_id := j_id r; j_po_number := j_po_number r;
     j_internal_job_number := j_internal_job_number r;
     j_customer_id := j_customer_id r; j_part_id := j_part_id r;
     j_part_number := j_part_number r; j_part_revision := j_part_revision r;
     j_part_description := j_part_description r; j_quantity := j_quantity r;
     j_due_date := j_due_date r; j_workflow_stage := j_workflow_stage r;
     j_drawing_number := j_drawing_number r;
     j_revision_verified := j_revision_verified r;
     j_revision_verified_by := j_revision_verified_by r;
     j_revision_verified_at := v;
     j_special_requirements := j_special_requirements r;
     j_created_at := j_created_at r; j_updated_at := j_updated_at r;
     j_completed_at := j_completed_at r |}.

Definition set_mcr_inspector_id (v : option Z) (r : material_control_row)
  : material_control_row :=
  {| mcr_id := mcr_id r; mcr_job_id := mcr_job_id r; mcr_inspector_id := v;
     mcr_inspection_date := mcr_inspection_date r;
     mcr_material_type := mcr_material_type r;
     mcr_supplier_id := mcr_supplier_id r;
     mcr_batch_number := mcr_batch_number r;
     mcr_quantity_received := mcr_quantity_received r;
     mcr_certificate_matches := mcr_certificate_matches r;
     mcr_visual_ok := mcr_visual_ok r;
     mcr_dimensions_ok := mcr_dimensions_ok r; mcr_status := mcr_status r;
     mcr_notes := mcr_notes r; mcr_created_at := mcr_created_at r |}.

Definition set_n_read (v : option Z) (r : notification_row)
  : notification_row :=
  {| n_id := n_id r; n_user_id := n_user_id r;
     n_notification_type := n_notification_type r; n_title := n_title r;
     n_message := n_message r; n_entity_type := n_entity_type r;
     n_entity_id := n_entity_id r; n_read := v;
     n_created_at := n_created_at r |}.

Definition set_u_active (v : option Z) (r : user_row)
  : user_row :=
  {| u_id := u_id r; u_username := u_username r; u_email := u_email r;
     u_password_hash := u_password_hash r; u_role := u_role r; u_active := v;
     u_created_at := u_created_at r |}.

Definition set_epr_inspection_date (v : option timestamp) (r : external_process_row)
  : external_process_row :=
  {| epr_id := epr_id r; epr_job_id := epr_job_id r;
     epr_inspector_id := epr_inspector_id r;
     epr_process_type := epr_process_type r;
     epr_process_description := epr_process_description r;
     epr_supplier_id := epr_supplier_id r; epr_sent_date := epr_sent_date r;
     epr_received_date := epr_received_date r; epr_inspection_date := v;
     epr_visual_ok := epr_visual_ok r;
     epr_thickness_ok := epr_thickness_ok r; epr_color_ok := epr_color_ok r;
     epr_adhesion_ok := epr_adhesion_ok r; epr_status := epr_status r;
     epr_notes := epr_notes r; epr_created_at := epr_created_at r;
     epr_updated_at := epr_updated_at r |}.

(** ** Revision check *)

(** [POST /jobs/<job_id>/verify-revision] *)
Definition job_verify_revision (current_user : Z) (now : timestamp)
    (job_id : Z) : M reply :=
  job <- query (fun d => query_one (fun j => j_id j =? job_id) (jobs d)) ;;
  match job with
  | None => ret (flash_redirect "error" "jobs_list" None)
  | Some job =>
      execute jobs_columns
        ["revision_verified"; "revision_verified_by"; "revision_verified_at";
         "updated_at"; "id"]
        (update_jobs (fun j => j_id j =? job_id)
           (fun j =>
              set_j_updated_at (Some now)
                (set_j_revision_verified_at (Some now)
                   (set_j_revision_verified_by (Some current_user)
                      (set_j_revision_verified (Some 1) j))))) ;;;
      log_audit current_user now (SText "update") "job" job_id
        (Some "Verified drawing revision") None ;;;
      ret (flash_redirect "success" "job_detail" (Some job_id))
  end.

(** ** Material control status *)

(** [POST /material/<mc_id>/status] with form field [status]. *)
Definition material_control_status (current_user : Z) (now : timestamp)
    (mc_id : Z) (status : option string) : M reply :=
  mc <- query (fun d =>
      query_one (fun m => mcr_id m =? mc_id) (material_controls d)) ;;
  match mc with
  | None => ret (flash_redirect "error" "jobs_list" None)
  | Some mc =>
      let new_status := status in
      flashes <-
        (if py_in new_status ["pending"; "approved"; "rejected"] then
           let new_status := str_of_opt new_status in
           execute material_controls_columns ["status"; "inspector_id"; "id"]
             (update_material_controls (fun m => mcr_id m =? mc_id)
                (fun m => set_mcr_inspector_id (Some current_user)
                            (set_mcr_status new_status m))) ;;;
           (if (new_status =? "rejected")%string then
              job <- query (fun d =>
                  query_one (fun j => j_id j =? mcr_job_id mc) (jobs d)) ;;
              match job with
              | Some job =>
                  us <- get_quality_notification_users ;;
                  for_each us (fun u =>
                    create_notification now (u_id u) "material_rejected"
                      ("Material Rejected: " ++ j_part_number job)%string
                      ("Material control for Job "
                         ++ str_of_opt (j_internal_job_number job)
                         ++ " (PO " ++ j_po_number job ++ ") was rejected.")%string
                      (Some "material_control") (Some mc_id))
              | None => ret tt
              end
            else ret tt) ;;;
           ret ["success"]
         else ret []) ;;
      ret {| flashed := flashes;
             answer := Redirect "material_control_detail" (Some mc_id) |}
  end.

(** ** User administration *)

(** The [role_required] decorator around a handler; the handlers are also
    [login_required], so the user is authenticated. *)
Definition role_required (roles : list string) (current_role : string)
    (f : M reply) : M reply :=
  if negb (existsb (String.eqb current_role) roles) then
    ret (flash_redirect "error" "index" None)
  else f.

Definition update_users (where_ : user_row -> bool) (set : user_row -> user_row)
    (d : db) : db :=
  with_users d (sql_update where_ set (users d)).

(** [POST /admin/users/<user_id>/toggle] *)
Definition admin_toggle_user (current_role : string) (user_id : Z) : M reply :=
  role_required ["admin"] current_role
    (user <- query (fun d => query_one (fun u => u_id u =? user_id) (users d)) ;;
     match user with
     | Some user =>
         let new_status := if truthy_int (u_active user) then 0 else 1 in
         execute users_columns ["active"; "id"]
           (update_users (fun u => u_id u =? user_id)
              (set_u_active (Some new_status))) ;;;
         ret (flash_redirect "success" "admin_users" None)
     | None => ret {| flashed := []; answer := Redirect "admin_users" None |}
     end).

(** ** Notifications *)

Definition update_notifications (where_ : notification_row -> bool)
    (set : notification_row -> notification_row) (d : db) : db :=
  with_notifications d (sql_update where_ set (notifications d)).

(** A handler that answers [{'success': True}] to an AJAX request and a
    page otherwise. *)
Inductive ajax_reply :=
| JsonSuccess
| Page (r : reply).

(** The unread notifications of a user: [user_id = ? AND read = 0]. *)
Definition unread_of (user_id : Z) (n : notification_row) : bool :=
  (n_user_id n =? user_id) && is_zero (n_read n).

(** [GET /notifications/count]: the count sent back. *)
Definition notifications_count (current_user : Z) : M Z :=
  query (fun d => sql_count (unread_of current_user) (notifications d)).

(** [POST /notifications/<notification_id>/read]; [ajax] is
    [request.is_json or X-Requested-With == XMLHttpRequest]. *)
Definition notification_mark_read (ajax : bool) (current_user : Z)
    (notification_id : Z) : M ajax_reply :=
  notification <- query (fun d =>
      query_one (fun n => (n_id n =? notification_id)
                          && (n_user_id n =? current_user))
                (notifications d)) ;;
  match notification with
  | None => ret (Page (flash_redirect "error" "notifications_list" None))
  | Some _ =>
      execute notifications_columns ["read"; "id"]
        (update_notifications (fun n => n_id n =? notification_id)
           (set_n_read (Some 1))) ;;;
      if ajax then ret JsonSuccess
      else ret (Page {| flashed := [];
                        answer := Redirect "notifications_list" None |})
  end.

(** [POST /notifications/mark-all-read] *)
Definition notifications_mark_all_read (ajax : bool) (current_user : Z)
  : M ajax_reply :=
  execute notifications_columns ["read"; "user_id"]
    (update_notifications (unread_of current_user) (set_n_read (Some 1))) ;;;
  if ajax then ret JsonSuccess
  else ret (Page (flash_redirect "success" "notifications_list" None)).

(** [POST /notifications/<notification_id>/delete] *)
Definition notification_delete (ajax : bool) (current_user : Z)
    (notification_id : Z) : M ajax_reply :=
  notification <- query (fun d =>
      query_one (fun n => (n_id n =? notification_id)
                          && (n_user_id n =? current_user))
                (notifications d)) ;;
  match notification with
  | None => ret (Page (flash_redirect "error" "notifications_list" None))
  | Some _ =>
      execute notifications_columns ["id"]
        (fun d => with_notifications d
                    (sql_delete (fun n => n_id n =? notification_id)
                       (notifications d))) ;;;
      if ajax then ret JsonSuccess
      else ret (Page (flash_redirect "success" "notifications_list" None))
  end.

(** ** Creating and extending an exit control *)

(** What [exit_control_create] answers: a page after a [POST], the form
    with the preview of the sampling plan after a [GET]. *)
Inductive create_answer :=
| Created (r : reply)
| Preview (preview_samples : list Z).

(** [INSERT INTO exit_control_samples (exit_control_id, part_number)]: the
    checks and the verdict are [NULL], [inspected_at] takes its default. *)
Definition insert_sample (now : timestamp) (ec_id part_num : Z) : M unit :=
  execute_insert exit_control_samples_columns ["exit_control_id"; "part_number"]
    (fun d =>
       let (rowid, t) :=
         sql_insert s_id
           (fun rowid =>
              {| s_id := rowid; s_exit_control_id := ec_id;
                 s_part_number := part_num; s_dimensions_ok := None;
                 s_visual_ok := None; s_surface_ok := None;
                 s_overall_pass := None; s_notes := None;
                 s_inspected_at := Some now |})
           (exit_control_samples d) in
       (rowid, with_exit_control_samples d t)) ;;;
  ret tt.

(** [request.form.get('lot_quantity', type=int) or job['quantity']]:
    [lot_quantity] is the field after the conversion, [None] when the field
    is missing or is not an integer. *)
Definition lot_quantity_or (lot_quantity : option Z) (quantity : Z) : Z :=
  match lot_quantity with
  | Some q => if q =? 0 then quantity else q
  | None => quantity
  end.

(** [/jobs/<job_id>/exit-control/new] *)
Definition exit_control_create (current_user : Z) (now : timestamp)
    (method : string) (job_id : Z) (lot_quantity : option Z)
    (notes : option string) : M create_answer :=
  job <- query (fun d => query_one (fun j => j_id j =? job_id) (jobs d)) ;;
  match job with
  | None => ret (Created (flash_redirect "error" "jobs_list" None))
  | Some job =>
      if (method =? "POST")%string then
        let lot_quantity := lot_quantity_or lot_quantity (j_quantity job) in
        ec_id <- execute_insert exit_controls_columns
            ["job_id"; "inspector_id"; "lot_quantity"; "overall_status"; "notes"]
            (fun d =>
               let (rowid, t) :=
                 sql_insert ecr_id
                   (fun rowid =>
                      {| ecr_id := rowid; ecr_job_id := job_id;
                         ecr_inspector_id := Some current_user;
                         ecr_inspection_date := Some now;
                         ecr_lot_quantity := lot_quantity;
                         ecr_overall_status := "in_progress";
                         ecr_notes := Some (form_get_default notes);
                         ecr_created_at := Some now |})
                   (exit_controls d) in
               (rowid, with_exit_controls d t)) ;;
        let samples := calculate_exit_control_samples lot_quantity in
        for_each samples (insert_sample now ec_id) ;;;
        log_audit current_user now (SInt current_user) "exit_control" ec_id
          (Some "created")
          (Some ("Exit control for job "
                   ++ str_of_opt (j_internal_job_number job) ++ ", "
                   ++ str_of_Z (Z.of_nat (List.length samples))
                   ++ " samples")%string) ;;;
        ret (Created (flash_redirect "success" "exit_control_detail" (Some ec_id)))
      else
        ret (Preview (calculate_exit_control_samples (j_quantity job)))
  end.

(** The counts [exit_control_detail] computes from the samples of an exit
    control. *)
Record sample_stats := {
  total_samples : Z;
  inspected : Z;
  passed : Z;
  failed : Z
}.

Definition count_where {A} (f : A -> bool) (l : list A) : Z :=
  Z.of_nat (List.length (filter f l)).

(** [GET /exit-control/<ec_id>]: the exit control is read through a [JOIN]
    with its job.  Of what is handed to the template the four counts are
    kept. *)
Definition exit_control_detail (ec_id : Z) : M (reply + sample_stats) :=
  ec <- query (fun d =>
      query_one (fun e => (ecr_id e =? ec_id)
                          && existsb (fun j => j_id j =? ecr_job_id e) (rows (jobs d)))
                (exit_controls d)) ;;
  match ec with
  | None => ret (inl (flash_redirect "error" "jobs_list" None))
  | Some ec =>
      samples <- query (samples_of ec_id) ;;
      ret (inr {| total_samples := Z.of_nat (List.length samples);
                  inspected := count_where
                                 (fun s => is_not_none (s_overall_pass s)) samples;
                  passed := count_where (fun s => is_one (s_overall_pass s)) samples;
                  failed := count_where (fun s => is_zero (s_overall_pass s)) samples |})
  end.

(** The loop of [exit_control_add_samples] over the numbers typed;
    [py_strip] is [str.strip] and [py_int] is [int], [None] where [int]
    raises [ValueError]. *)
Fixpoint add_samples_loop (py_strip : string -> string)
    (py_int : string -> option Z) (now : timestamp) (ec_id lot_quantity : Z)
    (nums : list string) (added : Z) : M Z :=
  match nums with
  | [] => ret added
  | num :: rest =>
      match py_int (py_strip num) with
      | None => add_samples_loop py_strip py_int now ec_id lot_quantity rest added
      | Some part_num =>
          existing <- query (fun d =>
              query_one (fun s => (s_exit_control_id s =? ec_id)
                                  && (s_part_number s =? part_num))
                        (exit_control_samples d)) ;;
          if negb (is_not_none existing)
             && ((1 <=? part_num) && (part_num <=? lot_quantity)) then
            insert_sample now ec_id part_num ;;;
            add_samples_loop py_strip py_int now ec_id lot_quantity rest (added + 1)
          else
            add_samples_loop py_strip py_int now ec_id lot_quantity rest added
      end
  end.

(** [POST /exit-control/<ec_id>/add-samples] with form field
    [part_numbers].  The string functions of Python are parameters:
    [py_strip] is [str.strip], [py_split] is [s.replace(',', ' ').split()]
    and [py_int] is [int]. *)
Definition exit_control_add_samples (py_strip : string -> string)
    (py_split : string -> list string) (py_int : string -> option Z)
    (now : timestamp) (ec_id : Z) (part_numbers : option string) : M reply :=
  ec <- query (fun d => query_one (fun e => ecr_id e =? ec_id) (exit_controls d)) ;;
  match ec with
  | None => ret (flash_redirect "error" "jobs_list" None)
  | Some ec =>
      let part_numbers := py_strip (form_get_default part_numbers) in
      if (part_numbers =? "")%string then
        ret (flash_redirect "error" "exit_control_detail" (Some ec_id))
      else
        added <- add_samples_loop py_strip py_int now ec_id (ecr_lot_quantity ec)
                   (py_split part_numbers) 0 ;;
        ret (flash_redirect (if negb (added =? 0) then "success" else "warning")
               "exit_control_detail" (Some ec_id))
  end.

(** ** Receiving and inspecting an external process *)

(** SQLite prepares a statement before it runs it: a statement that names
    a column the table lacks is refused before any constraint is checked
    or row written. *)
Definition prepare (schema cols : list string) : M unit :=
  fun d =>
    if has_columns schema cols then (inr tt, d) else (inl no_such_column, d).

(** Exceptions of a handler that also subscripts a row by a column the
    row does not have ([sqlite3.Row] raises [IndexError]). *)
Inductive handler_exn :=
| Raised (e : exn)
| IndexError (msg : string).

(** [row[key]] decides by the columns of the table whether it raises. *)
Definition subscript (schema : list string) (key : string)
  : handler_exn + unit :=
  if has_columns schema [key] then inr tt
  else inl (IndexError "No item with that key").

(** [POST /external-process/<ep_id>/receive] with form field
    [quantity_received].  The value bound to [quantity_received] is
    [request.form.get('quantity_received') or ep['quantity_sent']]; the row
    record has no field for it, so only whether evaluating it raises is
    kept.  Of the [SET] clause, [status] and [updated_at] are columns of
    the table. *)
Definition external_process_receive (now : timestamp) (ep_id : Z)
    (quantity_received : option string)
  : db -> (handler_exn + reply) * db :=
  fun d =>
    match query_one (fun p => epr_id p =? ep_id) (external_processes d) with
    | None => (inr (flash_redirect "error" "jobs_list" None), d)
    | Some ep =>
        match (if truthy quantity_received then inr tt
               else subscript external_processes_columns "quantity_sent") with
        | inl e => (inl e, d)
        | inr _ =>
            match execute external_processes_columns
                    ["status"; "actual_return_date"; "quantity_received";
                     "updated_at"; "id"]
                    (update_external_processes (fun p => epr_id p =? ep_id)
                       (fun p => set_epr_updated_at (Some now)
                                   (set_epr_status "received" p))) d with
            | (inl e, d') => (inl (Raised e), d')
            | (inr _, d') =>
                (inr (flash_redirect "success" "external_process_detail"
                        (Some ep_id)), d')
            end
        end
    end.

(** [POST /external-process/<ep_id>/inspect] with form fields [status] and
    [inspection_notes].  Of the [SET] clause, [status], [inspection_date]
    and [updated_at] are columns of the table; [status] is [NOT NULL]. *)
Definition external_process_inspect (current_user : Z) (now : timestamp)
    (ep_id : Z) (status inspection_notes : option string) : M reply :=
  ep <- query (fun d =>
      query_one (fun p => epr_id p =? ep_id) (external_processes d)) ;;
  match ep with
  | None => ret (flash_redirect "error" "jobs_list" None)
  | Some ep =>
      prepare external_processes_columns
        ["status"; "inspected_by"; "inspection_date"; "inspection_notes";
         "updated_at"; "id"] ;;;
      match status with
      | None => raise (IntegrityError "NOT NULL constraint failed")
      | Some s =>
          execute external_processes_columns
            ["status"; "inspection_date"; "updated_at"; "id"]
            (update_external_processes (fun p => epr_id p =? ep_id)
               (fun p => set_epr_updated_at (Some now)
                           (set_epr_inspection_date (Some now)
                              (set_epr_status s p))))
      end ;;;
      (if py_eq status "rejected" then
         job <- query (fun d =>
             query_one (fun j => j_id j =? epr_job_id ep) (jobs d)) ;;
         match job with
         | Some job =>
             us <- get_quality_notification_users ;;
             for_each us (fun u =>
               create_notification now (u_id u) "external_rejected"
                 ("External Process Rejected: " ++ j_part_number job)%string
                 ("External process for Job "
                    ++ str_of_opt (j_internal_job_number job)
                    ++ " (PO " ++ j_po_number job
                    ++ ") was rejected after inspection.")%string
                 (Some "external_process") (Some ep_id))
         | None => ret tt
         end
       else ret tt) ;;;
      ret (flash_redirect "success" "external_process_detail" (Some ep_id))
  end.

(** ** Invariants of the tables *)

(** [UNIQUE(part_number, part_revision)]: no two parts share an identity. *)
Definition identities_unique (d : db) : Prop :=
  NoDup (map (fun p => (p_part_number p, p_part_revision p)) (rows (parts d))).

(** Every recorded verdict of a sample is 0 or 1. *)
Definition verdict_boolean (s : exit_control_sample_row) : Prop :=
  s_overall_pass s = None \/ s_overall_pass s = Some 0 \/
  s_overall_pass s = Some 1.

Definition verdicts_boolean (d : db) : Prop :=
  Forall verdict_boolean (rows (exit_control_samples d)).

(** The positions sampled under an exit control, in table order. *)
Definition positions_of (ec_id : Z) (d : db) : list Z :=
  map s_part_number (samples_of ec_id d).

(** A sample as [insert_sample] leaves it: of that exit control, without
    verdict. *)
Definition fresh_sample (ec_id : Z) (s : exit_control_sample_row) : Prop :=
  s_exit_control_id s = ec_id /\ s_overall_pass s = None /\
  s_dimensions_ok s = None /\ s_visual_ok s = None /\ s_surface_ok s = None.

(** Exit control 5 of job 7 before its samples exist, and with a failed
    sample. *)
Definition db_no_samples (stage : string) : db :=
  with_exit_controls (db_with_job (bracket_job stage None))
    (table_of ecr_id [exit_control_5]).

Definition db_failed_lot : db := db_exit_control "exit_control" (Some 0).

(** Stand-ins for [str.strip], [s.replace(',', ' ').split()] and [int] on
    plain ASCII text, to run [exit_control_add_samples] on an example:
    tokens are separated by spaces and commas, and a token of decimal
    digits is a number. *)
Fixpoint ascii_tokens (current text : string) : list string :=
  match text with
  | EmptyString => if (current =? "")%string then [] else [current]
  | String c rest =>
      if (c =? " ")%char || (c =? ",")%char then
        if (current =? "")%string then ascii_tokens "" rest
        else current :: ascii_tokens "" rest
      else ascii_tokens (current ++ String c "") rest
  end.

Definition ascii_int (token : string) : option Z :=
  option_map Z.of_int (NilZero.int_of_string token).

Definition ascii_strip (text : string) : string := text.

(** A user the quality notifications go to: active, and quality manager
    or administrator. *)
Definition quality_user (u : user_row) : Prop :=
  is_one (u_active u) = true /\
  (u_role u = "quality_manager" \/ u_role u = "admin").

(** A notification as [create_notification] stores it for a rejection. *)
Definition rejection_notice (kind entity : string) (entity_id : Z)
    (n : notification_row) : Prop :=
  n_notification_type n = kind /\ n_entity_type n = Some entity /\
  n_entity_id n = Some entity_id /\ n_read n = Some 0.

(** Users 1 and 2 with one unread notification each, and a read one of
    user 2. *)
Definition notice (id user_id : Z) (read : option Z) : notification_row :=
  {| n_id := id; n_user_id := user_id; n_notification_type := "error_report";
     n_title := "New Quality Issue: BRACKET-200";
     n_message := Some "Material supplier issue reported for PO PO-2024-002.";
     n_entity_type := Some "error_report"; n_entity_id := Some 4;
     n_read := read; n_created_at := Some "2024-05-02 10:00:00" |}.

Definition db_notices : db :=
  with_notifications (db_supplier "pending" "received")
    (table_of n_id [notice 1 1 (Some 0); notice 2 2 (Some 0);
                    notice 3 2 (Some 1)]).

(** The report both handlers insert. *)
Definition supplier_report (error_type : string) (supplier_id : option Z)
    (severity description : string) (r : error_report_row) : Prop :=
  er_error_type r = Some error_type /\ er_status r = "open" /\
  er_supplier_id r = supplier_id /\ er_severity r = severity /\
  er_description r = description /\
  er_resolved_date r = None /\ er_closed_date r = None.

(** * Theorems *)

(** ** Tolerance evaluator *)

Lemma py_eq_true v s : py_eq v s = true <-> v = Some s.
Proof.
  destruct v as [x|]; simpl.
  - rewrite String.eqb_eq. split; congruence.
  - split; discriminate.
Qed.

Lemma py_eq_false v s : py_eq v s = false <-> v <> Some s.
Proof.
  rewrite <- py_eq_true. destruct (py_eq v s); split; congruence.
Qed.

Lemma float_eqb_leb a b :
  PrimFloat.eqb a b = true -> PrimFloat.leb a b = true.
Proof.
  rewrite FloatAxioms.eqb_spec, FloatAxioms.leb_spec.
  unfold SFeqb, SFleb. destruct (SFcompare _ _) as [[]|]; congruence.
Qed.

Lemma float_eqb_geb a b :
  PrimFloat.eqb a b = true -> PrimFloat.leb b a = true.
Proof.
  rewrite FloatAxioms.eqb_spec, FloatAxioms.leb_spec.
  unfold SFeqb, SFleb, SFcompare.
  destruct (Prim2SF a) as [za|ia| |sa ma ea], (Prim2SF b) as [zb|ib| |sb mb eb];
    try discriminate; try reflexivity;
    repeat match goal with
      | |- context [if ?s then _ else _] => destruct s
      end; try discriminate; try reflexivity.
  all: rewrite (Z.compare_antisym ea eb); destruct (ea ?= eb)%Z; simpl;
    try discriminate;
    change (Pos.compare_cont Eq mb ma) with (Pos.compare mb ma);
    change (Pos.compare_cont Eq ma mb) with (Pos.compare ma mb);
    rewrite (Pos.compare_antisym ma mb);
    destruct (ma ?= mb)%positive; simpl; congruence.
Qed.

(** A float that is below or above some float is not a NaN, so it is
    below itself. *)
Lemma SFleb_refl_l x y : SFleb x y = true -> SFleb x x = true.
Proof.
  unfold SFleb, SFcompare.
  destruct x as [zx|ix| |sx mx ex]; try discriminate; intros _.
  - reflexivity.
  - destruct ix; reflexivity.
  - destruct sx; rewrite Z.compare_refl, Pos.compare_cont_refl; reflexivity.
Qed.

Lemma SFleb_refl_r x y : SFleb x y = true -> SFleb y y = true.
Proof.
  unfold SFleb, SFcompare.
  destruct y as [zy|iy| |sy my ey];
    try (destruct x as [zx|ix| |sx mx ex]; discriminate); intros _.
  - reflexivity.
  - destruct iy; reflexivity.
  - destruct sy; rewrite Z.compare_refl, Pos.compare_cont_refl; reflexivity.
Qed.

Lemma float_leb_refl a b :
  PrimFloat.leb a b = true ->
  PrimFloat.leb a a = true /\ PrimFloat.leb b b = true.
Proof.
  rewrite !FloatAxioms.leb_spec. intros H.
  split; [exact (SFleb_refl_l _ _ H) | exact (SFleb_refl_r _ _ H)].
Qed.

Lemma if_pass_iff (b : bool) :
  (if b then "pass" else "fail") = "pass" <-> b = true.
Proof. destruct b; split; intros; try reflexivity; discriminate. Qed.

Lemma calculate_pass_fail_gonogo d a :
  d_unit d = Some "go/nogo" ->
  calculate_pass_fail d a = if PrimFloat.eqb a 1%float then "pass" else "fail".
Proof.
  intros Hu. unfold calculate_pass_fail.
  apply py_eq_true in Hu. rewrite Hu. reflexivity.
Qed.

Lemma calculate_pass_fail_window d a tp tm :
  d_unit d <> Some "go/nogo" ->
  d_tolerance_plus d = Some tp -> d_tolerance_minus d = Some tm ->
  calculate_pass_fail d a =
    if within (lower_limit d tm) a (upper_limit d tp) then "pass" else "fail".
Proof.
  intros Hu Hp Hm. unfold calculate_pass_fail.
  apply py_eq_false in Hu. rewrite Hu, Hp, Hm. reflexivity.
Qed.

Lemma calculate_pass_fail_missing d a :
  d_unit d <> Some "go/nogo" ->
  d_tolerance_plus d = None \/ d_tolerance_minus d = None ->
  calculate_pass_fail d a = "pass".
Proof.
  intros Hu Hn. unfold calculate_pass_fail.
  apply py_eq_false in Hu. rewrite Hu.
  destruct Hn as [Hn|Hn]; rewrite Hn; [reflexivity|].
  destruct (d_tolerance_plus d); reflexivity.
Qed.

(** C2. [calculate_pass_fail] follows its three rules in order: a
    [go/nogo] dimension passes iff the reading equals 1, whatever its
    nominal and tolerances; otherwise a dimension with both tolerances
    passes iff [nominal + tolerance_minus <= actual <= nominal +
    tolerance_plus]; the comparison is inclusive, so a reading that equals
    one bound is not rejected by that bound and passes iff the other bound
    admits it; a bound itself passes exactly when the lower bound is not
    above the upper bound; otherwise a dimension with no tolerance passes.
    The result is always ["pass"] or ["fail"].  Sums and comparisons are
    those of the code, on binary64. *)
Theorem calculate_pass_fail_rules (d : job_dimension) (a : float) :
  (d_unit d = Some "go/nogo" ->
     (calculate_pass_fail d a = "pass" <-> PrimFloat.eqb a 1%float = true)) /\
  (d_unit d <> Some "go/nogo" ->
     forall tp tm,
       d_tolerance_plus d = Some tp -> d_tolerance_minus d = Some tm ->
       (calculate_pass_fail d a = "pass" <->
          within (lower_limit d tm) a (upper_limit d tp) = true) /\
       (PrimFloat.eqb a (upper_limit d tp) = true ->
          (calculate_pass_fail d a = "pass" <->
             PrimFloat.leb (lower_limit d tm) a = true)) /\
       (PrimFloat.eqb a (lower_limit d tm) = true ->
          (calculate_pass_fail d a = "pass" <->
             PrimFloat.leb a (upper_limit d tp) = true)) /\
       (calculate_pass_fail d (upper_limit d tp) = "pass" <->
          PrimFloat.leb (lower_limit d tm) (upper_limit d tp) = true) /\
       (calculate_pass_fail d (lower_limit d tm) = "pass" <->
          PrimFloat.leb (lower_limit d tm) (upper_limit d tp) = true)) /\
  (d_unit d <> Some "go/nogo" ->
     d_tolerance_plus d = None -> d_tolerance_minus d = None ->
     calculate_pass_fail d a = "pass") /\
  (calculate_pass_fail d a = "pass" \/ calculate_pass_fail d a = "fail").
Proof.
  split; [|split; [|split]].
  - intros Hu. rewrite (calculate_pass_fail_gonogo d a Hu). apply if_pass_iff.
  - intros Hu tp tm Hp Hm.
    rewrite !(calculate_pass_fail_window d _ tp tm Hu Hp Hm), !if_pass_iff.
    unfold within. split; [reflexivity|split; [|split; [|split]]].
    + intros He. rewrite (float_eqb_leb _ _ He), andb_true_r. reflexivity.
    + intros He. rewrite (float_eqb_geb _ _ He). reflexivity.
    + rewrite andb_true_iff. split; [tauto|].
      intros Hw. destruct (float_leb_refl _ _ Hw) as [_ Hh]. auto.
    + rewrite andb_true_iff. split; [tauto|].
      intros Hw. destruct (float_leb_refl _ _ Hw) as [Hl _]. auto.
  - intros Hu Hp Hm. apply calculate_pass_fail_missing; auto.
  - unfold calculate_pass_fail.
    destruct (py_eq (d_unit d) "go/nogo").
    + destruct (PrimFloat.eqb a 1); auto.
    + destruct (d_tolerance_plus d), (d_tolerance_minus d); auto.
      destruct (_ && _); auto.
Qed.

Lemma calculate_pass_fail_rules_witness :
  calculate_pass_fail thread_gauge 1%float = "pass" /\
  calculate_pass_fail shaft_diameter 25.5%float = "pass" /\
  calculate_pass_fail shaft_diameter 24.5%float = "pass" /\
  calculate_pass_fail swapped_signs 9%float <> "pass".
Proof.
  assert (Hu : d_unit shaft_diameter <> Some "go/nogo") by discriminate.
  assert (Hs : d_unit swapped_signs <> Some "go/nogo") by discriminate.
  split; [|split; [|split]].
  - apply (proj1 (calculate_pass_fail_rules thread_gauge 1%float));
      reflexivity.
  - destruct (calculate_pass_fail_rules shaft_diameter 25.5%float)
      as (_ & Hw & _).
    destruct (Hw Hu 0.5%float (-0.5)%float eq_refl eq_refl)
      as (_ & Hup & _).
    apply Hup; reflexivity.
  - destruct (calculate_pass_fail_rules shaft_diameter 24.5%float)
      as (_ & Hw & _).
    destruct (Hw Hu 0.5%float (-0.5)%float eq_refl eq_refl)
      as (_ & _ & Hlo & _).
    apply Hlo; reflexivity.
  - destruct (calculate_pass_fail_rules swapped_signs 9%float)
      as (_ & Hw & _).
    destruct (Hw Hs (-1)%float 1%float eq_refl eq_refl)
      as (_ & _ & _ & Hupper & _).
    intros Hpass. apply Hupper in Hpass. discriminate Hpass.
Defined.

(** The claim C2 as stated fails: a reading equal to a bound does not
    always pass.  The slot width with nominal 10, [tolerance_plus = -1] and
    [tolerance_minus = 1] has the upper bound 9 and the lower bound 11, and
    the readings 9 and 11 both fail. *)
Lemma calculate_pass_fail_bound_passes_counterexample :
  ~ (forall (d : job_dimension) (a tp tm : float),
       d_unit d <> Some "go/nogo" ->
       d_tolerance_plus d = Some tp -> d_tolerance_minus d = Some tm ->
       PrimFloat.eqb a (upper_limit d tp) = true \/
       PrimFloat.eqb a (lower_limit d tm) = true ->
       calculate_pass_fail d a = "pass").
Proof.
  intros H.
  assert (Hu : d_unit swapped_signs <> Some "go/nogo") by discriminate.
  assert (Hfail : calculate_pass_fail swapped_signs 9%float = "fail" /\
                  calculate_pass_fail swapped_signs 11%float = "fail")
    by (split; reflexivity).
  destruct Hfail as [Hupper Hlower].
  rewrite (H swapped_signs 9%float (-1)%float 1%float Hu eq_refl eq_refl)
    in Hupper by (left; reflexivity).
  discriminate Hupper.
Qed.

(** C10. A dimension that is not [go/nogo] and has exactly one of its two
    tolerances passes for every reading: the one-sided tolerance is never
    compared against. *)
Theorem one_sided_tolerance_always_passes (d : job_dimension) (a : float) :
  d_unit d <> Some "go/nogo" ->
  (d_tolerance_plus d <> None /\ d_tolerance_minus d = None) \/
  (d_tolerance_plus d = None /\ d_tolerance_minus d <> None) ->
  calculate_pass_fail d a = "pass".
Proof.
  intros Hu Hone. apply calculate_pass_fail_missing; [exact Hu|].
  destruct Hone as [[_ Hm]|[Hp _]]; auto.
Qed.

Lemma one_sided_tolerance_always_passes_witness :
  calculate_pass_fail bore_plus_only 1000%float = "pass".
Proof.
  apply one_sided_tolerance_always_passes.
  - discriminate.
  - left. split; [discriminate | reflexivity].
Defined.

(** ** Exit-control sampler *)

Lemma append_each_app samples xs : append_each samples xs = samples ++ xs.
Proof.
  unfold append_each. revert samples.
  induction xs as [|x xs IH]; intros samples; simpl.
  - now rewrite app_nil_r.
  - rewrite IH, <- app_assoc. reflexivity.
Qed.

Lemma range_first_positions n :
  0 < n -> range 1 (Z.min 6 (n + 1)) = first_positions n.
Proof.
  intros Hn. unfold range, first_positions.
  replace (Z.min 6 (n + 1) - 1) with (Z.min 5 n) by lia.
  rewrite <- seq_shift, map_map.
  apply map_ext. intros i. lia.
Qed.

Lemma turns_step lot part :
  part <= lot -> turns lot part = S (turns lot (part + 10)).
Proof.
  intros Hle. unfold turns.
  replace (lot - part + 10) with ((lot - (part + 10) + 10) + 1 * 10) by lia.
  rewrite Z.div_add by lia.
  assert (0 <= (lot - (part + 10) + 10) / 10) by (apply Z.div_pos; lia).
  lia.
Qed.

Lemma turns_done lot part : part > lot -> turns lot part = 0%nat.
Proof.
  intros Hgt. unfold turns.
  assert ((lot - part + 10) / 10 <= 0); [|lia].
  assert ((lot - part + 10) / 10 < 1); [|lia].
  apply Z.div_lt_upper_bound; lia.
Qed.

Lemma every_tenth_loop_app lot samples part :
  every_tenth_loop lot samples part =
  samples ++ map (fun k => part + 10 * Z.of_nat k) (seq 0 (turns lot part)).
Proof.
  funelim (every_tenth_loop lot samples part).
  - match goal with
    | IH : every_tenth_loop _ _ _ = _ ++ map _ _ |- _ => rewrite IH
    end.
    rewrite (turns_step lot_quantity part) by assumption.
    rewrite <- app_assoc. f_equal. cbn [seq map app]. f_equal.
    + lia.
    + rewrite <- seq_shift, map_map. apply map_ext. intros k. lia.
  - rewrite turns_done by assumption. simpl. now rewrite app_nil_r.
Qed.

Lemma calculate_exit_control_samples_plan n :
  0 < n -> calculate_exit_control_samples n = computeSamplePositions n.
Proof.
  intros Hn. unfold calculate_exit_control_samples, computeSamplePositions.
  rewrite append_each_app, range_first_positions by assumption.
  cbn [app].
  destruct (5 <? n)%Z; [|now rewrite app_nil_r].
  rewrite every_tenth_loop_app. f_equal.
  unfold every_tenth_from_15, turns.
  replace (n - 15 + 10) with (n - 5) by lia. reflexivity.
Qed.

Lemma in_first_positions n p :
  In p (first_positions n) <-> 1 <= p <= Z.min 5 n.
Proof.
  unfold first_positions. rewrite in_map_iff. split.
  - intros (k & <- & Hk). apply in_seq in Hk. lia.
  - intros Hp. exists (Z.to_nat p). split; [lia|]. apply in_seq. lia.
Qed.

Lemma in_every_tenth_from_15 n p :
  In p (every_tenth_from_15 n) <-> 15 <= p <= n /\ (p - 15) mod 10 = 0.
Proof.
  unfold every_tenth_from_15. rewrite in_map_iff. split.
  - intros (k & <- & Hk). apply in_seq in Hk.
    assert (Hq : Z.of_nat k < (n - 5) / 10) by lia.
    assert (10 * (Z.of_nat k + 1) <= n - 5).
    { transitivity (10 * ((n - 5) / 10)); [lia|].
      apply Z.mul_div_le. lia. }
    split; [lia|].
    replace (15 + 10 * Z.of_nat k - 15) with (Z.of_nat k * 10) by lia.
    apply Z.mod_mul. lia.
  - intros (Hp & Hm).
    apply Z.mod_divide in Hm; [|lia]. destruct Hm as [q Hq].
    exists (Z.to_nat q). split; [lia|]. apply in_seq.
    assert (q + 1 <= (n - 5) / 10); [|lia].
    apply Z.div_le_lower_bound; lia.
Qed.

(** C3. For a positive lot quantity [n] the sampler returns, in order, the
    positions [1..min(5, n)] followed, when [n > 5], by every tenth
    position from 15 up to and including [n]: a position is sampled iff it
    is one of these, positions 6 to 14 never are, and the plans for lots of
    5, 12 and 25 are [1..5], [1..5] and [1..5, 15, 25]. *)
Theorem calculate_exit_control_samples_spec (n : Z) :
  0 < n ->
  calculate_exit_control_samples n = computeSamplePositions n /\
  (forall p, In p (calculate_exit_control_samples n) <-> in_sample_plan n p) /\
  (forall p, 6 <= p <= 14 -> ~ In p (calculate_exit_control_samples n)) /\
  calculate_exit_control_samples 5 = [1; 2; 3; 4; 5] /\
  calculate_exit_control_samples 12 = [1; 2; 3; 4; 5] /\
  calculate_exit_control_samples 25 = [1; 2; 3; 4; 5; 15; 25].
Proof.
  intros Hn.
  assert (Hin : forall p,
             In p (calculate_exit_control_samples n) <-> in_sample_plan n p).
  { intros p. rewrite calculate_exit_control_samples_plan by assumption.
    unfold computeSamplePositions, in_sample_plan.
    rewrite in_app_iff, in_first_positions.
    destruct (Z.ltb_spec 5 n) as [Hlt|Hge].
    - rewrite in_every_tenth_from_15. tauto.
    - simpl. split; [tauto|]. intros [H|H]; [tauto|lia]. }
  split; [now apply calculate_exit_control_samples_plan|].
  split; [exact Hin|].
  split; [|repeat split; reflexivity].
  intros p Hp Hi. apply Hin in Hi. unfold in_sample_plan in Hi. lia.
Qed.

Lemma calculate_exit_control_samples_spec_witness :
  calculate_exit_control_samples 47 = computeSamplePositions 47 /\
  In 35 (calculate_exit_control_samples 47) /\
  ~ In 10 (calculate_exit_control_samples 47).
Proof.
  assert (Hpos : 0 < 47) by lia.
  destruct (calculate_exit_control_samples_spec 47 Hpos)
    as (Heq & Hin & Hgap & _).
  split; [exact Heq|]. split.
  - apply Hin. right. repeat split; lia.
  - apply Hgap. lia.
Defined.

(** ** Tables *)

Lemma filter_update {R} (w c : R -> bool) (set : R -> R) (l : list R) :
  (forall r, w (set r) = w r) ->
  filter w (map (fun r => if c r then set r else r) l) =
  map (fun r => if c r then set r else r) (filter w l).
Proof.
  intros Hw. induction l as [|r l IH]; simpl; [reflexivity|].
  assert (Hr : w (if c r then set r else r) = w r)
    by (destruct (c r); auto).
  rewrite Hr. destruct (w r); simpl; rewrite IH; reflexivity.
Qed.

(** A primary-key lookup after an [UPDATE] that leaves the key alone reads
    the updated row. *)
Lemma query_one_update {R} (w c : R -> bool) (set : R -> R) (t : table R) :
  (forall r, w (set r) = w r) ->
  query_one w (sql_update c set t) =
  option_map (fun r => if c r then set r else r) (query_one w t).
Proof.
  intros Hw. unfold query_one, sql_select, sql_update. simpl.
  rewrite filter_update by assumption.
  destruct (filter w (rows t)); reflexivity.
Qed.

Lemma query_one_found {R} (w : R -> bool) (t : table R) r :
  query_one w t = Some r -> In r (rows t) /\ w r = true.
Proof.
  unfold query_one, sql_select. intros H.
  destruct (filter w (rows t)) as [|x l] eqn:E; [discriminate|].
  simpl in H. injection H as ->.
  apply filter_In. rewrite E. now left.
Qed.

Lemma py_in_true v xs :
  py_in v xs = true -> exists s, v = Some s /\ In s xs.
Proof.
  destruct v as [s|]; simpl; [|discriminate].
  intros H. apply existsb_exists in H. destruct H as (x & Hx & He).
  apply String.eqb_eq in He. subst. eauto.
Qed.

(** ** Running statements *)

Lemma execute_ok schema cols run d :
  has_columns schema cols = true -> execute schema cols run d = (inr tt, run d).
Proof. intros H. unfold execute. now rewrite H. Qed.

Lemma log_audit_run current_user now action entity_type entity_id
    description changes d :
  log_audit current_user now action entity_type entity_id description changes d =
  (inr tt,
   with_audit_logs d
     (snd (sql_insert a_id
             (fun rowid =>
                {| a_id := rowid; a_user_id := Some current_user;
                   a_action := action; a_entity_type := entity_type;
                   a_entity_id := entity_id; a_description := description;
                   a_changes := changes; a_timestamp := Some now |})
             (audit_logs d)))).
Proof. reflexivity. Qed.

Lemma job_by_id_with_audit_logs d t job_id :
  job_by_id (with_audit_logs d t) job_id = job_by_id d job_id.
Proof. reflexivity. Qed.

(** ** Job stage *)


Lemma job_by_id_update d job_id c set :
  (forall j, j_id (set j) = j_id j) ->
  job_by_id (update_jobs c set d) job_id =
  option_map (fun j => if c j then set j else j) (job_by_id d job_id).
Proof.
  intros Hid. unfold job_by_id, update_jobs. simpl.
  apply query_one_update. intros j. now rewrite Hid.
Qed.

Lemma job_by_id_key d job_id j :
  job_by_id d job_id = Some j -> j_id j = job_id.
Proof.
  intros H. apply query_one_found in H. destruct H as [_ H].
  now apply Z.eqb_eq.
Qed.

(** What an accepted request does to the job row: the stage is written,
    [completed_at] is written only when the stage is [complete]. *)
Lemma job_update_stage_accepted current_user now job_id s d j :
  job_by_id d job_id = Some j ->
  In s valid_stages ->
  result_of (job_update_stage current_user now job_id (Some s)) d =
    inr (flash_redirect "success" "job_detail" (Some job_id)) /\
  job_by_id (db_after (job_update_stage current_user now job_id (Some s)) d) job_id =
    Some (set_j_updated_at (Some now)
            (if (s =? "complete")%string
             then set_j_completed_at (Some now) (set_j_workflow_stage s j)
             else set_j_workflow_stage s j)).
Proof.
  intros Hj Hs.
  assert (Hin : py_in (Some s) valid_stages = true).
  { unfold py_in. apply existsb_exists. exists s. split; [assumption|].
    apply String.eqb_refl. }
  pose proof (job_by_id_key _ _ _ Hj) as Hk.
  unfold result_of, db_after, job_update_stage, bind, query.
  fold (job_by_id d job_id). rewrite Hj, Hin.
  cbn [negb str_of_opt].
  destruct (s =? "complete")%string eqn:Hc;
    rewrite execute_ok by reflexivity; rewrite log_audit_run;
    (split; [reflexivity|]); cbn [snd ret];
    rewrite job_by_id_with_audit_logs, job_by_id_update by reflexivity;
    rewrite Hj; cbn [option_map]; rewrite Hk, Z.eqb_refl; reflexivity.
Qed.

Lemma py_in_false v xs :
  (forall s, v = Some s -> ~ In s xs) -> py_in v xs = false.
Proof.
  intros H. destruct (py_in v xs) eqn:E; [|reflexivity].
  apply py_in_true in E. destruct E as (s & Hv & Hs).
  exfalso. exact (H s Hv Hs).
Qed.

(** C1, as amended.  An accepted stage request writes the requested stage.
    When the stage is [complete] it stamps [completed_at] with the current
    time; for every other stage it leaves [completed_at] as it was, also
    when the job was [complete] before.  So a job in stage [complete] has
    [completed_at] set after any accepted request, and the converse is not
    maintained. *)
Theorem job_update_stage_completed_at
    (current_user : Z) (now : timestamp) (job_id : Z) (s : string)
    (d : db) (j : job_row) :
  job_by_id d job_id = Some j ->
  In s valid_stages ->
  exists j',
    job_by_id (db_after (job_update_stage current_user now job_id (Some s)) d)
      job_id = Some j' /\
    j_workflow_stage j' = s /\
    (s = "complete" -> j_completed_at j' = Some now) /\
    (s <> "complete" -> j_completed_at j' = j_completed_at j) /\
    (j_workflow_stage j' = "complete" -> j_completed_at j' <> None).
Proof.
  intros Hj Hs.
  destruct (job_update_stage_accepted current_user now job_id s d j Hj Hs)
    as [_ Hrow].
  eexists. split; [exact Hrow|].
  destruct (String.eqb_spec s "complete") as [Hc|Hc]; cbn.
  - repeat split; try reflexivity; try discriminate. congruence.
  - repeat split; try reflexivity; try congruence.
Qed.

Lemma job_update_stage_completed_at_witness :
  exists j',
    job_by_id (db_after (job_update_stage 1 "2024-05-21 09:00:00" 7
                           (Some "in_process")) db_completed_job) 7 = Some j' /\
    j_workflow_stage j' = "in_process" /\
    ("in_process" = "complete" -> j_completed_at j' = Some "2024-05-21 09:00:00") /\
    ("in_process" <> "complete" ->
       j_completed_at j' =
       j_completed_at (bracket_job "complete" (Some "2024-05-20 14:30:00"))) /\
    (j_workflow_stage j' = "complete" -> j_completed_at j' <> None).
Proof.
  apply (job_update_stage_completed_at 1 "2024-05-21 09:00:00" 7 "in_process"
           db_completed_job
           (bracket_job "complete" (Some "2024-05-20 14:30:00"))).
  - reflexivity.
  - simpl. tauto.
Defined.

(** The claim C1 as stated fails: moving the completed job 7 back to
    [in_process] keeps its [completed_at]. *)
Lemma job_update_stage_clears_completed_at_counterexample :
  ~ (forall (current_user : Z) (now : timestamp) (job_id : Z) (s : string)
            (d : db) (j j' : job_row),
       job_by_id d job_id = Some j ->
       In s valid_stages ->
       job_by_id (db_after (job_update_stage current_user now job_id (Some s)) d)
         job_id = Some j' ->
       (s = "complete" -> j_completed_at j' = Some now) /\
       (j_workflow_stage j = "complete" -> s <> "complete" ->
          j_completed_at j' = None) /\
       (j_completed_at j' <> None <-> j_workflow_stage j' = "complete")).
Proof.
  intros H.
  destruct (H 1 "2024-05-21 09:00:00" 7 "in_process" db_completed_job
              (bracket_job "complete" (Some "2024-05-20 14:30:00"))
              (set_j_updated_at (Some "2024-05-21 09:00:00")
                 (set_j_workflow_stage "in_process"
                    (bracket_job "complete" (Some "2024-05-20 14:30:00")))))
    as (_ & Hclear & _).
  - reflexivity.
  - simpl. tauto.
  - reflexivity.
  - assert (Hnone : Some "2024-05-20 14:30:00" = @None timestamp).
    { apply Hclear; [reflexivity | discriminate]. }
    discriminate Hnone.
Qed.

(** C8. A stage request that names none of the eight stages (or no stage
    at all) is answered with an error flash and changes nothing: the
    database after the request is the database before it, so the job row
    and the audit log are as they were. *)
Theorem job_update_stage_invalid
    (current_user : Z) (now : timestamp) (job_id : Z) (stage : option string)
    (d : db) (j : job_row) :
  job_by_id d job_id = Some j ->
  (forall s, stage = Some s -> ~ In s valid_stages) ->
  result_of (job_update_stage current_user now job_id stage) d =
    inr (flash_redirect "error" "job_detail" (Some job_id)) /\
  db_after (job_update_stage current_user now job_id stage) d = d /\
  job_by_id (db_after (job_update_stage current_user now job_id stage) d) job_id =
    Some j /\
  audit_logs (db_after (job_update_stage current_user now job_id stage) d) =
    audit_logs d.
Proof.
  intros Hj Hbad. apply py_in_false in Hbad.
  assert (Hrun : job_update_stage current_user now job_id stage d =
                 (inr (flash_redirect "error" "job_detail" (Some job_id)), d)).
  { unfold job_update_stage, bind, query.
    fold (job_by_id d job_id). rewrite Hj, Hbad. reflexivity. }
  unfold result_of, db_after. rewrite Hrun. simpl. auto.
Qed.

Lemma job_update_stage_invalid_witness :
  result_of (job_update_stage 1 "2024-05-21 09:00:00" 7 (Some "shipped"))
    db_completed_job =
    inr (flash_redirect "error" "job_detail" (Some 7)) /\
  db_after (job_update_stage 1 "2024-05-21 09:00:00" 7 (Some "shipped"))
    db_completed_job = db_completed_job.
Proof.
  destruct (job_update_stage_invalid 1 "2024-05-21 09:00:00" 7 (Some "shipped")
              db_completed_job
              (bracket_job "complete" (Some "2024-05-20 14:30:00")))
    as (Hr & Hd & _).
  - reflexivity.
  - intros s Hs. injection Hs as <-. simpl.
    intros [H|[H|[H|[H|[H|[H|[H|[H|[]]]]]]]]]; discriminate H.
  - split; assumption.
Defined.

(** ** Error report update *)

Lemma error_report_by_id_update d error_id c set :
  (forall r, er_id (set r) = er_id r) ->
  error_report_by_id (update_error_reports c set d) error_id =
  option_map (fun r => if c r then set r else r) (error_report_by_id d error_id).
Proof.
  intros Hid. unfold error_report_by_id, update_error_reports. simpl.
  apply query_one_update. intros r. now rewrite Hid.
Qed.

Lemma error_report_by_id_key d error_id r :
  error_report_by_id d error_id = Some r -> er_id r = error_id.
Proof.
  intros H. apply query_one_found in H. destruct H as [_ H].
  now apply Z.eqb_eq.
Qed.

Lemma error_report_by_id_with_audit_logs d t error_id :
  error_report_by_id (with_audit_logs d t) error_id =
  error_report_by_id d error_id.
Proof. reflexivity. Qed.

(** The row a reopen request leaves behind. *)
Lemma error_report_update_reopen current_user now error_id form d r :
  error_report_by_id d error_id = Some r ->
  f_action form = Some "reopen" ->
  result_of (error_report_update current_user now error_id form) d =
    inr {| flashed := ["success"];
           answer := Redirect "error_report_detail" (Some error_id) |} /\
  error_report_by_id
    (db_after (error_report_update current_user now error_id form) d) error_id =
    Some (set_er_updated_at (Some now)
            (set_er_closed_date None
               (set_er_resolved_date None (set_er_status "open" r)))).
Proof.
  intros Hr Ha.
  pose proof (error_report_by_id_key _ _ _ Hr) as Hk.
  unfold result_of, db_after, error_report_update, bind, query.
  fold (error_report_by_id d error_id). rewrite Hr, Ha.
  cbn [py_eq String.eqb Ascii.eqb Bool.eqb].
  rewrite execute_ok by reflexivity. cbn [ret].
  rewrite log_audit_run. split; [reflexivity|]. unfold ret. cbn [snd].
  rewrite error_report_by_id_with_audit_logs.
  rewrite error_report_by_id_update by reflexivity.
  rewrite Hr. cbn [option_map]. rewrite Hk, Z.eqb_refl. reflexivity.
Qed.

(** C9. Reopening an error report, whatever its status, sets the status to
    [open], clears [resolved_date] and [closed_date], and leaves every
    other column except [updated_at] as it was. *)
Theorem error_report_reopen
    (current_user : Z) (now : timestamp) (error_id : Z) (form : update_form)
    (d : db) (r : error_report_row) :
  error_report_by_id d error_id = Some r ->
  f_action form = Some "reopen" ->
  exists r',
    error_report_by_id
      (db_after (error_report_update current_user now error_id form) d)
      error_id = Some r' /\
    er_status r' = "open" /\
    er_resolved_date r' = None /\
    er_closed_date r' = None /\
    er_description r' = er_description r /\
    er_severity r' = er_severity r /\
    er_error_type r' = er_error_type r /\
    er_supplier_id r' = er_supplier_id r /\
    er_material_control_id r' = er_material_control_id r /\
    er_external_process_id r' = er_external_process_id r /\
    er_id r' = er_id r /\
    er_job_id r' = er_job_id r /\
    er_reported_by r' = er_reported_by r /\
    er_workflow_stage r' = er_workflow_stage r /\
    er_found_date r' = er_found_date r /\
    er_affected_quantity r' = er_affected_quantity r /\
    er_disposition r' = er_disposition r /\
    er_root_cause r' = er_root_cause r /\
    er_corrective_action r' = er_corrective_action r /\
    er_assigned_to r' = er_assigned_to r /\
    er_created_at r' = er_created_at r.
Proof.
  intros Hr Ha.
  destruct (error_report_update_reopen current_user now error_id form d r Hr Ha)
    as [_ Hrow].
  eexists. split; [exact Hrow|].
  repeat split.
Qed.

Lemma error_report_reopen_witness :
  exists r',
    error_report_by_id
      (db_after (error_report_update 2 "2024-05-21 09:00:00" 4 reopen_form)
         db_closed_report) 4 = Some r' /\
    er_status r' = "open" /\
    er_resolved_date r' = None /\
    er_closed_date r' = None /\
    er_description r' = "Wrong alloy delivered".
Proof.
  destruct (error_report_reopen 2 "2024-05-21 09:00:00" 4 reopen_form
              db_closed_report closed_report eq_refl eq_refl)
    as (r' & Hrow & Hs & Hres & Hcl & Hd & _).
  exists r'. repeat split; assumption.
Defined.

(** ** Part registry *)

Lemma query_one_none {R} (w : R -> bool) (t : table R) :
  query_one w t = None -> existsb w (rows t) = false.
Proof.
  unfold query_one, sql_select. intros H.
  destruct (existsb w (rows t)) eqn:E; [|reflexivity].
  apply existsb_exists in E. destruct E as (r & Hin & Hw).
  assert (Hf : In r (filter w (rows t))) by (apply filter_In; auto).
  destruct (filter w (rows t)); [contradiction | discriminate].
Qed.

Lemma query_one_exists {R} (w : R -> bool) (t : table R) r :
  In r (rows t) -> w r = true -> exists r', query_one w t = Some r'.
Proof.
  intros Hin Hw. unfold query_one, sql_select.
  assert (Hf : In r (filter w (rows t))) by (apply filter_In; auto).
  destruct (filter w (rows t)) as [|x l]; [contradiction|].
  exists x. reflexivity.
Qed.

Lemma query_one_insert_fresh {R} (w : R -> bool) (id_of : R -> Z)
    (mk : Z -> R) (t : table R) :
  query_one w t = None ->
  w (mk (next_rowid id_of t)) = true ->
  query_one w (snd (sql_insert id_of mk t)) = Some (mk (next_rowid id_of t)).
Proof.
  intros Hnone Hw. unfold query_one, sql_select in *. simpl.
  rewrite filter_app. simpl. rewrite Hw.
  destruct (filter w (rows t)); [reflexivity | discriminate].
Qed.

Lemma or_else_empty_none : or_else (Some "") "" = or_else None "".
Proof. reflexivity. Qed.

(** One call resolves the identity: it answers an id and whether it
    created the part, and afterwards the lookup by identity finds a row
    with that id. *)
Lemma get_or_create_part_resolves now part_number part_revision
    part_description d :
  exists part_id was_created p,
    result_of (get_or_create_part now part_number part_revision part_description) d
      = inr (part_id, was_created) /\
    query_one (same_identity part_number (or_else part_revision ""))
      (parts (db_after
                (get_or_create_part now part_number part_revision part_description)
                d)) = Some p /\
    p_id p = part_id.
Proof.
  unfold result_of, db_after, get_or_create_part, bind, query.
  fold (same_identity part_number (or_else part_revision "")).
  destruct (query_one (same_identity part_number (or_else part_revision ""))
              (parts d)) as [e|] eqn:He.
  - exists (p_id e), false.
    destruct (truthy part_description).
    + rewrite execute_ok by reflexivity. unfold ret. cbn [fst snd].
      unfold update_parts. cbn [parts with_parts].
      rewrite query_one_update by reflexivity. rewrite He. cbn [option_map].
      eexists. split; [reflexivity|]. split; [reflexivity|].
      destruct (p_id e =? p_id e); reflexivity.
    + unfold ret. cbn [fst snd]. exists e. auto.
  - unfold insert_part.
    fold (same_identity part_number (or_else part_revision "")).
    rewrite (query_one_none _ _ He).
    unfold execute_insert.
    replace (has_columns parts_columns
               ["part_number"; "part_revision"; "part_description"])
      with true by reflexivity.
    destruct (sql_insert p_id
                (fun rowid =>
                   {| p_id := rowid; p_part_number := part_number;
                      p_part_revision := or_else part_revision "";
                      p_part_description := part_description;
                      p_created_at := Some now; p_updated_at := Some now |})
                (parts d)) as [rowid t] eqn:Hins.
    unfold ret. cbn [fst snd parts with_parts].
    exists rowid, true.
    assert (Ht : t = snd (sql_insert p_id
                (fun rowid =>
                   {| p_id := rowid; p_part_number := part_number;
                      p_part_revision := or_else part_revision "";
                      p_part_description := part_description;
                      p_created_at := Some now; p_updated_at := Some now |})
                (parts d))) by (rewrite Hins; reflexivity).
    assert (Hid : rowid = next_rowid p_id (parts d))
      by (unfold sql_insert in Hins; congruence).
    eexists. split; [reflexivity|]. rewrite Ht. split.
    + apply query_one_insert_fresh; [exact He|].
      unfold same_identity. cbn [p_part_number p_part_revision].
      now rewrite !String.eqb_refl.
    + cbn [p_id]. symmetry. exact Hid.
Qed.

(** A call that finds the identity answers the id of the row found, does
    not create, and writes a non-empty description to the rows of that
    id. *)
Lemma get_or_create_part_existing now part_number part_revision
    part_description d e :
  query_one (same_identity part_number (or_else part_revision "")) (parts d)
    = Some e ->
  result_of (get_or_create_part now part_number part_revision part_description) d
    = inr (p_id e, false) /\
  (truthy part_description = true ->
   exists p,
     part_by_id
       (db_after
          (get_or_create_part now part_number part_revision part_description) d)
       (p_id e) = Some p /\
     p_part_description p = part_description).
Proof.
  intros He.
  unfold result_of, db_after, get_or_create_part, bind, query.
  fold (same_identity part_number (or_else part_revision "")).
  rewrite He. split.
  - destruct (truthy part_description);
      [rewrite execute_ok by reflexivity|]; reflexivity.
  - intros Ht. rewrite Ht. rewrite execute_ok by reflexivity.
    unfold ret. cbn [snd]. unfold part_by_id, update_parts.
    cbn [parts with_parts].
    rewrite query_one_update by reflexivity.
    apply query_one_found in He. destruct He as [Hin _].
    destruct (query_one_exists (fun p => p_id p =? p_id e) (parts d) e Hin
                (Z.eqb_refl _)) as [q Hq].
    rewrite Hq. cbn [option_map].
    pose proof (query_one_found _ _ _ Hq) as [_ Hqid].
    rewrite Hqid. eexists. split; reflexivity.
Qed.

Lemma map_update_key {R K} (key : R -> K) (c : R -> bool) (set : R -> R)
    (l : list R) :
  (forall r, key (set r) = key r) ->
  map key (map (fun r => if c r then set r else r) l) = map key l.
Proof.
  intros Hk. rewrite map_map. apply map_ext.
  intros r. destruct (c r); auto.
Qed.

Lemma same_identity_key pn rev p :
  same_identity pn rev p = true <->
  (p_part_number p, p_part_revision p) = (pn, rev).
Proof.
  unfold same_identity. rewrite andb_true_iff, !String.eqb_eq.
  split; [intros [-> ->]; reflexivity | intros H; injection H; auto].
Qed.

(** The parts table after a call. *)
Lemma get_or_create_part_parts now pn rev desc d :
  let d' := db_after (get_or_create_part now pn rev desc) d in
  (exists e,
     query_one (same_identity pn (or_else rev "")) (parts d) = Some e /\
     result_of (get_or_create_part now pn rev desc) d = inr (p_id e, false) /\
     d' = if truthy desc
          then update_parts (fun p => p_id p =? p_id e)
                 (fun p => set_p_updated_at (Some now)
                             (set_p_part_description desc p)) d
          else d) \/
  (query_one (same_identity pn (or_else rev "")) (parts d) = None /\
   result_of (get_or_create_part now pn rev desc) d =
     inr (next_rowid p_id (parts d), true) /\
   d' = with_parts d
          {| rows := rows (parts d) ++
                     [{| p_id := next_rowid p_id (parts d);
                         p_part_number := pn;
                         p_part_revision := or_else rev "";
                         p_part_description := desc;
                         p_created_at := Some now;
                         p_updated_at := Some now |}];
             seq_no := next_rowid p_id (parts d) |}).
Proof.
  unfold result_of, db_after, get_or_create_part, bind, query.
  destruct (query_one (same_identity pn (or_else rev "")) (parts d))
    as [e|] eqn:He.
  - left. exists e. split; [reflexivity|].
    destruct (truthy desc); [rewrite execute_ok by reflexivity|];
      split; reflexivity.
  - right. split; [reflexivity|].
    unfold insert_part. rewrite (query_one_none _ _ He).
    split; reflexivity.
Qed.

Lemma next_rowid_fresh {R} (id_of : R -> Z) (t : table R) r :
  In r (rows t) -> id_of r < next_rowid id_of t.
Proof.
  unfold next_rowid. intros Hin.
  assert (id_of r <= fold_right Z.max 0 (map id_of (rows t))); [|lia].
  induction (rows t) as [|x l IH]; [contradiction|].
  simpl. destruct Hin as [->|Hin]; [lia|]. specialize (IH Hin). lia.
Qed.

Lemma NoDup_map_same {A B} (f : A -> B) (l : list A) a b :
  NoDup (map f l) -> In a l -> In b l -> f a = f b -> a = b.
Proof.
  induction l as [|x l IH]; cbn [map]; intros Hnd Ha Hb Hf; [contradiction|].
  inversion Hnd as [|? ? Hnotin Hnd']; subst.
  destruct Ha as [->|Ha], Hb as [->|Hb]; auto.
  - exfalso. apply Hnotin. rewrite Hf. now apply in_map.
  - exfalso. apply Hnotin. rewrite <- Hf. now apply in_map.
Qed.

(** One call, against the rows of the table: the lookup hits exactly when
    a row carries the part number and the normalized revision; the id
    answered is the id of a row that carries them; and where [id] is the
    primary key, no row of another number or revision has that id or is
    written. *)
Lemma get_or_create_part_exact now pn rev desc d :
  let call := get_or_create_part now pn rev desc in
  exists part_id was_created,
    result_of call d = inr (part_id, was_created) /\
    (was_created = false <->
       exists p, In p (rows (parts d)) /\
                 p_part_number p = pn /\ p_part_revision p = or_else rev "") /\
    (exists p, In p (rows (parts (db_after call d))) /\ p_id p = part_id /\
               p_part_number p = pn /\ p_part_revision p = or_else rev "") /\
    (NoDup (map p_id (rows (parts d))) ->
       NoDup (map p_id (rows (parts (db_after call d)))) /\
       (forall q, In q (rows (parts (db_after call d))) -> p_id q = part_id ->
                  p_part_number q = pn /\ p_part_revision q = or_else rev "") /\
       (forall q, In q (rows (parts d)) ->
                  p_part_number q <> pn \/ p_part_revision q <> or_else rev "" ->
                  In q (rows (parts (db_after call d))))).
Proof.
  intros call.
  destruct (get_or_create_part_parts now pn rev desc d)
    as [(e & He & Hres & Hd)|(He & Hres & Hd)]; fold call in Hres, Hd.
  - apply query_one_found in He. destruct He as [Hin Hsame].
    apply same_identity_key in Hsame.
    injection Hsame as Hpn Hrev.
    exists (p_id e), false. split; [exact Hres|]. rewrite Hd.
    split; [|split].
    + split; [intros _; exists e; auto | reflexivity].
    + destruct (truthy desc).
      * exists (set_p_updated_at (Some now) (set_p_part_description desc e)).
        split; [|auto].
        unfold update_parts. cbn [parts with_parts sql_update rows].
        apply in_map_iff. exists e. rewrite Z.eqb_refl. auto.
      * exists e. auto.
    + intros Hnd.
      assert (Hold : forall q, In q (rows (parts d)) -> p_id q = p_id e ->
                               p_part_number q = pn /\
                               p_part_revision q = or_else rev "").
      { intros q Hq Hid.
        rewrite (NoDup_map_same p_id (rows (parts d)) q e Hnd Hq Hin Hid).
        auto. }
      destruct (truthy desc); [|split; [assumption|split; auto]].
      unfold update_parts. cbn [parts with_parts sql_update rows].
      split; [|split].
      * now rewrite map_update_key by reflexivity.
      * intros q Hq Hid. apply in_map_iff in Hq.
        destruct Hq as (q0 & Hq0 & Hin0).
        destruct (p_id q0 =? p_id e) eqn:Hc; subst q.
        -- apply (Hold q0 Hin0). exact Hid.
        -- apply (Hold q0 Hin0 Hid).
      * intros q Hq Hother. apply in_map_iff. exists q. split; [|assumption].
        destruct (p_id q =? p_id e) eqn:Hc; [|reflexivity].
        apply Z.eqb_eq in Hc. destruct (Hold q Hq Hc) as [H1 H2].
        destruct Hother; contradiction.
  - pose proof (query_one_none _ _ He) as Hnone.
    exists (next_rowid p_id (parts d)), true. split; [exact Hres|]. rewrite Hd.
    cbn [parts with_parts rows]. split; [|split].
    + split; [discriminate|]. intros (p & Hin & Hpn & Hrev). exfalso.
      assert (Hex : existsb (same_identity pn (or_else rev "")) (rows (parts d))
                    = true).
      { apply existsb_exists. exists p. split; [assumption|].
        apply same_identity_key. now rewrite Hpn, Hrev. }
      congruence.
    + eexists. split; [apply in_or_app; right; left; reflexivity|].
      repeat split.
    + intros Hnd. split; [|split].
      * rewrite map_app. cbn [map p_id].
        apply NoDup_app; [assumption | repeat constructor; auto |].
        intros k Hk [<-|[]]. apply in_map_iff in Hk.
        destruct Hk as (p & Hid & Hin).
        pose proof (next_rowid_fresh p_id (parts d) p Hin). lia.
      * intros q Hq Hid. apply in_app_or in Hq. destruct Hq as [Hq|[<-|[]]].
        -- pose proof (next_rowid_fresh p_id (parts d) q Hq). lia.
        -- split; reflexivity.
      * intros q Hq _. apply in_or_app. now left.
Qed.

(** C7. Resolving a part number first with the empty revision and then
    with no revision answers the same part id both times; the second call
    did not create a part, and a non-empty description given to it is the
    description stored under that id afterwards.  The lookup is exact on
    the part number and the normalized revision: the first call finds a
    part exactly when a row of the table carries that number and the empty
    revision, and the id answered is the id of a row that carries them.
    Where [id] is the primary key of the table, the row stored under the
    id answered carries that number and the empty revision, no row of
    another number or revision has that id, and every row of another number
    or revision is in the table afterwards as it was before. *)
Theorem get_or_create_part_none_is_empty
    (now1 now2 : timestamp) (part_number : string)
    (description1 description2 : option string) (d : db) :
  let first := get_or_create_part now1 part_number (Some "") description1 in
  let second := get_or_create_part now2 part_number None description2 in
  exists part_id was_created,
    result_of first d = inr (part_id, was_created) /\
    result_of second (db_after first d) = inr (part_id, false) /\
    (truthy description2 = true ->
     exists p,
       part_by_id (db_after second (db_after first d)) part_id = Some p /\
       p_part_description p = description2) /\
    (was_created = false <->
       exists p, In p (rows (parts d)) /\
                 p_part_number p = part_number /\ p_part_revision p = "") /\
    (exists p,
       In p (rows (parts (db_after second (db_after first d)))) /\
       p_id p = part_id /\
       p_part_number p = part_number /\ p_part_revision p = "") /\
    (NoDup (map p_id (rows (parts d))) ->
       (exists p,
          part_by_id (db_after second (db_after first d)) part_id = Some p /\
          p_part_number p = part_number /\ p_part_revision p = "") /\
       (forall q, In q (rows (parts (db_after second (db_after first d)))) ->
                  p_id q = part_id ->
                  p_part_number q = part_number /\ p_part_revision q = "") /\
       (forall q, In q (rows (parts d)) ->
                  p_part_number q <> part_number \/ p_part_revision q <> "" ->
                  In q (rows (parts (db_after second (db_after first d)))))).
Proof.
  intros first second.
  destruct (get_or_create_part_resolves now1 part_number (Some "")
              description1 d) as (part_id & was_created & p & Hres & Hfound & Hid).
  fold first in Hres, Hfound.
  rewrite or_else_empty_none in Hfound.
  destruct (get_or_create_part_existing now2 part_number None description2
              (db_after first d) p Hfound) as [Hres2 Hdesc].
  fold second in Hres2, Hdesc. rewrite Hid in Hres2, Hdesc.
  destruct (get_or_create_part_exact now1 part_number (Some "") description1 d)
    as (id1 & created1 & Hr1 & Hhit1 & _ & Hkey1).
  fold first in Hr1, Hkey1.
  assert (E1 : (id1, created1) = (part_id, was_created)) by congruence.
  injection E1 as -> ->.
  destruct (get_or_create_part_exact now2 part_number None description2
              (db_after first d))
    as (id2 & created2 & Hr2 & _ & Hrow2 & Hkey2).
  fold second in Hr2, Hrow2, Hkey2.
  assert (E2 : (id2, created2) = (part_id, false)) by congruence.
  injection E2 as -> ->.
  change (or_else (Some "") "") with "" in Hhit1, Hkey1.
  change (or_else None "") with "" in Hrow2, Hkey2.
  exists part_id, was_created.
  split; [exact Hres|]. split; [exact Hres2|]. split; [exact Hdesc|].
  split; [exact Hhit1|]. split; [exact Hrow2|].
  intros Hnd. destruct (Hkey1 Hnd) as (Hnd1 & _ & Hkeep1).
  destruct (Hkey2 Hnd1) as (_ & Honly2 & Hkeep2).
  split; [|split].
  - destruct Hrow2 as (p2 & Hin2 & Hid2 & _).
    destruct (query_one_exists (fun q => p_id q =? part_id)
                (parts (db_after second (db_after first d))) p2 Hin2)
      as [q Hq]; [now apply Z.eqb_eq|].
    exists q. split; [exact Hq|].
    apply query_one_found in Hq. destruct Hq as [Hinq Hidq].
    apply Z.eqb_eq in Hidq. exact (Honly2 q Hinq Hidq).
  - exact Honly2.
  - intros q Hq Hother. apply Hkeep2; [|exact Hother].
    apply Hkeep1; assumption.
Qed.

(** The table holds revision B of the part; resolving the part without a
    revision does not answer the id of revision B. *)
Lemma get_or_create_part_none_is_empty_witness :
  exists part_id was_created,
    result_of (get_or_create_part "2024-05-21 09:00:00" "X-1" (Some "") (Some "d"))
      db_revision_b = inr (part_id, was_created) /\
    result_of (get_or_create_part "2024-05-21 09:05:00" "X-1" None (Some "d2"))
      (db_after (get_or_create_part "2024-05-21 09:00:00" "X-1" (Some "") (Some "d"))
         db_revision_b) = inr (part_id, false) /\
    (exists p,
       part_by_id
         (db_after (get_or_create_part "2024-05-21 09:05:00" "X-1" None (Some "d2"))
            (db_after
               (get_or_create_part "2024-05-21 09:00:00" "X-1" (Some "") (Some "d"))
               db_revision_b)) part_id = Some p /\
       p_part_description p = Some "d2") /\
    (exists p,
       part_by_id
         (db_after (get_or_create_part "2024-05-21 09:05:00" "X-1" None (Some "d2"))
            (db_after
               (get_or_create_part "2024-05-21 09:00:00" "X-1" (Some "") (Some "d"))
               db_revision_b)) part_id = Some p /\
       p_part_number p = "X-1" /\ p_part_revision p = "") /\
    In part_revision_b
       (rows (parts
         (db_after (get_or_create_part "2024-05-21 09:05:00" "X-1" None (Some "d2"))
            (db_after
               (get_or_create_part "2024-05-21 09:00:00" "X-1" (Some "") (Some "d"))
               db_revision_b)))).
Proof.
  destruct (get_or_create_part_none_is_empty "2024-05-21 09:00:00"
              "2024-05-21 09:05:00" "X-1" (Some "d") (Some "d2") db_revision_b)
    as (part_id & was_created & H1 & H2 & H3 & _ & _ & H6).
  assert (Hnd : NoDup (map p_id (rows (parts db_revision_b))))
    by (repeat constructor; simpl; tauto).
  destruct (H6 Hnd) as (Hrow & _ & Hkeep).
  exists part_id, was_created. split; [exact H1|]. split; [exact H2|].
  split; [apply H3; reflexivity|]. split; [exact Hrow|].
  apply Hkeep; [left; reflexivity | right; discriminate].
Defined.

(** ** Exit control *)

Lemma exit_control_by_id_update d ec_id c set :
  (forall e, ecr_id (set e) = ecr_id e) ->
  exit_control_by_id (update_exit_controls c set d) ec_id =
  option_map (fun e => if c e then set e else e) (exit_control_by_id d ec_id).
Proof.
  intros Hid. unfold exit_control_by_id, update_exit_controls. simpl.
  apply query_one_update. intros e. now rewrite Hid.
Qed.

Lemma exit_control_by_id_key d ec_id e :
  exit_control_by_id d ec_id = Some e -> ecr_id e = ec_id.
Proof.
  intros H. apply query_one_found in H. destruct H as [_ H].
  now apply Z.eqb_eq.
Qed.

Lemma exit_control_record_sample_run now ec_id sample_id form d sample ec :
  query_one (fun s => (s_id s =? sample_id) && (s_exit_control_id s =? ec_id))
    (exit_control_samples d) = Some sample ->
  exit_control_by_id d ec_id = Some ec ->
  exists category,
    exit_control_record_sample now ec_id sample_id form d =
    (inr (flash_redirect category "exit_control_detail" (Some ec_id)),
     after_record_sample now ec_id sample_id form (ecr_job_id ec) d).
Proof.
  intros Hs He. eexists.
  unfold exit_control_record_sample, after_record_sample, bind, query.
  rewrite Hs. rewrite execute_ok by reflexivity.
  fold (recorded_sample now form).
  set (d1 := update_exit_control_samples (fun s => s_id s =? sample_id)
               (recorded_sample now form) d).
  fold (all_inspected ec_id d1). fold (all_passed ec_id d1).
  destruct (all_inspected ec_id d1); [|reflexivity].
  rewrite execute_ok by reflexivity.
  destruct (all_passed ec_id d1); [|reflexivity].
  set (d2 := update_exit_controls _ _ d1).
  fold (exit_control_by_id d2 ec_id).
  assert (He2 : exit_control_by_id d2 ec_id =
                Some (set_ecr_overall_status "passed" ec)).
  { unfold d2. rewrite exit_control_by_id_update by reflexivity.
    change (exit_control_by_id d1 ec_id) with (exit_control_by_id d ec_id).
    rewrite He. cbn [option_map].
    rewrite (exit_control_by_id_key _ _ _ He), Z.eqb_refl. reflexivity. }
  rewrite He2. rewrite execute_ok by reflexivity. reflexivity.
Qed.

Lemma all_three_checkbox a b c :
  all_three (checkbox a) (checkbox b) (checkbox c) =
  if truthy a && truthy b && truthy c then 1 else 0.
Proof.
  unfold all_three, checkbox.
  destruct (truthy a), (truthy b), (truthy c); reflexivity.
Qed.

Lemma after_record_sample_samples now ec_id sample_id form job_id d :
  exit_control_samples (after_record_sample now ec_id sample_id form job_id d) =
  sql_update (fun s => s_id s =? sample_id) (recorded_sample now form)
    (exit_control_samples d).
Proof.
  unfold after_record_sample.
  destruct (all_inspected ec_id _); [|reflexivity].
  destruct (all_passed ec_id _); reflexivity.
Qed.

Lemma after_record_sample_verdicts now ec_id sample_id form job_id d :
  all_inspected ec_id (after_record_sample now ec_id sample_id form job_id d) =
  all_inspected ec_id
    (update_exit_control_samples (fun s => s_id s =? sample_id)
       (recorded_sample now form) d) /\
  all_passed ec_id (after_record_sample now ec_id sample_id form job_id d) =
  all_passed ec_id
    (update_exit_control_samples (fun s => s_id s =? sample_id)
       (recorded_sample now form) d).
Proof.
  unfold all_inspected, all_passed, samples_of.
  rewrite after_record_sample_samples. split; reflexivity.
Qed.

(** C4. Recording a sample of an exit control stores, as the sample's
    [overall_pass], the conjunction of the three checks.  Afterwards, when
    every sample of the lot has a verdict, the lot is [passed] if all of
    them passed and [failed] otherwise; a passed lot completes the parent
    job, stamping [completed_at], exactly when the job is in stage
    [exit_control], and leaves a job in any other stage as it was.  When a
    sample is still without a verdict, or the lot failed, no job changes,
    and in the first case the exit control is not written either. *)
Theorem exit_control_record_sample_verdict
    (now : timestamp) (ec_id sample_id : Z) (form : sample_form)
    (d : db) (sample : exit_control_sample_row) (ec : exit_control_row) :
  query_one (fun s => (s_id s =? sample_id) && (s_exit_control_id s =? ec_id))
    (exit_control_samples d) = Some sample ->
  exit_control_by_id d ec_id = Some ec ->
  let d' := db_after (exit_control_record_sample now ec_id sample_id form) d in
  (exists s',
     sample_by_id d' sample_id = Some s' /\
     s_overall_pass s' =
       Some (if truthy (f_dimensions_ok form) && truthy (f_visual_ok form)
                && truthy (f_surface_ok form) then 1 else 0)) /\
  (all_inspected ec_id d' = true ->
   exists ec',
     exit_control_by_id d' ec_id = Some ec' /\
     ecr_overall_status ec' =
       if all_passed ec_id d' then "passed" else "failed") /\
  (all_inspected ec_id d' = true -> all_passed ec_id d' = true ->
   forall j, job_by_id d (ecr_job_id ec) = Some j ->
     (j_workflow_stage j = "exit_control" ->
      exists j',
        job_by_id d' (ecr_job_id ec) = Some j' /\
        j_workflow_stage j' = "complete" /\
        j_completed_at j' = Some now) /\
     (j_workflow_stage j <> "exit_control" ->
      job_by_id d' (ecr_job_id ec) = Some j)) /\
  (all_inspected ec_id d' = false \/ all_passed ec_id d' = false ->
   jobs d' = jobs d) /\
  (all_inspected ec_id d' = false -> exit_controls d' = exit_controls d).
Proof.
  intros Hs He d'.
  destruct (exit_control_record_sample_run now ec_id sample_id form d sample ec
              Hs He) as [category Hrun].
  assert (Hd : d' = after_record_sample now ec_id sample_id form (ecr_job_id ec) d).
  { unfold d', db_after. rewrite Hrun. reflexivity. }
  clearbody d'. subst d'.
  destruct (after_record_sample_verdicts now ec_id sample_id form (ecr_job_id ec) d)
    as [Hi Hp].
  rewrite Hi, Hp.
  set (d1 := update_exit_control_samples (fun s => s_id s =? sample_id)
               (recorded_sample now form) d).
  split; [|split; [|split; [|split]]].
  - unfold sample_by_id. rewrite after_record_sample_samples.
    rewrite query_one_update by reflexivity.
    apply query_one_found in Hs. destruct Hs as [Hin Hw].
    apply andb_true_iff in Hw. destruct Hw as [Hw _].
    destruct (query_one_exists (fun s => s_id s =? sample_id)
                (exit_control_samples d) sample Hin Hw) as [q Hq].
    rewrite Hq. cbn [option_map].
    pose proof (query_one_found _ _ _ Hq) as [_ Hqid]. rewrite Hqid.
    eexists. split; [reflexivity|].
    unfold recorded_sample. cbn [s_overall_pass set_s_inspected_at set_s_notes
                                 set_s_overall_pass].
    now rewrite all_three_checkbox.
  - intros Hall. unfold after_record_sample. fold d1. rewrite Hall.
    exists (set_ecr_overall_status
              (if all_passed ec_id d1 then "passed" else "failed") ec).
    split; [|reflexivity].
    assert (Hup : forall d2 c f,
               exit_control_by_id (update_jobs c f d2) ec_id =
               exit_control_by_id d2 ec_id) by reflexivity.
    destruct (all_passed ec_id d1); [rewrite Hup|];
      rewrite exit_control_by_id_update by reflexivity;
      change (exit_control_by_id d1 ec_id) with (exit_control_by_id d ec_id);
      rewrite He; cbn [option_map];
      rewrite (exit_control_by_id_key _ _ _ He), Z.eqb_refl; reflexivity.
  - intros Hall Hpass j Hj. unfold after_record_sample. fold d1.
    rewrite Hall, Hpass.
    rewrite job_by_id_update by reflexivity.
    change (job_by_id (update_exit_controls _ _ d1) (ecr_job_id ec))
      with (job_by_id d (ecr_job_id ec)).
    rewrite Hj. cbn [option_map].
    rewrite (job_by_id_key _ _ _ Hj), Z.eqb_refl. cbn [andb].
    split.
    + intros Hstage. rewrite Hstage. cbn.
      eexists. split; [reflexivity|]. split; reflexivity.
    + intros Hstage. apply String.eqb_neq in Hstage. rewrite Hstage.
      reflexivity.
  - intros Hno. unfold after_record_sample. fold d1.
    destruct (all_inspected ec_id d1); [|reflexivity].
    destruct (all_passed ec_id d1); [|reflexivity].
    destruct Hno; discriminate.
  - intros Hno. unfold after_record_sample. fold d1. rewrite Hno. reflexivity.
Qed.

Lemma exit_control_record_sample_verdict_witness :
  (exists j',
     job_by_id
       (db_after (exit_control_record_sample "2024-05-21 09:00:00" 5 12 form_all_ok)
          (db_exit_control "exit_control" None)) 7 = Some j' /\
     j_workflow_stage j' = "complete" /\
     j_completed_at j' = Some "2024-05-21 09:00:00") /\
  jobs (db_after
          (exit_control_record_sample "2024-05-21 09:00:00" 5 12 form_visual_fail)
          (db_exit_control "exit_control" None)) =
  jobs (db_exit_control "exit_control" None).
Proof.
  split.
  - destruct (exit_control_record_sample_verdict "2024-05-21 09:00:00" 5 12
                form_all_ok (db_exit_control "exit_control" None)
                (sample_row 12 2 None) exit_control_5 eq_refl eq_refl)
      as (_ & _ & Hjob & _).
    destruct (Hjob eq_refl eq_refl (bracket_job "exit_control" None) eq_refl)
      as [Hdone _].
    apply Hdone. reflexivity.
  - destruct (exit_control_record_sample_verdict "2024-05-21 09:00:00" 5 12
                form_visual_fail (db_exit_control "exit_control" None)
                (sample_row 12 2 None) exit_control_5 eq_refl eq_refl)
      as (_ & _ & _ & Hsame & _).
    apply Hsame. right. reflexivity.
Defined.

(** *** Manual completion *)

Lemma forallb_false_filter {A} (f : A -> bool) (l : list A) :
  forallb f l = false -> filter (fun x => negb (f x)) l <> [].
Proof.
  induction l as [|x l IH]; simpl; [discriminate|].
  destruct (f x); simpl; [exact IH | discriminate].
Qed.

Lemma forallb_true_filter {A} (f : A -> bool) (l : list A) :
  forallb f l = true -> filter (fun x => negb (f x)) l = [].
Proof.
  induction l as [|x l IH]; simpl; [reflexivity|].
  destruct (f x); simpl; [exact IH | discriminate].
Qed.

(** Manual completion with a sample still unrecorded: an error, and the
    database is not written. *)
Lemma exit_control_complete_incomplete current_user now ec_id d ec :
  exit_control_by_id d ec_id = Some ec ->
  all_inspected ec_id d = false ->
  exit_control_complete current_user now ec_id d =
  (inr (flash_redirect "error" "exit_control_detail" (Some ec_id)), d).
Proof.
  intros He Hno. unfold exit_control_complete, bind, query.
  fold (exit_control_by_id d ec_id). rewrite He.
  apply forallb_false_filter in Hno.
  destruct (filter _ (samples_of ec_id d)); [contradiction | reflexivity].
Qed.

(** Manual completion of a lot whose samples all passed completes the
    parent job whatever its stage. *)
Lemma exit_control_complete_passed current_user now ec_id d ec j :
  exit_control_by_id d ec_id = Some ec ->
  all_inspected ec_id d = true ->
  all_passed ec_id d = true ->
  job_by_id d (ecr_job_id ec) = Some j ->
  job_by_id (db_after (exit_control_complete current_user now ec_id) d)
    (ecr_job_id ec) = Some (completed_job now j).
Proof.
  intros He Hall Hpass Hj.
  unfold db_after, exit_control_complete, bind, query.
  fold (exit_control_by_id d ec_id). rewrite He.
  rewrite (forallb_true_filter _ _ Hall).
  fold (all_passed ec_id d). rewrite Hpass.
  rewrite !execute_ok by reflexivity. unfold ret.
  rewrite log_audit_run. cbn [snd].
  rewrite job_by_id_with_audit_logs.
  rewrite job_by_id_update by reflexivity.
  change (job_by_id (update_exit_controls _ _ d) (ecr_job_id ec))
    with (job_by_id d (ecr_job_id ec)).
  rewrite Hj. cbn [option_map].
  rewrite (job_by_id_key _ _ _ Hj), Z.eqb_refl. reflexivity.
Qed.

(** C5, evaluated.  With a sample still unrecorded the manual completion
    answers an error and changes nothing.  With every sample passed it
    completes the parent job although the job has been moved on to
    [in_process]; recording the last passing sample on the same database
    leaves that job as it is. *)
Theorem exit_control_complete_ignores_stage :
  exit_control_complete 2 "2024-05-21 09:00:00" 5
    (db_exit_control "exit_control" None) =
    (inr (flash_redirect "error" "exit_control_detail" (Some 5)),
     db_exit_control "exit_control" None) /\
  job_by_id (db_exit_control "in_process" (Some 1)) 7 =
    Some (bracket_job "in_process" None) /\
  job_by_id
    (db_after (exit_control_complete 2 "2024-05-21 09:00:00" 5)
       (db_exit_control "in_process" (Some 1))) 7 =
    Some (bracket_job "complete" (Some "2024-05-21 09:00:00")) /\
  job_by_id
    (db_after (exit_control_record_sample "2024-05-21 09:00:00" 5 12 form_all_ok)
       (db_exit_control "in_process" (Some 1))) 7 =
    Some (bracket_job "in_process" None).
Proof. repeat split. Qed.

(** ** Supplier error reports *)

Lemma with_notifications_same d : with_notifications d (notifications d) = d.
Proof. destruct d; reflexivity. Qed.

(** The notification loop only appends to [notifications]. *)
Lemma for_each_notify now title message error_id us :
  forall d, exists t,
    for_each us (fun u =>
      create_notification now (u_id u) "error_report" title message
        (Some "error_report") (Some error_id)) d =
    (inr tt, with_notifications d t).
Proof.
  induction us as [|u us IH]; intros d.
  - exists (notifications d). now rewrite with_notifications_same.
  - cbn [for_each]. unfold bind at 1.
    assert (Hc : exists t1,
               create_notification now (u_id u) "error_report" title message
                 (Some "error_report") (Some error_id) d =
               (inr tt, with_notifications d t1)) by (eexists; reflexivity).
    destruct Hc as [t1 ->].
    destruct (IH (with_notifications d t1)) as [t ->].
    exists t. reflexivity.
Qed.

Lemma notify_quality_users_run now j what severity error_id d :
  exists t,
    notify_quality_users now (Some j) what severity error_id d =
    (inr tt, with_notifications d t).
Proof.
  unfold notify_quality_users, get_quality_notification_users, bind, query, ret.
  apply for_each_notify.
Qed.

Lemma joined_job_exists d job_id :
  existsb (fun j => j_id j =? job_id) (rows (jobs d)) = true ->
  exists j, job_by_id d job_id = Some j.
Proof.
  intros H. apply existsb_exists in H. destruct H as (j & Hin & Hid).
  exact (query_one_exists _ (jobs d) j Hin Hid).
Qed.

(** A report against a material control that is not yet rejected: the
    status update is refused and the table of material controls is as
    before. *)
Lemma material_error_report_raises current_user now mc_id form d mc
    severity description :
  query_one (fun m => (mcr_id m =? mc_id)
                      && existsb (fun j => j_id j =? mcr_job_id m) (rows (jobs d)))
    (material_controls d) = Some mc ->
  f_severity form = Some severity ->
  f_description form = Some description ->
  mcr_status mc <> "rejected" ->
  result_of (material_error_report current_user now "POST" mc_id form) d =
    inl no_such_column /\
  material_controls
    (db_after (material_error_report current_user now "POST" mc_id form) d) =
    material_controls d.
Proof.
  intros Hmc Hsev Hdesc Hst.
  pose proof (query_one_found _ _ _ Hmc) as [_ Hw].
  apply andb_true_iff in Hw. destruct Hw as [_ Hjoin].
  destruct (joined_job_exists d _ Hjoin) as [j Hj].
  apply String.eqb_neq in Hst.
  unfold result_of, db_after, material_error_report, bind, query.
  rewrite Hmc, Hsev, Hdesc. cbn [String.eqb Ascii.eqb Bool.eqb form_get_required ret].
  unfold insert_supplier_error_report, execute_insert.
  replace (has_columns error_reports_columns _) with true by reflexivity.
  cbn [sql_insert].
  set (d1 := with_error_reports d _).
  change (query_one (fun j0 => j_id j0 =? mcr_job_id mc) (jobs d1))
    with (job_by_id d (mcr_job_id mc)).
  rewrite Hj.
  destruct (notify_quality_users_run now j "Material supplier" severity
              (next_rowid er_id (error_reports d)) d1) as [t ->].
  rewrite Hst. cbn [negb]. unfold execute.
  replace (has_columns material_controls_columns _) with false by reflexivity.
  split; reflexivity.
Qed.

(** The same report against an external process that is not yet rejected
    succeeds and rejects it. *)
Lemma external_error_report_rejects current_user now ep_id form d ep
    severity description :
  query_one (fun p => (epr_id p =? ep_id)
                      && existsb (fun j => j_id j =? epr_job_id p) (rows (jobs d)))
    (external_processes d) = Some ep ->
  f_severity form = Some severity ->
  f_description form = Some description ->
  epr_status ep <> "rejected" ->
  exists error_id p,
    result_of (external_error_report current_user now "POST" ep_id form) d =
      inr (flash_redirect "success" "error_report_detail" (Some error_id)) /\
    external_process_by_id
      (db_after (external_error_report current_user now "POST" ep_id form) d)
      ep_id = Some p /\
    epr_status p = "rejected".
Proof.
  intros Hep Hsev Hdesc Hst.
  pose proof (query_one_found _ _ _ Hep) as [Hin Hw].
  apply andb_true_iff in Hw. destruct Hw as [Hid Hjoin].
  destruct (joined_job_exists d _ Hjoin) as [j Hj].
  destruct (query_one_exists (fun p => epr_id p =? ep_id) (external_processes d)
              ep Hin Hid) as [q Hq].
  pose proof (query_one_found _ _ _ Hq) as [_ Hqid].
  apply String.eqb_neq in Hst.
  unfold result_of, db_after, external_error_report, bind, query.
  rewrite Hep, Hsev, Hdesc. cbn [String.eqb Ascii.eqb Bool.eqb form_get_required ret].
  unfold insert_supplier_error_report, execute_insert.
  replace (has_columns error_reports_columns _) with true by reflexivity.
  cbn [sql_insert].
  set (d1 := with_error_reports d _).
  change (query_one (fun j0 => j_id j0 =? epr_job_id ep) (jobs d1))
    with (job_by_id d (epr_job_id ep)).
  rewrite Hj.
  destruct (notify_quality_users_run now j "External process supplier" severity
              (next_rowid er_id (error_reports d)) d1) as [t ->].
  rewrite Hst. cbn [negb]. rewrite execute_ok by reflexivity.
  rewrite log_audit_run. unfold ret. cbn [fst snd].
  eexists. eexists. split; [reflexivity|].
  unfold external_process_by_id, update_external_processes.
  cbn [external_processes with_audit_logs with_external_processes].
  rewrite query_one_update by reflexivity.
  change (external_processes (with_notifications d1 t))
    with (external_processes d).
  rewrite Hq. cbn [option_map]. rewrite Hqid. split; reflexivity.
Qed.

(** C6, evaluated.  A report against the pending material control 3 is
    stored as an open [material_supplier] report with the supplier of the
    material control, but the status update names the column [updated_at],
    which [material_controls] does not have: the handler is left by an
    [OperationalError] and the material control stays [pending].  The same
    request against external process 9 sets it to [rejected]. *)
Theorem material_error_report_status_not_rejected :
  has_columns material_controls_columns ["status"; "updated_at"; "id"] = false /\
  result_of (material_error_report 2 "2024-05-21 09:00:00" "POST" 3 major_error_form)
    (db_supplier "pending" "received") = inl no_such_column /\
  option_map mcr_status
    (material_control_by_id
       (db_after
          (material_error_report 2 "2024-05-21 09:00:00" "POST" 3 major_error_form)
          (db_supplier "pending" "received")) 3) = Some "pending" /\
  option_map (fun r => (er_error_type r, er_status r, er_supplier_id r,
                        er_material_control_id r))
    (error_report_by_id
       (db_after
          (material_error_report 2 "2024-05-21 09:00:00" "POST" 3 major_error_form)
          (db_supplier "pending" "received")) 1) =
    Some (Some "material_supplier", "open", Some 1, Some 3) /\
  result_of (external_error_report 2 "2024-05-21 09:00:00" "POST" 9 major_error_form)
    (db_supplier "pending" "received") =
    inr (flash_redirect "success" "error_report_detail" (Some 1)) /\
  option_map epr_status
    (external_process_by_id
       (db_after
          (external_error_report 2 "2024-05-21 09:00:00" "POST" 9 major_error_form)
          (db_supplier "pending" "received")) 9) = Some "rejected".
Proof. repeat split. Qed.

(** * More of [app.py]: theorems *)

(** ** The sampling plan as a list *)

Lemma sorted_map_seq (f : nat -> Z) a k :
  (forall i j, (i < j)%nat -> f i < f j) ->
  StronglySorted Z.lt (map f (seq a k)).
Proof.
  intros Hf. revert a. induction k as [|k IH]; intros a; simpl.
  - constructor.
  - constructor; [apply IH|].
    apply Forall_forall. intros y Hy.
    apply in_map_iff in Hy. destruct Hy as (j & <- & Hj).
    apply in_seq in Hj. apply Hf. lia.
Qed.

Lemma sorted_app (l1 l2 : list Z) :
  StronglySorted Z.lt l1 -> StronglySorted Z.lt l2 ->
  (forall x y, In x l1 -> In y l2 -> x < y) ->
  StronglySorted Z.lt (l1 ++ l2).
Proof.
  intros H1 H2 Hlt. induction H1 as [|x l1 Hs IH Hx]; simpl; [assumption|].
  constructor.
  - apply IH. intros a b Ha Hb. apply Hlt; [now right | assumption].
  - apply Forall_app. split; [assumption|].
    apply Forall_forall. intros y Hy. apply Hlt; [now left | assumption].
Qed.

Lemma sorted_lt_NoDup (l : list Z) : StronglySorted Z.lt l -> NoDup l.
Proof.
  induction 1 as [|x l Hs IH Hx]; constructor; [|assumption].
  intros Hin. rewrite Forall_forall in Hx. specialize (Hx x Hin). lia.
Qed.

Lemma calculate_exit_control_samples_nonpositive n :
  n <= 0 -> calculate_exit_control_samples n = [].
Proof.
  intros Hn. unfold calculate_exit_control_samples.
  rewrite append_each_app. unfold range.
  replace (Z.to_nat (Z.min 6 (n + 1) - 1)) with 0%nat by lia.
  destruct (Z.ltb_spec 5 n); [lia | reflexivity].
Qed.

Lemma computeSamplePositions_sorted n :
  StronglySorted Z.lt (computeSamplePositions n).
Proof.
  unfold computeSamplePositions. apply sorted_app.
  - unfold first_positions. apply sorted_map_seq. intros i j Hij. lia.
  - destruct (5 <? n); [|constructor].
    unfold every_tenth_from_15. apply sorted_map_seq. intros i j Hij. lia.
  - intros x y Hx Hy. apply in_first_positions in Hx.
    destruct (5 <? n); [|contradiction].
    apply in_every_tenth_from_15 in Hy. lia.
Qed.

(** X1. Whatever the lot quantity, the sampling plan is strictly
    increasing, so no unit is sampled twice, and every sampled position is
    a unit of the lot; a lot of no units or fewer has an empty plan. *)
Theorem calculate_exit_control_samples_well_formed (n : Z) :
  StronglySorted Z.lt (calculate_exit_control_samples n) /\
  NoDup (calculate_exit_control_samples n) /\
  (forall p, In p (calculate_exit_control_samples n) -> 1 <= p <= n) /\
  (n <= 0 -> calculate_exit_control_samples n = []).
Proof.
  assert (Hs : StronglySorted Z.lt (calculate_exit_control_samples n)).
  { destruct (Z.lt_ge_cases 0 n) as [Hpos|Hneg].
    - rewrite calculate_exit_control_samples_plan by assumption.
      apply computeSamplePositions_sorted.
    - rewrite calculate_exit_control_samples_nonpositive by assumption.
      constructor. }
  split; [exact Hs|]. split; [now apply sorted_lt_NoDup|]. split.
  - intros p Hp. destruct (Z.lt_ge_cases 0 n) as [Hpos|Hneg].
    + rewrite calculate_exit_control_samples_plan in Hp by assumption.
      unfold computeSamplePositions in Hp. apply in_app_iff in Hp.
      destruct Hp as [Hp|Hp].
      * apply in_first_positions in Hp. lia.
      * destruct (5 <? n); [|contradiction].
        apply in_every_tenth_from_15 in Hp. lia.
    + rewrite calculate_exit_control_samples_nonpositive in Hp by assumption.
      contradiction.
  - apply calculate_exit_control_samples_nonpositive.
Qed.

Lemma calculate_exit_control_samples_well_formed_witness :
  calculate_exit_control_samples (-3) = [] /\
  NoDup (calculate_exit_control_samples 47).
Proof.
  split.
  - apply (calculate_exit_control_samples_well_formed (-3)). lia.
  - apply (calculate_exit_control_samples_well_formed 47).
Defined.

(** X2. A positive lot of [n] units gets [min(5, n)] samples, plus one for
    every full ten units beyond the fifth; that is never more than [n]. *)
Theorem calculate_exit_control_samples_length (n : Z) :
  0 < n ->
  Z.of_nat (List.length (calculate_exit_control_samples n)) =
    Z.min 5 n + (if 5 <? n then (n - 5) / 10 else 0) /\
  Z.of_nat (List.length (calculate_exit_control_samples n)) <= n.
Proof.
  intros Hn.
  assert (Hlen : Z.of_nat (List.length (calculate_exit_control_samples n)) =
                 Z.min 5 n + (if 5 <? n then (n - 5) / 10 else 0)).
  { rewrite calculate_exit_control_samples_plan by assumption.
    unfold computeSamplePositions, first_positions, every_tenth_from_15.
    rewrite length_app, length_map, length_seq.
    destruct (Z.ltb_spec 5 n) as [Hgt|Hle].
    - rewrite length_map, length_seq.
      assert (0 <= (n - 5) / 10) by (apply Z.div_pos; lia). lia.
    - simpl. lia. }
  split; [exact Hlen|]. rewrite Hlen.
  destruct (Z.ltb_spec 5 n) as [Hgt|Hle]; [|lia].
  assert ((n - 5) / 10 <= n - 5) by (apply Z.div_le_upper_bound; lia).
  lia.
Qed.

Lemma calculate_exit_control_samples_length_witness :
  Z.of_nat (List.length (calculate_exit_control_samples 47)) = 5 + 4.
Proof.
  apply (calculate_exit_control_samples_length 47). lia.
Defined.

(** ** Readings that are not numbers *)

Lemma SFeqb_refl x : x <> S754_nan -> SFeqb x x = true.
Proof.
  unfold SFeqb, SFcompare. intros Hx.
  destruct x as [zx|ix| |sx mx ex].
  - reflexivity.
  - destruct ix; reflexivity.
  - congruence.
  - destruct sx; rewrite Z.compare_refl, Pos.compare_cont_refl; reflexivity.
Qed.

Lemma is_nan_Prim2SF a : PrimFloat.is_nan a = true -> Prim2SF a = S754_nan.
Proof.
  unfold PrimFloat.is_nan. rewrite FloatAxioms.eqb_spec. intros H.
  destruct (Prim2SF a) as [zx|ix| |sx mx ex] eqn:E; try reflexivity;
    rewrite SFeqb_refl in H by discriminate; discriminate.
Qed.

Lemma nan_not_leb a x : PrimFloat.is_nan a = true -> PrimFloat.leb x a = false.
Proof.
  intros H. rewrite FloatAxioms.leb_spec, (is_nan_Prim2SF a H).
  unfold SFleb, SFcompare. destruct (Prim2SF x); reflexivity.
Qed.

Lemma nan_not_eqb a x : PrimFloat.is_nan a = true -> PrimFloat.eqb a x = false.
Proof.
  intros H. rewrite FloatAxioms.eqb_spec, (is_nan_Prim2SF a H). reflexivity.
Qed.

(** X3. A reading that is not a number ([float('nan')], which the
    measurement forms accept) fails a go/no-go dimension and every
    dimension with both tolerances, whatever the window; on a dimension
    with a tolerance missing it passes like any other reading. *)
Theorem calculate_pass_fail_nan (d : job_dimension) (a : float) :
  PrimFloat.is_nan a = true ->
  (d_unit d = Some "go/nogo" -> calculate_pass_fail d a = "fail") /\
  (d_unit d <> Some "go/nogo" ->
   d_tolerance_plus d <> None -> d_tolerance_minus d <> None ->
   calculate_pass_fail d a = "fail") /\
  (d_unit d <> Some "go/nogo" ->
   d_tolerance_plus d = None \/ d_tolerance_minus d = None ->
   calculate_pass_fail d a = "pass").
Proof.
  intros Hnan. split; [|split].
  - intros Hu. rewrite (calculate_pass_fail_gonogo d a Hu).
    now rewrite (nan_not_eqb a _ Hnan).
  - intros Hu Hp Hm.
    destruct (d_tolerance_plus d) as [tp|] eqn:Ep; [|congruence].
    destruct (d_tolerance_minus d) as [tm|] eqn:Em; [|congruence].
    rewrite (calculate_pass_fail_window d a tp tm Hu Ep Em).
    unfold within. now rewrite (nan_not_leb a _ Hnan).
  - intros Hu Hmiss. now apply calculate_pass_fail_missing.
Qed.

Lemma calculate_pass_fail_nan_witness :
  calculate_pass_fail shaft_diameter PrimFloat.nan = "fail" /\
  calculate_pass_fail thread_gauge PrimFloat.nan = "fail" /\
  calculate_pass_fail bore_plus_only PrimFloat.nan = "pass".
Proof.
  destruct (calculate_pass_fail_nan shaft_diameter PrimFloat.nan eq_refl)
    as (_ & Hwin & _).
  destruct (calculate_pass_fail_nan thread_gauge PrimFloat.nan eq_refl)
    as (Hgo & _ & _).
  destruct (calculate_pass_fail_nan bore_plus_only PrimFloat.nan eq_refl)
    as (_ & _ & Hmiss).
  split; [|split].
  - apply Hwin; discriminate.
  - apply Hgo. reflexivity.
  - apply Hmiss; [discriminate | right; reflexivity].
Defined.

(** ** The part registry keeps its table well formed *)

(** X4. [get_or_create_part] never raises, whatever the table holds.  It
    keeps the identities of the parts pairwise distinct, a part it creates
    gets an id no part had before, and every part with another id than the
    one answered is left in the table as it was. *)
Theorem get_or_create_part_keeps_registry
    (now : timestamp) (part_number : string)
    (part_revision part_description : option string) (d : db) :
  let call := get_or_create_part now part_number part_revision part_description in
  exists part_id was_created,
    result_of call d = inr (part_id, was_created) /\
    (identities_unique d -> identities_unique (db_after call d)) /\
    (was_created = true ->
     forall p, In p (rows (parts d)) -> p_id p <> part_id) /\
    (forall p, In p (rows (parts d)) -> p_id p <> part_id ->
               In p (rows (parts (db_after call d)))).
Proof.
  intros call.
  destruct (get_or_create_part_parts now part_number part_revision
              part_description d) as [(e & He & Hres & Hd)|(He & Hres & Hd)];
    fold call in Hres, Hd.
  - exists (p_id e), false. split; [exact Hres|]. rewrite Hd.
    split; [|split].
    + unfold identities_unique. destruct (truthy part_description); [|auto].
      unfold update_parts. cbn [parts with_parts sql_update rows].
      now rewrite map_update_key by reflexivity.
    + discriminate.
    + intros p Hin Hid. destruct (truthy part_description); [|assumption].
      unfold update_parts. cbn [parts with_parts sql_update rows].
      apply in_map_iff. exists p. split; [|assumption].
      apply Z.eqb_neq in Hid. now rewrite Hid.
  - exists (next_rowid p_id (parts d)), true. split; [exact Hres|].
    rewrite Hd. cbn [parts with_parts rows]. split; [|split].
    + unfold identities_unique. cbn [parts with_parts rows].
      intros Hu. rewrite map_app. cbn [map p_part_number p_part_revision].
      apply NoDup_app; [assumption | repeat constructor; auto |].
      intros k Hk [<-|[]].
      apply in_map_iff in Hk. destruct Hk as (p & Hkey & Hin).
      apply same_identity_key in Hkey.
      apply query_one_none in He.
      assert (Hex : existsb (same_identity part_number
                               (or_else part_revision "")) (rows (parts d)) = true)
        by (apply existsb_exists; eauto).
      congruence.
    + intros _ p Hin. pose proof (next_rowid_fresh p_id (parts d) p Hin). lia.
    + intros p Hin _. apply in_or_app. now left.
Qed.

(** X5. Resolving the same part twice answers the same id both times; the
    second call never creates, and the table has as many parts after it as
    before it. *)
Theorem get_or_create_part_idempotent
    (now1 now2 : timestamp) (part_number : string)
    (part_revision description1 description2 : option string) (d : db) :
  let first := get_or_create_part now1 part_number part_revision description1 in
  let second := get_or_create_part now2 part_number part_revision description2 in
  exists part_id was_created,
    result_of first d = inr (part_id, was_created) /\
    result_of second (db_after first d) = inr (part_id, false) /\
    List.length (rows (parts (db_after second (db_after first d)))) =
    List.length (rows (parts (db_after first d))).
Proof.
  intros first second.
  destruct (get_or_create_part_resolves now1 part_number part_revision
              description1 d) as (part_id & was_created & p & Hres & Hfound & Hid).
  fold first in Hres, Hfound.
  exists part_id, was_created. split; [exact Hres|].
  destruct (get_or_create_part_parts now2 part_number part_revision
              description2 (db_after first d))
    as [(e & He & Hres2 & Hd)|(He & _)]; [|congruence].
  fold second in Hres2, Hd.
  assert (e = p) by congruence. subst e. rewrite Hid in Hres2.
  split; [exact Hres2|]. rewrite Hd.
  destruct (truthy description2); [|reflexivity].
  unfold update_parts. cbn [parts with_parts sql_update rows].
  apply length_map.
Qed.

(** X6. A call that finds the part and brings no description, [None] or
    the empty string, reads only: the database after it is the database
    before it. *)
Theorem get_or_create_part_lookup_only
    (now : timestamp) (part_number : string)
    (part_revision part_description : option string) (d : db) (e : part_row) :
  query_one (same_identity part_number (or_else part_revision "")) (parts d)
    = Some e ->
  truthy part_description = false ->
  get_or_create_part now part_number part_revision part_description d =
  (inr (p_id e, false), d).
Proof.
  intros He Hd. unfold get_or_create_part, bind, query.
  rewrite He, Hd. reflexivity.
Qed.

Lemma get_or_create_part_lookup_only_witness :
  get_or_create_part "2024-05-21 09:00:00" "X-1" None (Some "")
    (db_after (get_or_create_part "2024-05-20 09:00:00" "X-1" (Some "") (Some "d"))
       empty_db) =
  (inr (1, false),
   db_after (get_or_create_part "2024-05-20 09:00:00" "X-1" (Some "") (Some "d"))
     empty_db).
Proof.
  apply (get_or_create_part_lookup_only "2024-05-21 09:00:00" "X-1" None
           (Some "")
           (db_after
              (get_or_create_part "2024-05-20 09:00:00" "X-1" (Some "") (Some "d"))
              empty_db)
           {| p_id := 1; p_part_number := "X-1"; p_part_revision := "";
              p_part_description := Some "d";
              p_created_at := Some "2024-05-20 09:00:00";
              p_updated_at := Some "2024-05-20 09:00:00" |});
    reflexivity.
Defined.

Lemma get_or_create_part_keeps_registry_witness :
  exists part_id was_created,
    result_of (get_or_create_part "2024-05-21 09:00:00" "X-1" (Some "B") None)
      empty_db = inr (part_id, was_created) /\
    identities_unique
      (db_after (get_or_create_part "2024-05-21 09:00:00" "X-1" (Some "B") None)
         empty_db).
Proof.
  destruct (get_or_create_part_keeps_registry "2024-05-21 09:00:00" "X-1"
              (Some "B") None empty_db)
    as (part_id & was_created & Hres & Huniq & _).
  exists part_id, was_created. split; [exact Hres|].
  apply Huniq. constructor.
Defined.

Lemma get_or_create_part_idempotent_witness :
  exists part_id was_created,
    result_of (get_or_create_part "2024-05-21 09:00:00" "X-1" (Some "B") None)
      empty_db = inr (part_id, was_created) /\
    result_of (get_or_create_part "2024-05-21 09:05:00" "X-1" (Some "B") (Some "d"))
      (db_after (get_or_create_part "2024-05-21 09:00:00" "X-1" (Some "B") None)
         empty_db) = inr (part_id, false).
Proof.
  destruct (get_or_create_part_idempotent "2024-05-21 09:00:00"
              "2024-05-21 09:05:00" "X-1" (Some "B") None (Some "d") empty_db)
    as (part_id & was_created & H1 & H2 & _).
  exists part_id, was_created. split; assumption.
Defined.

(** ** Stage requests and the revision check *)

Lemma job_by_id_update_other d job_id other set :
  (forall j, j_id (set j) = j_id j) ->
  other <> job_id ->
  job_by_id (update_jobs (fun j => j_id j =? job_id) set d) other =
  job_by_id d other.
Proof.
  intros Hid Hne. rewrite job_by_id_update by assumption.
  destruct (job_by_id d other) as [j|] eqn:Hj; [|reflexivity].
  cbn [option_map]. rewrite (job_by_id_key _ _ _ Hj).
  apply Z.eqb_neq in Hne. now rewrite Hne.
Qed.

(** X7. A stage request for a job id that can be bound to the lookup and
    names no job is answered with the JSON error 404 and writes nothing,
    whatever stage it names. *)
Theorem job_update_stage_unknown_job
    (current_user : Z) (now : timestamp) (job_id : Z) (stage : option string)
    (d : db) :
  sqlite_int job_id = true ->
  job_by_id d job_id = None ->
  job_update_stage current_user now job_id stage d =
  (inr {| flashed := []; answer := JsonError "Job not found" 404 |}, d).
Proof.
  intros _ Hj. unfold job_update_stage, bind, query.
  fold (job_by_id d job_id). rewrite Hj. reflexivity.
Qed.

Lemma job_update_stage_unknown_job_witness :
  job_update_stage 1 "2024-05-21 09:00:00" 8 (Some "complete") db_completed_job =
  (inr {| flashed := []; answer := JsonError "Job not found" 404 |},
   db_completed_job).
Proof.
  apply job_update_stage_unknown_job; reflexivity.
Defined.

(** X8. An accepted stage request appends exactly one row to the audit
    log, by the user, about the job, saying from which stage to which; it
    leaves every other job as it was and the number of jobs unchanged. *)
Theorem job_update_stage_audit
    (current_user : Z) (now : timestamp) (job_id : Z) (s : string)
    (d : db) (j : job_row) :
  job_by_id d job_id = Some j ->
  In s valid_stages ->
  let d' := db_after (job_update_stage current_user now job_id (Some s)) d in
  (exists a,
     rows (audit_logs d') = rows (audit_logs d) ++ [a] /\
     a_user_id a = Some current_user /\
     a_action a = SText "status_change" /\
     a_entity_type a = "job" /\
     a_entity_id a = job_id /\
     a_description a =
       Some ("Changed stage from " ++ j_workflow_stage j ++ " to " ++ s)%string) /\
  (forall other, other <> job_id -> job_by_id d' other = job_by_id d other) /\
  List.length (rows (jobs d')) = List.length (rows (jobs d)).
Proof.
  intros Hj Hs d'.
  assert (Hin : py_in (Some s) valid_stages = true).
  { unfold py_in. apply existsb_exists. exists s. split; [assumption|].
    apply String.eqb_refl. }
  unfold d', db_after, job_update_stage, bind, query.
  fold (job_by_id d job_id). rewrite Hj, Hin.
  cbn [negb str_of_opt].
  destruct (s =? "complete")%string;
    rewrite execute_ok by reflexivity; rewrite log_audit_run;
    unfold ret; cbn [snd]; (split; [|split]).
  all: try (eexists; split; [reflexivity|]; repeat split; reflexivity).
  all: try (intros other Hne; rewrite job_by_id_with_audit_logs;
            apply job_by_id_update_other; [reflexivity | assumption]).
  all: cbn [jobs with_audit_logs update_jobs with_jobs sql_update rows];
    apply length_map.
Qed.

Lemma job_update_stage_audit_witness :
  exists a,
    rows (audit_logs
            (db_after (job_update_stage 1 "2024-05-21 09:00:00" 7
                         (Some "in_process")) db_completed_job)) =
    rows (audit_logs db_completed_job) ++ [a] /\
    a_description a = Some "Changed stage from complete to in_process".
Proof.
  destruct (job_update_stage_audit 1 "2024-05-21 09:00:00" 7 "in_process"
              db_completed_job
              (bracket_job "complete" (Some "2024-05-20 14:30:00")) eq_refl)
    as ((a & Hrows & _ & _ & _ & _ & Hdesc) & _).
  - simpl. tauto.
  - exists a. split; assumption.
Defined.

(** X9. Verifying the drawing revision of a job marks it verified by the
    user at the current time and leaves its stage and its completion time
    alone; for a job id that can be bound to the lookup and names no job
    it writes nothing. *)
Theorem job_verify_revision_keeps_stage
    (current_user : Z) (now : timestamp) (job_id : Z) (d : db) :
  (sqlite_int job_id = true ->
   job_by_id d job_id = None ->
   job_verify_revision current_user now job_id d =
   (inr (flash_redirect "error" "jobs_list" None), d)) /\
  (forall j, job_by_id d job_id = Some j ->
   exists j',
     job_by_id (db_after (job_verify_revision current_user now job_id) d) job_id
       = Some j' /\
     j_revision_verified j' = Some 1 /\
     j_revision_verified_by j' = Some current_user /\
     j_revision_verified_at j' = Some now /\
     j_workflow_stage j' = j_workflow_stage j /\
     j_completed_at j' = j_completed_at j).
Proof.
  split.
  - intros _ Hj. unfold job_verify_revision, bind, query.
    fold (job_by_id d job_id). rewrite Hj. reflexivity.
  - intros j Hj. unfold db_after, job_verify_revision, bind, query.
    fold (job_by_id d job_id). rewrite Hj.
    rewrite execute_ok by reflexivity. rewrite log_audit_run.
    unfold ret. cbn [snd].
    rewrite job_by_id_with_audit_logs, job_by_id_update by reflexivity.
    rewrite Hj. cbn [option_map].
    rewrite (job_by_id_key _ _ _ Hj), Z.eqb_refl.
    eexists. split; [reflexivity|]. repeat split.
Qed.

Lemma job_verify_revision_keeps_stage_witness :
  job_verify_revision 2 "2024-05-21 09:00:00" 8 db_completed_job =
    (inr (flash_redirect "error" "jobs_list" None), db_completed_job) /\
  exists j',
    job_by_id (db_after (job_verify_revision 2 "2024-05-21 09:00:00" 7)
                 db_completed_job) 7 = Some j' /\
    j_revision_verified j' = Some 1 /\
    j_workflow_stage j' = "complete".
Proof.
  split.
  - apply (job_verify_revision_keeps_stage 2 "2024-05-21 09:00:00" 8
             db_completed_job); reflexivity.
  - destruct (job_verify_revision_keeps_stage 2 "2024-05-21 09:00:00" 7
                db_completed_job) as [_ H].
    destruct (H (bracket_job "complete" (Some "2024-05-20 14:30:00")) eq_refl)
      as (j' & Hrow & Hv & _ & _ & Hst & _).
    exists j'. repeat split; assumption.
Defined.

(** ** Recording samples, on every database *)

Lemma all_three_boolean a b c : all_three a b c = 0 \/ all_three a b c = 1.
Proof. unfold all_three. destruct (_ && _); auto. Qed.

(** The samples table after a recording request, whatever happens to the
    exit control and the job afterwards. *)
Lemma exit_control_record_sample_samples now ec_id sample_id form d :
  let d' := db_after (exit_control_record_sample now ec_id sample_id form) d in
  (query_one (fun s => (s_id s =? sample_id) && (s_exit_control_id s =? ec_id))
     (exit_control_samples d) = None /\ d' = d) \/
  ((exists sample,
      query_one (fun s => (s_id s =? sample_id) && (s_exit_control_id s =? ec_id))
        (exit_control_samples d) = Some sample) /\
   exit_control_samples d' =
   sql_update (fun s => s_id s =? sample_id) (recorded_sample now form)
     (exit_control_samples d)).
Proof.
  unfold db_after, exit_control_record_sample, bind, query.
  destruct (query_one _ (exit_control_samples d)) as [sample|] eqn:Hs.
  - right. split; [eauto|].
    rewrite execute_ok by reflexivity.
    fold (recorded_sample now form).
    set (d1 := update_exit_control_samples (fun s => s_id s =? sample_id)
                 (recorded_sample now form) d).
    destruct (forallb _ (samples_of ec_id d1)); [|reflexivity].
    rewrite execute_ok by reflexivity.
    destruct (forallb _ (samples_of ec_id d1)); [|reflexivity].
    destruct (query_one _ (exit_controls _)); [|reflexivity].
    rewrite execute_ok by reflexivity. reflexivity.
  - left. split; reflexivity.
Qed.

(** X10. A recording request, with ids that can be bound to the lookup,
    for a sample that is not a sample of the exit control named in the
    request answers an error and writes nothing, also when a sample of that
    id exists under another exit control. *)
Theorem exit_control_record_sample_foreign
    (now : timestamp) (ec_id sample_id : Z) (form : sample_form) (d : db) :
  sqlite_int ec_id = true -> sqlite_int sample_id = true ->
  (forall s, In s (rows (exit_control_samples d)) ->
             s_id s = sample_id -> s_exit_control_id s <> ec_id) ->
  exit_control_record_sample now ec_id sample_id form d =
  (inr (flash_redirect "error" "exit_control_detail" (Some ec_id)), d).
Proof.
  intros _ _ Hforeign. unfold exit_control_record_sample, bind, query.
  destruct (query_one _ (exit_control_samples d)) as [sample|] eqn:Hs;
    [|reflexivity].
  apply query_one_found in Hs. destruct Hs as [Hin Hw].
  apply andb_true_iff in Hw. destruct Hw as [Hid Hec].
  apply Z.eqb_eq in Hid, Hec.
  exfalso. exact (Hforeign sample Hin Hid Hec).
Qed.

Lemma exit_control_record_sample_foreign_witness :
  exit_control_record_sample "2024-05-21 09:00:00" 6 12 form_all_ok
    (db_exit_control "exit_control" None) =
  (inr (flash_redirect "error" "exit_control_detail" (Some 6)),
   db_exit_control "exit_control" None).
Proof.
  apply exit_control_record_sample_foreign; [reflexivity | reflexivity |].
  intros s [<-|[<-|[]]] Hid; simpl; discriminate.
Defined.

(** X11. Recording keeps every stored verdict 0, 1 or [NULL]: if that
    holds of the samples before a recording request, it holds after it,
    however the request ends. *)
Theorem exit_control_record_sample_verdicts_boolean
    (now : timestamp) (ec_id sample_id : Z) (form : sample_form) (d : db) :
  verdicts_boolean d ->
  verdicts_boolean
    (db_after (exit_control_record_sample now ec_id sample_id form) d).
Proof.
  intros Hb.
  destruct (exit_control_record_sample_samples now ec_id sample_id form d)
    as [[_ ->]|[_ Hrows]]; [assumption|].
  unfold verdicts_boolean in *. rewrite Hrows.
  cbn [sql_update rows]. apply Forall_map.
  eapply Forall_impl; [|exact Hb]. intros s Hs.
  destruct (s_id s =? sample_id); [|assumption].
  unfold verdict_boolean, recorded_sample.
  cbn [s_overall_pass set_s_inspected_at set_s_notes set_s_overall_pass].
  destruct (all_three_boolean (checkbox (f_dimensions_ok form))
              (checkbox (f_visual_ok form)) (checkbox (f_surface_ok form)))
    as [-> | ->]; auto.
Qed.

Lemma exit_control_record_sample_verdicts_boolean_witness :
  verdicts_boolean
    (db_after
       (exit_control_record_sample "2024-05-21 09:00:00" 5 12 form_visual_fail)
       (db_exit_control "exit_control" None)).
Proof.
  apply exit_control_record_sample_verdicts_boolean.
  unfold verdicts_boolean. simpl.
  constructor; [unfold verdict_boolean; simpl; auto|].
  constructor; [unfold verdict_boolean; simpl; auto|].
  constructor.
Defined.

(** X12. A recording request writes only the sample it names: every
    sample with another id is in the table afterwards as it was, and the
    table has as many samples as before. *)
Theorem exit_control_record_sample_others
    (now : timestamp) (ec_id sample_id : Z) (form : sample_form) (d : db) :
  let d' := db_after (exit_control_record_sample now ec_id sample_id form) d in
  (forall s, In s (rows (exit_control_samples d)) -> s_id s <> sample_id ->
             In s (rows (exit_control_samples d'))) /\
  List.length (rows (exit_control_samples d')) =
  List.length (rows (exit_control_samples d)).
Proof.
  intros d'.
  destruct (exit_control_record_sample_samples now ec_id sample_id form d)
    as [[_ Hd]|[_ Hrows]]; fold d' in Hd || fold d' in Hrows.
  - rewrite Hd. split; auto.
  - rewrite Hrows. cbn [sql_update rows]. split; [|apply length_map].
    intros s Hin Hid. apply in_map_iff. exists s. split; [|assumption].
    apply Z.eqb_neq in Hid. now rewrite Hid.
Qed.

Lemma exit_control_record_sample_others_witness :
  In (sample_row 11 1 (Some 1))
    (rows (exit_control_samples
             (db_after
                (exit_control_record_sample "2024-05-21 09:00:00" 5 12
                   form_visual_fail)
                (db_exit_control "exit_control" None)))).
Proof.
  apply (exit_control_record_sample_others "2024-05-21 09:00:00" 5 12
           form_visual_fail (db_exit_control "exit_control" None)).
  - simpl. auto.
  - simpl. discriminate.
Defined.

(** ** The counts of the detail page *)

Lemma count_verdicts (l : list exit_control_sample_row) :
  Forall verdict_boolean l ->
  count_where (fun s => is_not_none (s_overall_pass s)) l =
  count_where (fun s => is_one (s_overall_pass s)) l +
  count_where (fun s => is_zero (s_overall_pass s)) l.
Proof.
  unfold count_where. induction 1 as [|s l Hs Hl IH]; [reflexivity|].
  cbn [filter].
  destruct Hs as [Hv|[Hv|Hv]]; rewrite Hv; cbn [is_not_none is_one is_zero];
    change (0 =? 1) with false; change (0 =? 0) with true;
    change (1 =? 1) with true; change (1 =? 0) with false;
    cbn [List.length]; lia.
Qed.

Lemma count_where_le {A} (f : A -> bool) (l : list A) :
  0 <= count_where f l <= Z.of_nat (List.length l).
Proof.
  unfold count_where. pose proof (filter_length_le f l). lia.
Qed.

(** X13. On the detail page of an exit control whose job exists, when
    every stored verdict is 0, 1 or [NULL], the inspected samples are the
    passed and the failed ones together, and they are at most all the
    samples. *)
Theorem exit_control_detail_counts (ec_id : Z) (d : db) (ec : exit_control_row) :
  query_one (fun e => (ecr_id e =? ec_id)
                      && existsb (fun j => j_id j =? ecr_job_id e) (rows (jobs d)))
    (exit_controls d) = Some ec ->
  verdicts_boolean d ->
  exists stats,
    exit_control_detail ec_id d = (inr (inr stats), d) /\
    total_samples stats = Z.of_nat (List.length (samples_of ec_id d)) /\
    inspected stats = passed stats + failed stats /\
    0 <= inspected stats <= total_samples stats.
Proof.
  intros Hec Hb. unfold exit_control_detail, bind, query. rewrite Hec.
  eexists. split; [reflexivity|]. cbn [total_samples inspected passed failed].
  split; [reflexivity|]. split.
  - apply count_verdicts. unfold samples_of, sql_select.
    apply Forall_forall. intros s Hs. apply filter_In in Hs.
    unfold verdicts_boolean in Hb. rewrite Forall_forall in Hb.
    apply Hb. tauto.
  - apply count_where_le.
Qed.

Lemma exit_control_detail_counts_witness :
  exists stats,
    exit_control_detail 5 (db_exit_control "exit_control" None) =
      (inr (inr stats), db_exit_control "exit_control" None) /\
    total_samples stats = 2 /\
    inspected stats = passed stats + failed stats.
Proof.
  destruct (exit_control_detail_counts 5 (db_exit_control "exit_control" None)
              exit_control_5 eq_refl) as (stats & Hrun & Htot & Hsum & _).
  - unfold verdicts_boolean. simpl.
    constructor; [unfold verdict_boolean; simpl; auto|].
    constructor; [unfold verdict_boolean; simpl; auto|].
    constructor.
  - exists stats. split; [exact Hrun|]. split; [exact Htot | exact Hsum].
Defined.

(** ** Manual completion, on every database *)

(** The database after manual completion of a lot with all verdicts in. *)
Lemma exit_control_complete_run current_user now ec_id d ec :
  exit_control_by_id d ec_id = Some ec ->
  all_inspected ec_id d = true ->
  exists category t,
    exit_control_complete current_user now ec_id d =
    (inr (flash_redirect category "exit_control_detail" (Some ec_id)),
     with_audit_logs
       (let d1 := update_exit_controls (fun e => ecr_id e =? ec_id)
                    (set_ecr_overall_status
                       (if all_passed ec_id d then "passed" else "failed")) d in
        if all_passed ec_id d then
          update_jobs (fun j => j_id j =? ecr_job_id ec) (completed_job now) d1
        else d1) t).
Proof.
  intros He Hall. unfold exit_control_complete, bind, query.
  fold (exit_control_by_id d ec_id). rewrite He.
  rewrite (forallb_true_filter _ _ Hall).
  fold (all_passed ec_id d).
  destruct (all_passed ec_id d);
    rewrite !execute_ok by reflexivity; unfold ret;
    rewrite log_audit_run; eexists; eexists; reflexivity.
Qed.

(** X14. Manual completion writes nothing when its id, one that can be
    bound to the lookup, names no exit control, and nothing when a sample
    of the lot is still without a verdict; both are answered with an
    error. *)
Theorem exit_control_complete_refused
    (current_user : Z) (now : timestamp) (ec_id : Z) (d : db) :
  (sqlite_int ec_id = true ->
   exit_control_by_id d ec_id = None ->
   exit_control_complete current_user now ec_id d =
   (inr (flash_redirect "error" "jobs_list" None), d)) /\
  (forall ec, exit_control_by_id d ec_id = Some ec ->
   all_inspected ec_id d = false ->
   exit_control_complete current_user now ec_id d =
   (inr (flash_redirect "error" "exit_control_detail" (Some ec_id)), d)).
Proof.
  split.
  - intros _ He. unfold exit_control_complete, bind, query.
    fold (exit_control_by_id d ec_id). rewrite He. reflexivity.
  - intros ec He Hno. now apply (exit_control_complete_incomplete _ _ _ _ ec).
Qed.

Lemma exit_control_complete_refused_witness :
  exit_control_complete 2 "2024-05-21 09:00:00" 6
    (db_exit_control "exit_control" None) =
  (inr (flash_redirect "error" "jobs_list" None),
   db_exit_control "exit_control" None) /\
  exit_control_complete 2 "2024-05-21 09:00:00" 5
    (db_exit_control "exit_control" None) =
  (inr (flash_redirect "error" "exit_control_detail" (Some 5)),
   db_exit_control "exit_control" None).
Proof.
  split.
  - apply (exit_control_complete_refused 2 "2024-05-21 09:00:00" 6
             (db_exit_control "exit_control" None)); reflexivity.
  - destruct (exit_control_complete_refused 2 "2024-05-21 09:00:00" 5
                (db_exit_control "exit_control" None)) as [_ H].
    apply (H exit_control_5); reflexivity.
Defined.

(** X15. An exit control without samples counts as passed: manual
    completion sets it to [passed] and completes its job, stamping
    [completed_at], in whatever stage the job is. *)
Theorem exit_control_complete_empty_lot
    (current_user : Z) (now : timestamp) (ec_id : Z) (d : db)
    (ec : exit_control_row) (j : job_row) :
  exit_control_by_id d ec_id = Some ec ->
  samples_of ec_id d = [] ->
  job_by_id d (ecr_job_id ec) = Some j ->
  let d' := db_after (exit_control_complete current_user now ec_id) d in
  (exists ec',
     exit_control_by_id d' ec_id = Some ec' /\ ecr_overall_status ec' = "passed") /\
  (exists j',
     job_by_id d' (ecr_job_id ec) = Some j' /\
     j_workflow_stage j' = "complete" /\ j_completed_at j' = Some now).
Proof.
  intros He Hempty Hj d'.
  assert (Hall : all_inspected ec_id d = true)
    by (unfold all_inspected; rewrite Hempty; reflexivity).
  assert (Hpass : all_passed ec_id d = true)
    by (unfold all_passed; rewrite Hempty; reflexivity).
  destruct (exit_control_complete_run current_user now ec_id d ec He Hall)
    as (category & t & Hrun).
  unfold d', db_after. rewrite Hrun, Hpass. cbn [snd]. split.
  - exists (set_ecr_overall_status "passed" ec). split; [|reflexivity].
    change (exit_control_by_id (with_audit_logs (update_jobs ?c ?f ?d2) t) ec_id)
      with (exit_control_by_id d2 ec_id).
    rewrite exit_control_by_id_update by reflexivity.
    rewrite He. cbn [option_map].
    now rewrite (exit_control_by_id_key _ _ _ He), Z.eqb_refl.
  - exists (completed_job now j). split; [|split; reflexivity].
    rewrite job_by_id_with_audit_logs, job_by_id_update by reflexivity.
    change (job_by_id (update_exit_controls _ _ d) (ecr_job_id ec))
      with (job_by_id d (ecr_job_id ec)).
    rewrite Hj. cbn [option_map].
    now rewrite (job_by_id_key _ _ _ Hj), Z.eqb_refl.
Qed.

(** X16. Manual completion of a lot whose verdicts are all in and of
    which a sample failed sets the exit control to [failed] and writes no
    job. *)
Theorem exit_control_complete_failed_lot
    (current_user : Z) (now : timestamp) (ec_id : Z) (d : db)
    (ec : exit_control_row) :
  exit_control_by_id d ec_id = Some ec ->
  all_inspected ec_id d = true ->
  all_passed ec_id d = false ->
  let d' := db_after (exit_control_complete current_user now ec_id) d in
  (exists ec',
     exit_control_by_id d' ec_id = Some ec' /\ ecr_overall_status ec' = "failed") /\
  jobs d' = jobs d.
Proof.
  intros He Hall Hfail d'.
  destruct (exit_control_complete_run current_user now ec_id d ec He Hall)
    as (category & t & Hrun).
  unfold d', db_after. rewrite Hrun, Hfail. cbn [snd]. split; [|reflexivity].
  exists (set_ecr_overall_status "failed" ec). split; [|reflexivity].
  change (exit_control_by_id (with_audit_logs ?d2 t) ec_id)
    with (exit_control_by_id d2 ec_id).
  rewrite exit_control_by_id_update by reflexivity.
  rewrite He. cbn [option_map].
  now rewrite (exit_control_by_id_key _ _ _ He), Z.eqb_refl.
Qed.

Lemma exit_control_complete_empty_lot_witness :
  exists j',
    job_by_id
      (db_after (exit_control_complete 2 "2024-05-21 09:00:00" 5)
         (db_no_samples "in_process")) 7 = Some j' /\
    j_workflow_stage j' = "complete" /\
    j_completed_at j' = Some "2024-05-21 09:00:00".
Proof.
  destruct (exit_control_complete_empty_lot 2 "2024-05-21 09:00:00" 5
              (db_no_samples "in_process") exit_control_5
              (bracket_job "in_process" None) eq_refl eq_refl eq_refl)
    as [_ H].
  exact H.
Defined.

Lemma exit_control_complete_failed_lot_witness :
  jobs (db_after (exit_control_complete 2 "2024-05-21 09:00:00" 5) db_failed_lot)
  = jobs db_failed_lot.
Proof.
  destruct (exit_control_complete_failed_lot 2 "2024-05-21 09:00:00" 5
              db_failed_lot exit_control_5 eq_refl eq_refl eq_refl)
    as [_ H].
  exact H.
Defined.

(** ** Creating an exit control and adding samples *)

Lemma insert_sample_run now ec_id part_num d :
  insert_sample now ec_id part_num d =
  (inr tt,
   with_exit_control_samples d
     {| rows := rows (exit_control_samples d) ++
                [{| s_id := next_rowid s_id (exit_control_samples d);
                    s_exit_control_id := ec_id; s_part_number := part_num;
                    s_dimensions_ok := None; s_visual_ok := None;
                    s_surface_ok := None; s_overall_pass := None;
                    s_notes := None; s_inspected_at := Some now |}];
        seq_no := next_rowid s_id (exit_control_samples d) |}).
Proof. reflexivity. Qed.

Lemma query_one_appended {R} (w : R -> bool) (t : table R) r n :
  query_one w t = None -> w r = true ->
  query_one w {| rows := rows t ++ [r]; seq_no := n |} = Some r.
Proof.
  intros Hnone Hw. unfold query_one, sql_select in *. cbn [rows].
  rewrite filter_app. cbn [filter]. rewrite Hw.
  destruct (filter w (rows t)); [reflexivity | discriminate].
Qed.

Lemma with_exit_control_samples_same d :
  with_exit_control_samples d (exit_control_samples d) = d.
Proof. destruct d; reflexivity. Qed.

(** The loop that inserts the plan appends one fresh sample per position,
    in order. *)
Lemma for_each_insert_sample now ec_id positions :
  forall d, exists t new,
    for_each positions (insert_sample now ec_id) d =
      (inr tt, with_exit_control_samples d t) /\
    rows t = rows (exit_control_samples d) ++ new /\
    map s_part_number new = positions /\
    Forall (fresh_sample ec_id) new.
Proof.
  induction positions as [|p positions IH]; intros d.
  - exists (exit_control_samples d), [].
    cbn [for_each]. unfold ret. rewrite with_exit_control_samples_same.
    rewrite app_nil_r. auto.
  - cbn [for_each]. unfold bind at 1. rewrite insert_sample_run.
    set (d1 := with_exit_control_samples d _).
    destruct (IH d1) as (t & new & Hrun & Hrows & Hpos & Hfresh).
    rewrite Hrun. eexists t, (_ :: new).
    split; [reflexivity|]. split; [|split].
    + rewrite Hrows. unfold d1. cbn [exit_control_samples
        with_exit_control_samples rows]. rewrite <- app_assoc. reflexivity.
    + cbn [map s_part_number]. now rewrite Hpos.
    + constructor; [|assumption]. repeat split.
Qed.

(** X17. Creating an exit control for an existing job, with a lot
    quantity that can be bound to the [INSERT], stores it as [in_progress]
    with the lot quantity submitted, or the quantity of the job when none
    or zero was submitted, and appends one sample without a verdict for
    every position of the sampling plan of that lot quantity, in plan
    order, leaving the samples that were there as they were. *)
Theorem exit_control_create_samples
    (current_user : Z) (now : timestamp) (job_id : Z)
    (lot_quantity : option Z) (notes : option string) (d : db) (j : job_row) :
  job_by_id d job_id = Some j ->
  sqlite_int (lot_quantity_or lot_quantity (j_quantity j)) = true ->
  let q := lot_quantity_or lot_quantity (j_quantity j) in
  let ec_id := next_rowid ecr_id (exit_controls d) in
  let call := exit_control_create current_user now "POST" job_id
                lot_quantity notes in
  result_of call d =
    inr (Created (flash_redirect "success" "exit_control_detail" (Some ec_id))) /\
  (exists ec,
     exit_control_by_id (db_after call d) ec_id = Some ec /\
     ecr_job_id ec = job_id /\ ecr_lot_quantity ec = q /\
     ecr_overall_status ec = "in_progress") /\
  (exists new,
     rows (exit_control_samples (db_after call d)) =
       rows (exit_control_samples d) ++ new /\
     map s_part_number new = calculate_exit_control_samples q /\
     Forall (fresh_sample ec_id) new).
Proof.
  intros Hj _ q ec_id call.
  unfold call, result_of, db_after, exit_control_create, bind, query.
  fold (job_by_id d job_id). rewrite Hj.
  cbn [String.eqb Ascii.eqb Bool.eqb].
  unfold execute_insert.
  replace (has_columns exit_controls_columns _) with true by reflexivity.
  cbn [sql_insert]. fold q. fold ec_id.
  set (d1 := with_exit_controls d _).
  destruct (for_each_insert_sample now ec_id (calculate_exit_control_samples q) d1)
    as (t & new & Hrun & Hrows & Hpos & Hfresh).
  rewrite Hrun. rewrite log_audit_run. unfold ret. cbn [fst snd].
  split; [reflexivity|]. split.
  - assert (Hnew : query_one (fun e => ecr_id e =? ec_id) (exit_controls d) = None).
    { destruct (query_one _ (exit_controls d)) as [e|] eqn:He; [|reflexivity].
      apply query_one_found in He. destruct He as [Hin Hid].
      apply Z.eqb_eq in Hid.
      pose proof (next_rowid_fresh ecr_id (exit_controls d) e Hin).
      unfold ec_id in Hid. lia. }
    eexists. split.
    + unfold exit_control_by_id.
      cbn [exit_controls with_audit_logs with_exit_control_samples].
      unfold d1. cbn [exit_controls with_exit_controls].
      apply query_one_appended; [exact Hnew|].
      cbn [ecr_id]. apply Z.eqb_refl.
    + repeat split.
  - exists new.
    cbn [exit_control_samples with_audit_logs with_exit_control_samples].
    split; [exact Hrows|]. split; assumption.
Qed.

Lemma exit_control_create_samples_witness :
  exists new,
    rows (exit_control_samples
            (db_after (exit_control_create 2 "2024-05-21 09:00:00" "POST" 7
                         (Some 0) None)
               (db_with_job (bracket_job "exit_control" None)))) = [] ++ new /\
    map s_part_number new = [1; 2; 3; 4; 5; 15; 25].
Proof.
  destruct (exit_control_create_samples 2 "2024-05-21 09:00:00" 7 (Some 0) None
              (db_with_job (bracket_job "exit_control" None))
              (bracket_job "exit_control" None) eq_refl eq_refl)
    as (_ & _ & new & Hrows & Hpos & _).
  exists new. split; [exact Hrows | exact Hpos].
Defined.

Lemma positions_of_appended ec_id d s n :
  s_exit_control_id s = ec_id ->
  positions_of ec_id
    (with_exit_control_samples d
       {| rows := rows (exit_control_samples d) ++ [s]; seq_no := n |}) =
  positions_of ec_id d ++ [s_part_number s].
Proof.
  intros Hs. unfold positions_of, samples_of, sql_select.
  cbn [exit_control_samples with_exit_control_samples rows].
  rewrite filter_app, map_app. cbn [filter].
  rewrite Hs, Z.eqb_refl. reflexivity.
Qed.

Lemma not_sampled_yet ec_id part_num d :
  query_one (fun s => (s_exit_control_id s =? ec_id) && (s_part_number s =? part_num))
    (exit_control_samples d) = None ->
  ~ In part_num (positions_of ec_id d).
Proof.
  intros Hnone Hin. apply query_one_none in Hnone.
  unfold positions_of, samples_of, sql_select in Hin.
  apply in_map_iff in Hin. destruct Hin as (s & Hp & Hs).
  apply filter_In in Hs. destruct Hs as [Hin Hec].
  assert (existsb (fun s => (s_exit_control_id s =? ec_id)
                            && (s_part_number s =? part_num))
            (rows (exit_control_samples d)) = true); [|congruence].
  apply existsb_exists. exists s. split; [assumption|].
  rewrite Hec, Hp, Z.eqb_refl. reflexivity.
Qed.

(** What the loop over the typed numbers does to the samples, whatever
    [str.strip] and [int] answer. *)
Lemma add_samples_loop_run py_strip py_int now ec_id lot_quantity nums :
  forall added d, exists added' t new,
    add_samples_loop py_strip py_int now ec_id lot_quantity nums added d =
      (inr added', with_exit_control_samples d t) /\
    rows t = rows (exit_control_samples d) ++ new /\
    added' = added + Z.of_nat (List.length new) /\
    Forall (fun s => fresh_sample ec_id s /\ 1 <= s_part_number s <= lot_quantity)
      new /\
    (forall s, In s new -> ~ In (s_part_number s) (positions_of ec_id d)) /\
    (NoDup (positions_of ec_id d) ->
     NoDup (positions_of ec_id (with_exit_control_samples d t))).
Proof.
  induction nums as [|num nums IH]; intros added d.
  - exists added, (exit_control_samples d), [].
    cbn [add_samples_loop]. unfold ret.
    rewrite with_exit_control_samples_same, app_nil_r.
    repeat split; auto. cbn [List.length]. lia.
  - cbn [add_samples_loop].
    destruct (py_int (py_strip num)) as [part_num|]; [|apply IH].
    unfold bind at 1, query.
    destruct (query_one _ (exit_control_samples d)) as [existing|] eqn:Hq;
      cbn [is_not_none negb andb]; [apply IH|].
    destruct ((1 <=? part_num) && (part_num <=? lot_quantity)) eqn:Hb;
      [|apply IH].
    apply andb_true_iff in Hb. destruct Hb as [Hlo Hhi].
    apply Z.leb_le in Hlo, Hhi.
    unfold bind at 1. rewrite insert_sample_run.
    set (s0 := {| s_id := next_rowid s_id (exit_control_samples d);
                  s_exit_control_id := ec_id; s_part_number := part_num;
                  s_dimensions_ok := None; s_visual_ok := None;
                  s_surface_ok := None; s_overall_pass := None;
                  s_notes := None; s_inspected_at := Some now |}).
    set (d1 := with_exit_control_samples d _).
    assert (Hpos1 : positions_of ec_id d1 = positions_of ec_id d ++ [part_num])
      by (apply (positions_of_appended ec_id d s0); reflexivity).
    pose proof (not_sampled_yet ec_id part_num d Hq) as Hfresh.
    destruct (IH (added + 1) d1)
      as (added' & t & new & Hrun & Hrows & Hadded & Hall & Hnot & Hnodup).
    exists added', t, (s0 :: new).
    split; [exact Hrun|]. split; [|split; [|split; [|split]]].
    + rewrite Hrows. unfold d1.
      cbn [exit_control_samples with_exit_control_samples rows].
      now rewrite <- app_assoc.
    + cbn [List.length]. lia.
    + constructor; [|assumption]. repeat split; assumption.
    + intros s [<-|Hin]; [exact Hfresh|].
      intros Hp. apply (Hnot s Hin). rewrite Hpos1. apply in_or_app. now left.
    + intros Hnd. apply Hnodup. rewrite Hpos1.
      apply NoDup_app; [assumption | repeat constructor; auto |].
      intros x Hx [<-|[]]. exact (Hfresh Hx).
Qed.

(** X18. Adding samples by hand, when every number typed can be bound to
    the lookup, does not raise and only appends: each sample added belongs
    to the exit control, has no verdict, lies within [1..lot_quantity] and
    was not a position of that exit control before; if the positions of
    the exit control were pairwise distinct they still are.  This holds
    for whatever [str.strip], [str.split] and [int] answer on the text
    typed. *)
Theorem exit_control_add_samples_appends
    (py_strip : string -> string) (py_split : string -> list string)
    (py_int : string -> option Z) (now : timestamp) (ec_id : Z)
    (part_numbers : option string) (d : db) (ec : exit_control_row) :
  exit_control_by_id d ec_id = Some ec ->
  forallb (fun num => match py_int (py_strip num) with
                      | Some part_num => sqlite_int part_num
                      | None => true
                      end)
    (py_split (py_strip (form_get_default part_numbers))) = true ->
  let call := exit_control_add_samples py_strip py_split py_int now ec_id
                part_numbers in
  (exists r, result_of call d = inr r) /\
  (exists new,
     rows (exit_control_samples (db_after call d)) =
       rows (exit_control_samples d) ++ new /\
     Forall (fun s => fresh_sample ec_id s /\
                      1 <= s_part_number s <= ecr_lot_quantity ec) new /\
     (forall s, In s new -> ~ In (s_part_number s) (positions_of ec_id d))) /\
  (NoDup (positions_of ec_id d) -> NoDup (positions_of ec_id (db_after call d))).
Proof.
  intros He _ call.
  unfold call, result_of, db_after, exit_control_add_samples, bind, query.
  fold (exit_control_by_id d ec_id). rewrite He.
  destruct (py_strip (form_get_default part_numbers) =? "")%string.
  - unfold ret. cbn [fst snd]. split; [eauto|]. split; [|auto].
    exists []. rewrite app_nil_r. repeat split; auto.
  - destruct (add_samples_loop_run py_strip py_int now ec_id
                (ecr_lot_quantity ec)
                (py_split (py_strip (form_get_default part_numbers))) 0 d)
      as (added' & t & new & Hrun & Hrows & _ & Hall & Hnot & Hnodup).
    rewrite Hrun. unfold ret. cbn [fst snd].
    split; [eauto|]. split; [|exact Hnodup].
    exists new. cbn [exit_control_samples with_exit_control_samples].
    repeat split; assumption.
Qed.

Lemma exit_control_add_samples_appends_witness :
  NoDup (positions_of 5
           (db_after
              (exit_control_add_samples ascii_strip (ascii_tokens "") ascii_int
                 "2024-05-21 09:00:00" 5 (Some "2,7 x 1 2"))
              (db_no_samples "exit_control"))) /\
  positions_of 5
    (db_after
       (exit_control_add_samples ascii_strip (ascii_tokens "") ascii_int
          "2024-05-21 09:00:00" 5 (Some "2,7 x 1 2"))
       (db_no_samples "exit_control")) = [2; 1].
Proof.
  split; [|reflexivity].
  apply (exit_control_add_samples_appends ascii_strip (ascii_tokens "")
           ascii_int "2024-05-21 09:00:00" 5 (Some "2,7 x 1 2")
           (db_no_samples "exit_control") exit_control_5 eq_refl eq_refl).
  constructor.
Defined.

(** ** Who is notified *)

Lemma unseen_users_in seen us u :
  In u (unseen_users seen us) -> In u us /\ ~ In (u_id u) seen.
Proof.
  revert seen. induction us as [|x us IH]; intros seen; cbn [unseen_users].
  - contradiction.
  - destruct (existsb (Z.eqb (u_id x)) seen) eqn:Hx.
    + intros Hin. destruct (IH _ Hin). split; [now right | assumption].
    + intros [<-|Hin].
      * split; [now left|]. intros Hs.
        assert (existsb (Z.eqb (u_id x)) seen = true); [|congruence].
        apply existsb_exists. exists (u_id x). split; [assumption|].
        apply Z.eqb_refl.
      * destruct (IH _ Hin) as [Hus Hns]. split; [now right|].
        intros Hs. apply Hns. now right.
Qed.

Lemma unseen_users_NoDup seen us : NoDup (map u_id (unseen_users seen us)).
Proof.
  revert seen. induction us as [|x us IH]; intros seen; cbn [unseen_users].
  - constructor.
  - destruct (existsb (Z.eqb (u_id x)) seen); [apply IH|].
    cbn [map]. constructor; [|apply IH].
    intros Hin. apply in_map_iff in Hin. destruct Hin as (u & Hid & Hu).
    apply unseen_users_in in Hu. destruct Hu as [_ Hns].
    apply Hns. rewrite Hid. now left.
Qed.

Lemma unseen_users_complete seen us u :
  In u us -> ~ In (u_id u) seen ->
  In (u_id u) (map u_id (unseen_users seen us)).
Proof.
  revert seen. induction us as [|x us IH]; intros seen Hin Hns;
    cbn [unseen_users]; [contradiction|].
  destruct (existsb (Z.eqb (u_id x)) seen) eqn:Hx.
  - destruct Hin as [->|Hin]; [|now apply IH].
    exfalso. apply existsb_exists in Hx. destruct Hx as (z & Hz & He).
    apply Z.eqb_eq in He. apply Hns. now rewrite He.
  - cbn [map]. destruct Hin as [->|Hin]; [now left|].
    destruct (Z.eq_dec (u_id x) (u_id u)) as [He|Hne]; [now left|].
    right. apply IH; [assumption|].
    intros [Hs|Hs]; [contradiction | exact (Hns Hs)].
Qed.

Lemma get_quality_notification_users_run d :
  get_quality_notification_users d =
  (inr (unseen_users []
          (sql_select (fun u => (u_role u =? "quality_manager")%string
                                && is_one (u_active u)) (users d) ++
           sql_select (fun u => (u_role u =? "admin")%string
                                && is_one (u_active u)) (users d))), d).
Proof. reflexivity. Qed.

(** X19. The users notified about quality issues are read without
    writing; no user id occurs twice among them, also for a user stored
    under both roles; each of them is an active quality manager or
    administrator of the users table, and every active quality manager or
    administrator is among them by id. *)
Theorem get_quality_notification_users_spec (d : db) :
  exists us,
    get_quality_notification_users d = (inr us, d) /\
    NoDup (map u_id us) /\
    (forall u, In u us -> In u (rows (users d)) /\ quality_user u) /\
    (forall u, In u (rows (users d)) -> quality_user u ->
               In (u_id u) (map u_id us)).
Proof.
  unfold get_quality_notification_users, bind, query, ret.
  eexists. split; [reflexivity|]. split; [apply unseen_users_NoDup|]. split.
  - intros u Hu. apply unseen_users_in in Hu. destruct Hu as [Hu _].
    unfold sql_select in Hu. apply in_app_iff in Hu.
    destruct Hu as [Hu|Hu]; apply filter_In in Hu; destruct Hu as [Hin Hw];
      apply andb_true_iff in Hw; destruct Hw as [Hr Ha];
      apply String.eqb_eq in Hr; (split; [assumption|]); split; auto.
  - intros u Hin [Ha Hr]. apply unseen_users_complete; [|auto].
    unfold sql_select. apply in_or_app.
    destruct Hr as [Hr|Hr]; [left|right]; apply filter_In;
      (split; [assumption|]); rewrite Hr, Ha; reflexivity.
Qed.

Lemma get_quality_notification_users_spec_witness :
  exists us,
    get_quality_notification_users (db_supplier "pending" "received") =
      (inr us, db_supplier "pending" "received") /\
    In 2 (map u_id us).
Proof.
  destruct (get_quality_notification_users_spec (db_supplier "pending" "received"))
    as (us & Hrun & _ & _ & Hall).
  exists us. split; [exact Hrun|].
  apply (Hall (user_of 2 "qm" "quality_manager")).
  - simpl. auto.
  - split; [reflexivity | left; reflexivity].
Defined.

(** ** Setting a material control status *)

Lemma create_notification_run now user_id kind title message entity_type
    entity_id d :
  create_notification now user_id kind title message entity_type entity_id d =
  (inr tt,
   with_notifications d
     {| rows := rows (notifications d) ++
                [{| n_id := next_rowid n_id (notifications d);
                    n_user_id := user_id; n_notification_type := kind;
                    n_title := title; n_message := Some message;
                    n_entity_type := entity_type; n_entity_id := entity_id;
                    n_read := Some 0; n_created_at := Some now |}];
        seq_no := next_rowid n_id (notifications d) |}).
Proof. reflexivity. Qed.

(** The notification loop appends one unread notice per user, in order. *)
Lemma for_each_notify_rows now kind title message entity entity_id us :
  forall d, exists t new,
    for_each us (fun u =>
      create_notification now (u_id u) kind title message
        (Some entity) (Some entity_id)) d =
      (inr tt, with_notifications d t) /\
    rows t = rows (notifications d) ++ new /\
    map n_user_id new = map u_id us /\
    Forall (rejection_notice kind entity entity_id) new.
Proof.
  induction us as [|u us IH]; intros d.
  - exists (notifications d), []. cbn [for_each]. unfold ret.
    rewrite with_notifications_same, app_nil_r. auto.
  - cbn [for_each]. unfold bind at 1. rewrite create_notification_run.
    set (d1 := with_notifications d _).
    destruct (IH d1) as (t & new & Hrun & Hrows & Hids & Hall).
    rewrite Hrun. eexists t, (_ :: new).
    split; [reflexivity|]. split; [|split].
    + rewrite Hrows. unfold d1. cbn [notifications with_notifications rows].
      rewrite <- app_assoc. reflexivity.
    + cbn [map n_user_id]. now rewrite Hids.
    + constructor; [|assumption]. repeat split.
Qed.

Lemma material_control_by_id_update d mc_id c set :
  (forall m, mcr_id (set m) = mcr_id m) ->
  material_control_by_id (update_material_controls c set d) mc_id =
  option_map (fun m => if c m then set m else m) (material_control_by_id d mc_id).
Proof.
  intros Hid. unfold material_control_by_id, update_material_controls. simpl.
  apply query_one_update. intros m. now rewrite Hid.
Qed.

Lemma material_control_by_id_key d mc_id m :
  material_control_by_id d mc_id = Some m -> mcr_id m = mc_id.
Proof.
  intros H. apply query_one_found in H. destruct H as [_ H].
  now apply Z.eqb_eq.
Qed.

(** X20. A status request that names none of [pending], [approved] and
    [rejected], or no status, writes nothing, whether its id, one that can
    be bound to the lookup, names a material control or not. *)
Theorem material_control_status_invalid
    (current_user : Z) (now : timestamp) (mc_id : Z) (status : option string)
    (d : db) :
  sqlite_int mc_id = true ->
  (forall s, status = Some s -> ~ In s ["pending"; "approved"; "rejected"]) ->
  db_after (material_control_status current_user now mc_id status) d = d /\
  exists r, result_of (material_control_status current_user now mc_id status) d
            = inr r.
Proof.
  intros _ Hbad. apply py_in_false in Hbad.
  unfold db_after, result_of, material_control_status, bind, query.
  destruct (query_one _ (material_controls d)); [rewrite Hbad|];
    unfold ret; cbn [fst snd]; eauto.
Qed.

Lemma material_control_status_invalid_witness :
  db_after (material_control_status 2 "2024-05-21 09:00:00" 3 (Some "scrapped"))
    (db_supplier "pending" "received") = db_supplier "pending" "received".
Proof.
  apply (material_control_status_invalid 2 "2024-05-21 09:00:00" 3
           (Some "scrapped") (db_supplier "pending" "received") eq_refl).
  intros s Hs. injection Hs as <-. simpl.
  intros [H|[H|[H|[]]]]; discriminate H.
Defined.

(** X21. A status request that names [pending], [approved] or [rejected]
    for an existing material control stores that status with the user as
    inspector and never raises.  Only [rejected] notifies: when the job of
    the material control exists, one unread [material_rejected] notice is
    appended for each user that [get_quality_notification_users] answers,
    in that order; the other two statuses leave the notifications as they
    were. *)
Theorem material_control_status_valid
    (current_user : Z) (now : timestamp) (mc_id : Z) (s : string)
    (d : db) (mc : material_control_row) :
  material_control_by_id d mc_id = Some mc ->
  In s ["pending"; "approved"; "rejected"] ->
  let call := material_control_status current_user now mc_id (Some s) in
  result_of call d =
    inr {| flashed := ["success"];
           answer := Redirect "material_control_detail" (Some mc_id) |} /\
  (exists mc',
     material_control_by_id (db_after call d) mc_id = Some mc' /\
     mcr_status mc' = s /\ mcr_inspector_id mc' = Some current_user /\
     mcr_supplier_id mc' = mcr_supplier_id mc /\ mcr_job_id mc' = mcr_job_id mc) /\
  (s <> "rejected" -> notifications (db_after call d) = notifications d) /\
  (s = "rejected" ->
   forall j us,
     job_by_id d (mcr_job_id mc) = Some j ->
     get_quality_notification_users d = (inr us, d) ->
     exists new,
       rows (notifications (db_after call d)) = rows (notifications d) ++ new /\
       map n_user_id new = map u_id us /\
       Forall (rejection_notice "material_rejected" "material_control" mc_id) new).
Proof.
  intros Hmc Hs call.
  assert (Hin : py_in (Some s) ["pending"; "approved"; "rejected"] = true).
  { unfold py_in. apply existsb_exists. exists s. split; [assumption|].
    apply String.eqb_refl. }
  pose proof (material_control_by_id_key _ _ _ Hmc) as Hk.
  assert (Hrow : forall d2,
             material_controls d2 =
             material_controls
               (update_material_controls (fun m => mcr_id m =? mc_id)
                  (fun m => set_mcr_inspector_id (Some current_user)
                              (set_mcr_status s m)) d) ->
             exists mc',
               material_control_by_id d2 mc_id = Some mc' /\
               mcr_status mc' = s /\ mcr_inspector_id mc' = Some current_user /\
               mcr_supplier_id mc' = mcr_supplier_id mc /\
               mcr_job_id mc' = mcr_job_id mc).
  { intros d2 Hd2. unfold material_control_by_id. rewrite Hd2.
    fold (material_control_by_id
            (update_material_controls (fun m => mcr_id m =? mc_id)
               (fun m => set_mcr_inspector_id (Some current_user)
                           (set_mcr_status s m)) d) mc_id).
    rewrite material_control_by_id_update by reflexivity.
    rewrite Hmc. cbn [option_map]. rewrite Hk, Z.eqb_refl.
    eexists. split; [reflexivity|]. repeat split. }
  unfold call, result_of, db_after, material_control_status, bind, query.
  fold (material_control_by_id d mc_id). rewrite Hmc, Hin.
  cbn [str_of_opt]. rewrite execute_ok by reflexivity.
  set (d1 := update_material_controls _ _ d).
  destruct (String.eqb_spec s "rejected") as [Hrej|Hrej].
  - change (query_one (fun j => j_id j =? mcr_job_id mc) (jobs d1))
      with (job_by_id d (mcr_job_id mc)).
    destruct (job_by_id d (mcr_job_id mc)) as [j|] eqn:Hj.
    + pose proof (get_quality_notification_users_run d1) as Hus1.
      set (us1 := unseen_users [] _) in Hus1.
      rewrite Hus1.
      destruct (for_each_notify_rows now "material_rejected"
                  ("Material Rejected: " ++ j_part_number j)%string
                  ("Material control for Job "
                     ++ str_of_opt (j_internal_job_number j)
                     ++ " (PO " ++ j_po_number j ++ ") was rejected.")%string
                  "material_control" mc_id us1 d1)
        as (t & new & Hrun & Hrows & Hids & Hall).
      rewrite Hrun. unfold ret. cbn [fst snd].
      split; [reflexivity|]. split; [apply Hrow; reflexivity|].
      split; [congruence|].
      intros _ j0 us Hj0 Hus.
      assert (Hsame : us1 = us).
      { rewrite get_quality_notification_users_run in Hus.
        unfold us1. change (users d1) with (users d). congruence. }
      rewrite <- Hsame. exists new. cbn [notifications with_notifications].
      repeat split; assumption.
    + unfold ret. cbn [fst snd].
      split; [reflexivity|]. split; [apply Hrow; reflexivity|].
      split; [congruence|]. intros _ j us Hj0. discriminate.
  - unfold ret. cbn [fst snd].
    split; [reflexivity|]. split; [apply Hrow; reflexivity|].
    split; [reflexivity|]. intros Hs'. contradiction.
Qed.

Lemma material_control_status_valid_witness :
  exists mc',
    material_control_by_id
      (db_after (material_control_status 2 "2024-05-21 09:00:00" 3 (Some "rejected"))
         (db_supplier "pending" "received")) 3 = Some mc' /\
    mcr_status mc' = "rejected".
Proof.
  destruct (material_control_status_valid 2 "2024-05-21 09:00:00" 3 "rejected"
              (db_supplier "pending" "received") (material_control_3 "pending")
              eq_refl)
    as (_ & (mc' & Hrow & Hst & _) & _).
  - simpl. tauto.
  - exists mc'. split; assumption.
Defined.

(** ** Notifications *)

Lemma filter_map_length {A} (w : A -> bool) (f : A -> A) (l : list A) :
  (forall x, w (f x) = w x) ->
  List.length (filter w (map f l)) = List.length (filter w l).
Proof.
  intros Hw. induction l as [|x l IH]; [reflexivity|].
  cbn [map filter]. rewrite Hw. destruct (w x); cbn [List.length]; lia.
Qed.

Lemma unread_of_read user_id n :
  unread_of user_id (set_n_read (Some 1) n) = false.
Proof. unfold unread_of. cbn. apply andb_false_r. Qed.

(** X22. After "mark all read" a user has no unread notification left,
    whichever way the request came in; the notifications of every other
    user are in the table as they were, and so is their unread count. *)
Theorem notifications_mark_all_read_clears
    (ajax : bool) (current_user : Z) (d : db) :
  let d' := db_after (notifications_mark_all_read ajax current_user) d in
  notifications_count current_user d' = (inr 0, d') /\
  (forall n, In n (rows (notifications d)) -> n_user_id n <> current_user ->
             In n (rows (notifications d'))) /\
  (forall other, other <> current_user ->
     result_of (notifications_count other) d' =
     result_of (notifications_count other) d).
Proof.
  intros d'.
  assert (Hd : notifications d' =
               sql_update (unread_of current_user) (set_n_read (Some 1))
                 (notifications d)).
  { unfold d', db_after, notifications_mark_all_read, bind.
    rewrite execute_ok by reflexivity. destruct ajax; reflexivity. }
  unfold notifications_count, query, result_of, sql_count, sql_select.
  rewrite Hd. cbn [sql_update rows fst]. split; [|split].
  - f_equal. f_equal.
    replace (filter (unread_of current_user) _) with (@nil notification_row);
      [reflexivity|].
    symmetry. induction (rows (notifications d)) as [|n l IH]; [reflexivity|].
    cbn [map filter].
    destruct (unread_of current_user n) eqn:Hn.
    + rewrite unread_of_read. exact IH.
    + rewrite Hn. exact IH.
  - intros n Hin Hne. apply in_map_iff. exists n. split; [|assumption].
    unfold unread_of. apply Z.eqb_neq in Hne. now rewrite Hne.
  - intros other Hne. f_equal. f_equal. apply filter_map_length.
    intros n. unfold unread_of.
    destruct (n_user_id n =? current_user) eqn:Hu; [|reflexivity].
    cbn [andb]. apply Z.eqb_eq in Hu.
    assert (Ho : (n_user_id n =? other) = false) by (apply Z.eqb_neq; lia).
    destruct (is_zero (n_read n)); cbn [n_user_id set_n_read]; now rewrite Ho.
Qed.

Lemma notifications_mark_all_read_clears_witness :
  notifications_count 2
    (db_after (notifications_mark_all_read false 2) db_notices) =
    (inr 0, db_after (notifications_mark_all_read false 2) db_notices) /\
  In (notice 1 1 (Some 0))
    (rows (notifications (db_after (notifications_mark_all_read false 2)
                            db_notices))).
Proof.
  destruct (notifications_mark_all_read_clears false 2 db_notices)
    as (Hzero & Hkeep & _).
  split; [exact Hzero|]. apply Hkeep.
  - simpl. auto.
  - simpl. discriminate.
Defined.

(** X23. A user cannot mark as read or delete a notification of another
    user: when no notification of that id, one that can be bound to the
    lookup, belongs to the user, both requests answer an error and write
    nothing. *)
Theorem notification_of_another_user
    (ajax : bool) (current_user notification_id : Z) (d : db) :
  sqlite_int notification_id = true ->
  (forall n, In n (rows (notifications d)) ->
             n_id n = notification_id -> n_user_id n <> current_user) ->
  notification_mark_read ajax current_user notification_id d =
    (inr (Page (flash_redirect "error" "notifications_list" None)), d) /\
  notification_delete ajax current_user notification_id d =
    (inr (Page (flash_redirect "error" "notifications_list" None)), d).
Proof.
  intros _ Hother.
  assert (Hnone : query_one (fun n => (n_id n =? notification_id)
                                      && (n_user_id n =? current_user))
                    (notifications d) = None).
  { destruct (query_one _ (notifications d)) as [n|] eqn:Hq; [|reflexivity].
    apply query_one_found in Hq. destruct Hq as [Hin Hw].
    apply andb_true_iff in Hw. destruct Hw as [Hid Hu].
    apply Z.eqb_eq in Hid, Hu. exfalso. exact (Hother n Hin Hid Hu). }
  unfold notification_mark_read, notification_delete, bind, query.
  rewrite Hnone. split; reflexivity.
Qed.

Lemma notification_of_another_user_witness :
  notification_delete true 1 2 db_notices =
  (inr (Page (flash_redirect "error" "notifications_list" None)), db_notices).
Proof.
  apply (notification_of_another_user true 1 2 db_notices eq_refl).
  intros n [<-|[<-|[<-|[]]]] Hid; simpl in *; discriminate.
Defined.

(** X24. Deleting an own notification removes every row of that id and
    no other: a lookup of the id finds nothing afterwards, and every
    notification of another id is in the table as it was. *)
Theorem notification_delete_removes
    (ajax : bool) (current_user notification_id : Z) (d : db)
    (n0 : notification_row) :
  query_one (fun n => (n_id n =? notification_id) && (n_user_id n =? current_user))
    (notifications d) = Some n0 ->
  let d' := db_after (notification_delete ajax current_user notification_id) d in
  query_one (fun n => n_id n =? notification_id) (notifications d') = None /\
  (forall n, In n (rows (notifications d)) -> n_id n <> notification_id ->
             In n (rows (notifications d'))) /\
  (forall n, In n (rows (notifications d')) -> In n (rows (notifications d))).
Proof.
  intros Hq d'.
  assert (Hd : notifications d' =
               sql_delete (fun n => n_id n =? notification_id) (notifications d)).
  { unfold d', db_after, notification_delete, bind, query. rewrite Hq.
    rewrite execute_ok by reflexivity. destruct ajax; reflexivity. }
  rewrite Hd. unfold sql_delete. cbn [rows]. split; [|split].
  - unfold query_one, sql_select. cbn [rows].
    destruct (filter _ (filter _ _)) as [|x l] eqn:E; [reflexivity|].
    assert (Hx : In x (x :: l)) by now left.
    rewrite <- E in Hx. apply filter_In in Hx. destruct Hx as [Hx Hid].
    apply filter_In in Hx. destruct Hx as [_ Hnid].
    rewrite Hid in Hnid. discriminate.
  - intros n Hin Hne. apply filter_In. split; [assumption|].
    apply Z.eqb_neq in Hne. now rewrite Hne.
  - intros n Hin. apply filter_In in Hin. tauto.
Qed.

Lemma notification_delete_removes_witness :
  query_one (fun n => n_id n =? 2)
    (notifications (db_after (notification_delete false 2 2) db_notices)) = None.
Proof.
  apply (notification_delete_removes false 2 2 db_notices (notice 2 2 (Some 0))).
  reflexivity.
Defined.

(** ** Deactivating a user *)

(** X25. Only an administrator toggles a user: for any other role the
    request answers an error and writes nothing.  For an administrator, an
    active user becomes inactive and any other user active; after an
    active user was toggled, no row of that id is among the users the
    quality notifications go to. *)
Theorem admin_toggle_user_spec (current_role : string) (user_id : Z) (d : db) :
  (current_role <> "admin" ->
   admin_toggle_user current_role user_id d =
   (inr (flash_redirect "error" "index" None), d)) /\
  (current_role = "admin" ->
   forall u, query_one (fun x => u_id x =? user_id) (users d) = Some u ->
   let d' := db_after (admin_toggle_user current_role user_id) d in
   (exists u',
      query_one (fun x => u_id x =? user_id) (users d') = Some u' /\
      u_active u' = Some (if truthy_int (u_active u) then 0 else 1) /\
      u_username u' = u_username u /\ u_role u' = u_role u) /\
   (truthy_int (u_active u) = true ->
    forall x, In x (rows (users d')) -> u_id x = user_id -> ~ quality_user x)).
Proof.
  split.
  - intros Hrole. unfold admin_toggle_user, role_required.
    cbn [existsb]. apply String.eqb_neq in Hrole. rewrite Hrole. reflexivity.
  - intros -> u Hu d'.
    assert (Hd : users d' =
                 sql_update (fun x => u_id x =? user_id)
                   (set_u_active (Some (if truthy_int (u_active u) then 0 else 1)))
                   (users d)).
    { unfold d', db_after, admin_toggle_user, role_required, bind, query.
      cbn [existsb String.eqb Ascii.eqb Bool.eqb orb negb].
      rewrite Hu. rewrite execute_ok by reflexivity. reflexivity. }
    rewrite Hd. split.
    + rewrite query_one_update by reflexivity. rewrite Hu. cbn [option_map].
      pose proof (query_one_found _ _ _ Hu) as [_ Hid]. rewrite Hid.
      eexists. split; [reflexivity|]. repeat split.
    + intros Hact x Hx Hid [Hone _]. rewrite Hact in Hx.
      cbn [sql_update rows] in Hx. apply in_map_iff in Hx.
      destruct Hx as (y & Hy & _).
      destruct (u_id y =? user_id) eqn:Hyid.
      * subst x. cbn in Hone. discriminate.
      * subst x. apply Z.eqb_neq in Hyid. contradiction.
Qed.

Lemma admin_toggle_user_spec_witness :
  admin_toggle_user "inspector" 2 (db_supplier "pending" "received") =
    (inr (flash_redirect "error" "index" None),
     db_supplier "pending" "received") /\
  exists u',
    query_one (fun x => u_id x =? 2)
      (users (db_after (admin_toggle_user "admin" 2)
                (db_supplier "pending" "received"))) = Some u' /\
    u_active u' = Some 0.
Proof.
  split.
  - apply (admin_toggle_user_spec "inspector" 2). discriminate.
  - destruct (admin_toggle_user_spec "admin" 2 (db_supplier "pending" "received"))
      as [_ H].
    destruct (H eq_refl (user_of 2 "qm" "quality_manager") eq_refl)
      as [(u' & Hrow & Hact & _) _].
    exists u'. split; assumption.
Defined.

(** ** Resolving and closing an error report *)

(** X26. Resolving an existing error report sets its status to
    [resolved] and stamps [resolved_date]; closing sets [closed] and stamps
    [closed_date].  Neither looks at the status the report is in or at its
    disposition and root cause, and neither touches the other date, the
    description, the severity or the links of the report. *)
Theorem error_report_resolve_close
    (current_user : Z) (now : timestamp) (error_id : Z) (form : update_form)
    (d : db) (r : error_report_row) :
  error_report_by_id d error_id = Some r ->
  let d' := db_after (error_report_update current_user now error_id form) d in
  (f_action form = Some "resolve" ->
   exists r',
     error_report_by_id d' error_id = Some r' /\
     er_status r' = "resolved" /\ er_resolved_date r' = Some now /\
     er_closed_date r' = er_closed_date r /\
     er_disposition r' = er_disposition r /\ er_root_cause r' = er_root_cause r /\
     er_description r' = er_description r /\ er_severity r' = er_severity r /\
     er_supplier_id r' = er_supplier_id r) /\
  (f_action form = Some "close" ->
   exists r',
     error_report_by_id d' error_id = Some r' /\
     er_status r' = "closed" /\ er_closed_date r' = Some now /\
     er_resolved_date r' = er_resolved_date r /\
     er_disposition r' = er_disposition r /\ er_root_cause r' = er_root_cause r /\
     er_description r' = er_description r /\ er_severity r' = er_severity r /\
     er_supplier_id r' = er_supplier_id r).
Proof.
  intros Hr d'. pose proof (error_report_by_id_key _ _ _ Hr) as Hk.
  split; intros Ha; unfold d', db_after, error_report_update, bind, query;
    fold (error_report_by_id d error_id); rewrite Hr, Ha;
    cbn [py_eq String.eqb Ascii.eqb Bool.eqb];
    rewrite execute_ok by reflexivity; unfold ret;
    rewrite log_audit_run; cbn [snd];
    rewrite error_report_by_id_with_audit_logs;
    rewrite error_report_by_id_update by reflexivity;
    rewrite Hr; cbn [option_map]; rewrite Hk, Z.eqb_refl;
    (eexists; split; [reflexivity|]; repeat split).
Qed.

Lemma error_report_resolve_close_witness :
  exists r',
    error_report_by_id
      (db_after
         (error_report_update 2 "2024-05-21 09:00:00" 4
            {| f_action := Some "close"; f_disposition := None;
               f_root_cause := None; f_corrective_action := None;
               f_assigned_to := None |})
         db_closed_report) 4 = Some r' /\
    er_status r' = "closed" /\ er_closed_date r' = Some "2024-05-21 09:00:00".
Proof.
  destruct (error_report_resolve_close 2 "2024-05-21 09:00:00" 4
              {| f_action := Some "close"; f_disposition := None;
                 f_root_cause := None; f_corrective_action := None;
                 f_assigned_to := None |}
              db_closed_report closed_report eq_refl) as [_ H].
  destruct (H eq_refl) as (r' & Hrow & Hs & Hc & _).
  exists r'. repeat split; assumption.
Defined.

(** X27. An update request whose action is none of [update], [resolve],
    [close] and [reopen], or is missing, leaves the error reports as they
    were and flashes nothing, but still appends a row to the audit log
    that names the action; a request whose id, one that can be bound to
    the lookup, names no report writes nothing at all. *)
Theorem error_report_update_unknown_action
    (current_user : Z) (now : timestamp) (error_id : Z) (form : update_form)
    (d : db) :
  (sqlite_int error_id = true ->
   error_report_by_id d error_id = None ->
   error_report_update current_user now error_id form d =
   (inr (flash_redirect "error" "jobs_list" None), d)) /\
  (forall r, error_report_by_id d error_id = Some r ->
   (forall a, f_action form = Some a ->
              ~ In a ["update"; "resolve"; "close"; "reopen"]) ->
   let d' := db_after (error_report_update current_user now error_id form) d in
   result_of (error_report_update current_user now error_id form) d =
     inr {| flashed := [];
            answer := Redirect "error_report_detail" (Some error_id) |} /\
   error_reports d' = error_reports d /\
   exists a,
     rows (audit_logs d') = rows (audit_logs d) ++ [a] /\
     a_entity_type a = "error_report" /\ a_entity_id a = error_id /\
     a_description a = f_action form).
Proof.
  split.
  - intros _ Hr. unfold error_report_update, bind, query.
    fold (error_report_by_id d error_id). rewrite Hr. reflexivity.
  - intros r Hr Hbad d'.
    assert (Hne : forall a, In a ["update"; "resolve"; "close"; "reopen"] ->
                            py_eq (f_action form) a = false).
    { intros a Ha. apply py_eq_false. intros Hf. exact (Hbad a Hf Ha). }
    unfold d', result_of, db_after, error_report_update, bind, query.
    fold (error_report_by_id d error_id). rewrite Hr.
    rewrite !Hne by (simpl; tauto).
    unfold ret. rewrite log_audit_run. cbn [fst snd].
    split; [reflexivity|]. split; [reflexivity|].
    eexists. split; [reflexivity|]. repeat split.
Qed.

Lemma error_report_update_unknown_action_witness :
  error_report_update 2 "2024-05-21 09:00:00" 5 reopen_form db_closed_report =
    (inr (flash_redirect "error" "jobs_list" None), db_closed_report) /\
  error_reports
    (db_after
       (error_report_update 2 "2024-05-21 09:00:00" 4
          {| f_action := Some "archive"; f_disposition := None;
             f_root_cause := None; f_corrective_action := None;
             f_assigned_to := None |})
       db_closed_report) = error_reports db_closed_report.
Proof.
  split.
  - apply (error_report_update_unknown_action 2 "2024-05-21 09:00:00" 5
             reopen_form db_closed_report); reflexivity.
  - destruct (error_report_update_unknown_action 2 "2024-05-21 09:00:00" 4
                {| f_action := Some "archive"; f_disposition := None;
                   f_root_cause := None; f_corrective_action := None;
                   f_assigned_to := None |}
                db_closed_report) as [_ H].
    destruct (H closed_report eq_refl) as (_ & Hsame & _).
    + intros a Ha. injection Ha as <-. simpl.
      intros [E|[E|[E|[E|[]]]]]; discriminate E.
    + exact Hsame.
Defined.

(** ** Receiving and inspecting an external process *)

(** X28. Neither the receive request nor the inspect request ever writes
    an external process: both name columns the table [external_processes]
    of [init_db] does not have, so for every existing external process and
    every form the request is left by an exception and the database is as
    before.  The receive request raises [IndexError] when no quantity was
    submitted, since it then reads the missing column [quantity_sent]. *)
Theorem external_process_receive_inspect_raise
    (current_user : Z) (now : timestamp) (ep_id : Z)
    (quantity_received status inspection_notes : option string)
    (d : db) (ep : external_process_row) :
  external_process_by_id d ep_id = Some ep ->
  external_process_receive now ep_id quantity_received d =
    (inl (if truthy quantity_received then Raised no_such_column
          else IndexError "No item with that key"), d) /\
  external_process_inspect current_user now ep_id status inspection_notes d =
    (inl no_such_column, d).
Proof.
  intros Hep. unfold external_process_by_id in Hep. split.
  - unfold external_process_receive. rewrite Hep.
    destruct (truthy quantity_received); reflexivity.
  - unfold external_process_inspect, bind, query. rewrite Hep. reflexivity.
Qed.

Lemma external_process_receive_inspect_raise_witness :
  external_process_inspect 2 "2024-05-21 09:00:00" 9 (Some "approved") None
    (db_supplier "pending" "received") =
  (inl no_such_column, db_supplier "pending" "received").
Proof.
  apply (external_process_receive_inspect_raise 2 "2024-05-21 09:00:00" 9
           None (Some "approved") None (db_supplier "pending" "received")
           (external_process_9 "received")).
  reflexivity.
Defined.

(** ** Supplier error reports, on every database *)

Lemma notify_quality_users_rows now j what severity error_id d :
  exists t new,
    notify_quality_users now (Some j) what severity error_id d =
      (inr tt, with_notifications d t) /\
    rows t = rows (notifications d) ++ new /\
    List.length new =
      List.length
        (unseen_users []
           (sql_select (fun u => (u_role u =? "quality_manager")%string
                                 && is_one (u_active u)) (users d) ++
            sql_select (fun u => (u_role u =? "admin")%string
                                 && is_one (u_active u)) (users d))) /\
    Forall (rejection_notice "error_report" "error_report" error_id) new.
Proof.
  unfold notify_quality_users, bind at 1.
  rewrite get_quality_notification_users_run.
  set (us := unseen_users [] _).
  destruct (for_each_notify_rows now "error_report"
              ("New Quality Issue: " ++ j_part_number j)%string
              (what ++ " issue reported for PO " ++ j_po_number j
                    ++ ". Severity: " ++ severity)%string
              "error_report" error_id us d)
    as (t & new & Hrun & Hrows & Hids & Hall).
  exists t, new. split; [exact Hrun|]. split; [exact Hrows|].
  split; [|exact Hall].
  rewrite <- (length_map n_user_id), Hids. apply length_map.
Qed.


Lemma error_report_id_fresh d :
  query_one (fun r => er_id r =? next_rowid er_id (error_reports d))
    (error_reports d) = None.
Proof.
  destruct (query_one _ (error_reports d)) as [r|] eqn:Hq; [|reflexivity].
  apply query_one_found in Hq. destruct Hq as [Hin Hid].
  apply Z.eqb_eq in Hid.
  pose proof (next_rowid_fresh er_id (error_reports d) r Hin). lia.
Qed.

Lemma query_one_and {R} (w1 w2 : R -> bool) (t : table R) r :
  query_one w1 t = Some r -> w2 r = true ->
  query_one (fun x => w1 x && w2 x) t = Some r.
Proof.
  unfold query_one, sql_select. intros H1 H2.
  induction (rows t) as [|x l IH]; cbn [filter] in *; [discriminate|].
  destruct (w1 x) eqn:Hx; cbn [andb].
  - cbn in H1. injection H1 as ->. rewrite H2. reflexivity.
  - exact (IH H1).
Qed.

Lemma job_joined d job_id j :
  job_by_id d job_id = Some j ->
  existsb (fun x => j_id x =? job_id) (rows (jobs d)) = true.
Proof.
  intros Hj. apply query_one_found in Hj. destruct Hj as [Hin Hid].
  apply existsb_exists. eauto.
Qed.




(** X30. A supplier error report against a material control that is
    already [rejected], whose job exists, succeeds: it stores an open
    [material_supplier] report with the supplier, the job and the id of the
    material control, and leaves the material controls as they were.  A
    request that lacks the severity or the description is left by
    [BadRequestKeyError] before anything is written. *)
Theorem material_error_report_already_rejected
    (current_user : Z) (now : timestamp) (mc_id : Z) (form : error_form)
    (d : db) (mc : material_control_row) (j : job_row) :
  material_control_by_id d mc_id = Some mc ->
  job_by_id d (mcr_job_id mc) = Some j ->
  let call := material_error_report current_user now "POST" mc_id form in
  let error_id := next_rowid er_id (error_reports d) in
  (f_severity form = None \/ f_description form = None ->
   db_after call d = d /\ exists key, result_of call d = inl (BadRequestKeyError key)) /\
  (forall severity description,
   f_severity form = Some severity ->
   f_description form = Some description ->
   mcr_status mc = "rejected" ->
   result_of call d =
     inr (flash_redirect "success" "error_report_detail" (Some error_id)) /\
   material_controls (db_after call d) = material_controls d /\
   exists r,
     error_report_by_id (db_after call d) error_id = Some r /\
     supplier_report "material_supplier" (mcr_supplier_id mc) severity
       description r /\
     er_material_control_id r = Some mc_id /\ er_external_process_id r = None /\
     er_job_id r = mcr_job_id mc).
Proof.
  intros Hq Hj call error_id.
  assert (Hmc : query_one
                  (fun m => (mcr_id m =? mc_id)
                            && existsb (fun j0 => j_id j0 =? mcr_job_id m)
                                 (rows (jobs d)))
                  (material_controls d) = Some mc).
  { apply (query_one_and (fun m => mcr_id m =? mc_id)
             (fun m => existsb (fun j0 => j_id j0 =? mcr_job_id m) (rows (jobs d))));
      [exact Hq | exact (job_joined d _ j Hj)]. }
  split.
  - intros Hmiss.
    unfold call, result_of, db_after, material_error_report, bind, query.
    rewrite Hmc. cbn [String.eqb Ascii.eqb Bool.eqb].
    destruct (f_severity form) as [sev|] eqn:Hsev.
    + destruct Hmiss as [Hm|Hm]; [discriminate|]. rewrite Hm.
      cbn [form_get_required ret raise]. unfold ret, raise. cbn [fst snd].
      split; [reflexivity | eauto].
    + cbn [form_get_required]. unfold raise. cbn [fst snd].
      split; [reflexivity | eauto].
  - intros severity description Hsev Hdesc Hst.
    unfold call, result_of, db_after, material_error_report, bind, query.
    rewrite Hmc, Hsev, Hdesc.
    cbn [String.eqb Ascii.eqb Bool.eqb form_get_required ret].
    unfold insert_supplier_error_report, execute_insert.
    replace (has_columns error_reports_columns _) with true by reflexivity.
    cbn [sql_insert]. fold error_id.
    set (d1 := with_error_reports d _).
    change (query_one (fun j0 => j_id j0 =? mcr_job_id mc) (jobs d1))
      with (job_by_id d (mcr_job_id mc)).
    rewrite Hj.
    destruct (notify_quality_users_rows now j "Material supplier" severity
                error_id d1) as (t & new & Hrun & _).
    rewrite Hrun, Hst. cbn [String.eqb Ascii.eqb Bool.eqb negb].
    unfold ret. rewrite log_audit_run. cbn [fst snd].
    split; [reflexivity|]. split; [reflexivity|].
    eexists. split.
    + unfold error_report_by_id.
      cbn [error_reports with_audit_logs with_notifications]. unfold d1.
      cbn [error_reports with_error_reports].
      apply query_one_appended; [apply error_report_id_fresh|].
      cbn [er_id]. apply Z.eqb_refl.
    + repeat split.
Qed.

Lemma material_error_report_already_rejected_witness :
  material_controls
    (db_after
       (material_error_report 2 "2024-05-21 09:00:00" "POST" 3 major_error_form)
       (db_supplier "rejected" "received")) =
  material_controls (db_supplier "rejected" "received").
Proof.
  destruct (material_error_report_already_rejected 2 "2024-05-21 09:00:00" 3
              major_error_form (db_supplier "rejected" "received")
              (material_control_3 "rejected")
              (bracket_job "material_control" None) eq_refl eq_refl)
    as [_ H].
  destruct (H "major" "Wrong alloy delivered" eq_refl eq_refl eq_refl)
    as (_ & Hsame & _).
  exact Hsame.
Defined.
